(** * read_fpod: decoding CPOD / FPOD click-detector files

    A shallow embedding of [src/read_fpod.cpp] and the properties of its
    decoders.  The C++ functions keep their names.  Conventions:

    - [uint8_t] buffers are [list byte]; a byte enters integer arithmetic
      through [u8], its value in [0, 256);
    - [int] values live in [Z]; the fixed-width result type of
      [constructInt<T>] wraps after every operation;
    - [size_t] arithmetic that can wrap in the source ([buf.size() - 5]) is
      written with its reduction modulo [2^64];
    - [double] values are IEEE binary64 primitive floats;
    - an [std::ifstream] is the list of bytes not yet read;
    - an indexed write or read outside an Rcpp vector or an [std::vector] is
      undefined behaviour in the source: the embedded operation returns
      [None]. *)

From Stdlib Require Import ZArith List String Ascii Strings.Byte Bool Lia Floats Uint63.
From stdpp Require Import base option list.
Import ListNotations.

#[local] Open Scope string_scope.
#[local] Open Scope Z_scope.
#[local] Open Scope list_scope.

(** ** Bytes and fixed-width integers *)

Definition u8 (b : byte) : Z := Z.of_N (Byte.to_N b).

(** [buf[i]] on a [std::vector<uint8_t>].  Outside the vector the access is
    undefined in the source, and the model gives 0 there: a theorem that
    states that a decoder returns takes blocks as long as the file format
    has them, so that the indices used are inside the block. *)
Definition at_ (buf : list byte) (i : nat) : Z := u8 (nth i buf x00).

(** The instances of the template parameter [T] of [constructInt]. *)
Inductive int_type : Set := uint32_t | int32_t | int64_t.

Definition width (T : int_type) : Z :=
  match T with
  | uint32_t | int32_t => 32
  | int64_t => 64
  end.

Definition signed (T : int_type) : bool :=
  match T with
  | uint32_t => false
  | int32_t | int64_t => true
  end.

(** Conversion of a mathematical integer to [T] (two's complement). *)
Definition wrap (T : int_type) (z : Z) : Z :=
  if signed T
  then (z + 2 ^ (width T - 1)) mod 2 ^ width T - 2 ^ (width T - 1)
  else z mod 2 ^ width T.

Definition size_t_wrap (z : Z) : Z := z mod 2 ^ 64.

(** ** [eof]: is a block a terminator block *)

Definition eof_code : byte := xff.

(** [std::count(buf.begin(), buf.end(), eof_code)] *)
Definition count (buf : list byte) (c : byte) : Z :=
  Z.of_nat (length (List.filter (fun b => Byte.eqb b c) buf)).

Definition eof (buf : list byte) : bool :=
  let eof_count := count buf eof_code in
  size_t_wrap (Z.of_nat (length buf) - 5) <=? eof_count.

(** ** [constructInt]: big-endian field of [size] bytes at [offset] *)

Definition constructInt_step (T : int_type) (buf : list byte) (offset : nat)
    (res : Z) (i : nat) : Z :=
  let res := wrap T (Z.shiftl res 8) in
  wrap T (Z.lor res (wrap T (at_ buf (offset + i)))).

(** [offset] and [size] are constants below 300 at every call: their sum
    does not wrap. *)
Definition constructInt (T : int_type) (buf : list byte) (offset size : nat) : Z :=
  if (Z.of_nat offset + Z.of_nat size <? Z.of_nat (length buf))
  then fold_left (constructInt_step T buf offset) (seq 0 size) 0
  else 0.

(** ** [getBufsize] *)

Definition getBufsize (ext : string) : nat * nat :=
  if (ext =? "CP1")%string then (360, 10)%nat
  else if (ext =? "CP3")%string then (720, 40)%nat
  else (1024, 16)%nat.

(** ** [getSpeciesFromCode] *)

Definition cpod_codes : list (Z * string) :=
  [ (0, "NBHF"); (1, "NBHF"); (2, "OtherCet"); (3, "OtherCet");
    (4, "Unclassed"); (5, "Unclassed"); (6, "Sonar"); (7, "Sonar") ].

Definition fpod_codes : list (Z * string) :=
  [ (0, "NBHF"); (1, "OtherCet"); (2, "Unclassed"); (3, "Sonar") ].

(** [m[code]] on an [unordered_map<uint8_t, string>]: the mapped value, the
    empty string for a key that is absent. *)
Fixpoint map_at (m : list (Z * string)) (code : Z) : string :=
  match m with
  | [] => ""
  | (k, v) :: m' => if k =? code then v else map_at m' code
  end.

(** The argument is converted to [uint8_t] at the call. *)
Definition to_uint8 (z : Z) : Z := z mod 256.

Definition getSpeciesFromCode (code : Z) (ext : string) : string :=
  if (ext =? "CP3")%string && (code <=? 7) then map_at cpod_codes code
  else if (ext =? "FP3")%string && (code <=? 3) then map_at fpod_codes code
  else "".

(** ** [double] arithmetic *)

(** Conversion of an integer to [double]; exact on the values the decoders
    convert, which are below [2^24]. *)
Definition double_of_int (z : Z) : float := PrimFloat.of_uint63 (Uint63.of_Z z).

(** [static_cast<int>(d)]: truncation toward zero. *)
Definition int_of_double (d : float) : Z :=
  match Prim2SF d with
  | S754_finite s m e =>
      let a := match e with
               | Z0 => Zpos m
               | Zpos p => Zpos m * 2 ^ Zpos p
               | Zneg p => Zpos m / 2 ^ Zpos p
               end in
      if s then - a else a
  | _ => 0
  end.

(** ** Waveform data *)

Record WavDataChunk : Type := Build_WavDataChunk {
  IPI : list Z;
  SPL : list Z }.

Record WavData : Type := Build_WavData {
  click : Z;
  chunks : list WavDataChunk }.

(** [WavData(int m_click)] *)
Definition WavData_new (m_click : Z) : WavData := Build_WavData m_click [].

(** ** [FPODData]

    The members [pod_angle], [pic_code] and [fgpa_code] are never read or
    written and are left out.  Of the [header] list only the entry
    [pic_ver], the one the decoders read, is kept. *)

Module FPODData.

Record t : Type := Build {
  (* click data *)
  min : list Z;
  microsec : list Z;
  click_no : list Z;
  ncyc : list Z;
  pkat : list Z;
  clk_ipi_range : list Z;
  ipi_pre_max : list Z;
  ipi_at_max : list Z;
  khz : list Z;
  amp_at_max : list Z;
  amp_reversals : list Z;
  duration : list float;
  has_wav : list bool;
  (* train data (if CP3/FP3) *)
  train_id : list Z;
  species : list string;
  quality_level : list Z;
  echo : list bool;
  (* wave data *)
  wav_data : list WavData;
  (* environmental data *)
  temp_deg_c : list Z;
  bat1 : list Z;
  bat2 : list Z;
  (* header["pic_ver"] *)
  pic_ver : Z;
  last_click : Z }.

(** Assignment to one member. *)

Definition set_min (v : list Z) (d : t) : t :=
  Build v (microsec d) (click_no d) (ncyc d) (pkat d) (clk_ipi_range d)
    (ipi_pre_max d) (ipi_at_max d) (khz d) (amp_at_max d) (amp_reversals d)
    (duration d) (has_wav d) (train_id d) (species d) (quality_level d)
    (echo d) (wav_data d) (temp_deg_c d) (bat1 d) (bat2 d) (pic_ver d)
    (last_click d).

Definition set_microsec (v : list Z) (d : t) : t :=
  Build (min d) v (click_no d) (ncyc d) (pkat d) (clk_ipi_range d)
    (ipi_pre_max d) (ipi_at_max d) (khz d) (amp_at_max d) (amp_reversals d)
    (duration d) (has_wav d) (train_id d) (species d) (quality_level d)
    (echo d) (wav_data d) (temp_deg_c d) (bat1 d) (bat2 d) (pic_ver d)
    (last_click d).

Definition set_click_no (v : list Z) (d : t) : t :=
  Build (min d) (microsec d) v (ncyc d) (pkat d) (clk_ipi_range d)
    (ipi_pre_max d) (ipi_at_max d) (khz d) (amp_at_max d) (amp_reversals d)
    (duration d) (has_wav d) (train_id d) (species d) (quality_level d)
    (echo d) (wav_data d) (temp_deg_c d) (bat1 d) (bat2 d) (pic_ver d)
    (last_click d).

Definition set_ncyc (v : list Z) (d : t) : t :=
  Build (min d) (microsec d) (click_no d) v (pkat d) (clk_ipi_range d)
    (ipi_pre_max d) (ipi_at_max d) (khz d) (amp_at_max d) (amp_reversals d)
    (duration d) (has_wav d) (train_id d) (species d) (quality_level d)
    (echo d) (wav_data d) (temp_deg_c d) (bat1 d) (bat2 d) (pic_ver d)
    (last_click d).

Definition set_pkat (v : list Z) (d : t) : t :=
  Build (min d) (microsec d) (click_no d) (ncyc d) v (clk_ipi_range d)
    (ipi_pre_max d) (ipi_at_max d) (khz d) (amp_at_max d) (amp_reversals d)
    (duration d) (has_wav d) (train_id d) (species d) (quality_level d)
    (echo d) (wav_data d) (temp_deg_c d) (bat1 d) (bat2 d) (pic_ver d)
    (last_click d).

Definition set_clk_ipi_range (v : list Z) (d : t) : t :=
  Build (min d) (microsec d) (click_no d) (ncyc d) (pkat d) v (ipi_pre_max d)
    (ipi_at_max d) (khz d) (amp_at_max d) (amp_reversals d) (duration d)
    (has_wav d) (train_id d) (species d) (quality_level d) (echo d)
    (wav_data d) (temp_deg_c d) (bat1 d) (bat2 d) (pic_ver d) (last_click d).

Definition set_ipi_pre_max (v : list Z) (d : t) : t :=
  Build (min d) (microsec d) (click_no d) (ncyc d) (pkat d) (clk_ipi_range d)
    v (ipi_at_max d) (khz d) (amp_at_max d) (amp_reversals d) (duration d)
    (has_wav d) (train_id d) (species d) (quality_level d) (echo d)
    (wav_data d) (temp_deg_c d) (bat1 d) (bat2 d) (pic_ver d) (last_click d).

Definition set_ipi_at_max (v : list Z) (d : t) : t :=
  Build (min d) (microsec d) (click_no d) (ncyc d) (pkat d) (clk_ipi_range d)
    (ipi_pre_max d) v (khz d) (amp_at_max d) (amp_reversals d) (duration d)
    (has_wav d) (train_id d) (species d) (quality_level d) (echo d)
    (wav_data d) (temp_deg_c d) (bat1 d) (bat2 d) (pic_ver d) (last_click d).

Definition set_khz (v : list Z) (d : t) : t :=
  Build (min d) (microsec d) (click_no d) (ncyc d) (pkat d) (clk_ipi_range d)
    (ipi_pre_max d) (ipi_at_max d) v (amp_at_max d) (amp_reversals d)
    (duration d) (has_wav d) (train_id d) (species d) (quality_level d)
    (echo d) (wav_data d) (temp_deg_c d) (bat1 d) (bat2 d) (pic_ver d)
    (last_click d).

Definition set_amp_at_max (v : list Z) (d : t) : t :=
  Build (min d) (microsec d) (click_no d) (ncyc d) (pkat d) (clk_ipi_range d)
    (ipi_pre_max d) (ipi_at_max d) (khz d) v (amp_reversals d) (duration d)
    (has_wav d) (train_id d) (species d) (quality_level d) (echo d)
    (wav_data d) (temp_deg_c d) (bat1 d) (bat2 d) (pic_ver d) (last_click d).

Definition set_amp_reversals (v : list Z) (d : t) : t :=
  Build (min d) (microsec d) (click_no d) (ncyc d) (pkat d) (clk_ipi_range d)
    (ipi_pre_max d) (ipi_at_max d) (khz d) (amp_at_max d) v (duration d)
    (has_wav d) (train_id d) (species d) (quality_level d) (echo d)
    (wav_data d) (temp_deg_c d) (bat1 d) (bat2 d) (pic_ver d) (last_click d).

Definition set_duration (v : list float) (d : t) : t :=
  Build (min d) (microsec d) (click_no d) (ncyc d) (pkat d) (clk_ipi_range d)
    (ipi_pre_max d) (ipi_at_max d) (khz d) (amp_at_max d) (amp_reversals d) v
    (has_wav d) (train_id d) (species d) (quality_level d) (echo d)
    (wav_data d) (temp_deg_c d) (bat1 d) (bat2 d) (pic_ver d) (last_click d).

Definition set_has_wav (v : list bool) (d : t) : t :=
  Build (min d) (microsec d) (click_no d) (ncyc d) (pkat d) (clk_ipi_range d)
    (ipi_pre_max d) (ipi_at_max d) (khz d) (amp_at_max d) (amp_reversals d)
    (duration d) v (train_id d) (species d) (quality_level d) (echo d)
    (wav_data d) (temp_deg_c d) (bat1 d) (bat2 d) (pic_ver d) (last_click d).

Definition set_train_id (v : list Z) (d : t) : t :=
  Build (min d) (microsec d) (click_no d) (ncyc d) (pkat d) (clk_ipi_range d)
    (ipi_pre_max d) (ipi_at_max d) (khz d) (amp_at_max d) (amp_reversals d)
    (duration d) (has_wav d) v (species d) (quality_level d) (echo d)
    (wav_data d) (temp_deg_c d) (bat1 d) (bat2 d) (pic_ver d) (last_click d).

Definition set_species (v : list string) (d : t) : t :=
  Build (min d) (microsec d) (click_no d) (ncyc d) (pkat d) (clk_ipi_range d)
    (ipi_pre_max d) (ipi_at_max d) (khz d) (amp_at_max d) (amp_reversals d)
    (duration d) (has_wav d) (train_id d) v (quality_level d) (echo d)
    (wav_data d) (temp_deg_c d) (bat1 d) (bat2 d) (pic_ver d) (last_click d).

Definition set_quality_level (v : list Z) (d : t) : t :=
  Build (min d) (microsec d) (click_no d) (ncyc d) (pkat d) (clk_ipi_range d)
    (ipi_pre_max d) (ipi_at_max d) (khz d) (amp_at_max d) (amp_reversals d)
    (duration d) (has_wav d) (train_id d) (species d) v (echo d) (wav_data d)
    (temp_deg_c d) (bat1 d) (bat2 d) (pic_ver d) (last_click d).

Definition set_echo (v : list bool) (d : t) : t :=
  Build (min d) (microsec d) (click_no d) (ncyc d) (pkat d) (clk_ipi_range d)
    (ipi_pre_max d) (ipi_at_max d) (khz d) (amp_at_max d) (amp_reversals d)
    (duration d) (has_wav d) (train_id d) (species d) (quality_level d) v
    (wav_data d) (temp_deg_c d) (bat1 d) (bat2 d) (pic_ver d) (last_click d).

Definition set_wav_data (v : list WavData) (d : t) : t :=
  Build (min d) (microsec d) (click_no d) (ncyc d) (pkat d) (clk_ipi_range d)
    (ipi_pre_max d) (ipi_at_max d) (khz d) (amp_at_max d) (amp_reversals d)
    (duration d) (has_wav d) (train_id d) (species d) (quality_level d)
    (echo d) v (temp_deg_c d) (bat1 d) (bat2 d) (pic_ver d) (last_click d).

Definition set_temp_deg_c (v : list Z) (d : t) : t :=
  Build (min d) (microsec d) (click_no d) (ncyc d) (pkat d) (clk_ipi_range d)
    (ipi_pre_max d) (ipi_at_max d) (khz d) (amp_at_max d) (amp_reversals d)
    (duration d) (has_wav d) (train_id d) (species d) (quality_level d)
    (echo d) (wav_data d) v (bat1 d) (bat2 d) (pic_ver d) (last_click d).

Definition set_bat1 (v : list Z) (d : t) : t :=
  Build (min d) (microsec d) (click_no d) (ncyc d) (pkat d) (clk_ipi_range d)
    (ipi_pre_max d) (ipi_at_max d) (khz d) (amp_at_max d) (amp_reversals d)
    (duration d) (has_wav d) (train_id d) (species d) (quality_level d)
    (echo d) (wav_data d) (temp_deg_c d) v (bat2 d) (pic_ver d) (last_click d).

Definition set_bat2 (v : list Z) (d : t) : t :=
  Build (min d) (microsec d) (click_no d) (ncyc d) (pkat d) (clk_ipi_range d)
    (ipi_pre_max d) (ipi_at_max d) (khz d) (amp_at_max d) (amp_reversals d)
    (duration d) (has_wav d) (train_id d) (species d) (quality_level d)
    (echo d) (wav_data d) (temp_deg_c d) (bat1 d) v (pic_ver d) (last_click d).

Definition set_pic_ver (v : Z) (d : t) : t :=
  Build (min d) (microsec d) (click_no d) (ncyc d) (pkat d) (clk_ipi_range d)
    (ipi_pre_max d) (ipi_at_max d) (khz d) (amp_at_max d) (amp_reversals d)
    (duration d) (has_wav d) (train_id d) (species d) (quality_level d)
    (echo d) (wav_data d) (temp_deg_c d) (bat1 d) (bat2 d) v (last_click d).

Definition set_last_click (v : Z) (d : t) : t :=
  Build (min d) (microsec d) (click_no d) (ncyc d) (pkat d) (clk_ipi_range d)
    (ipi_pre_max d) (ipi_at_max d) (khz d) (amp_at_max d) (amp_reversals d)
    (duration d) (has_wav d) (train_id d) (species d) (quality_level d)
    (echo d) (wav_data d) (temp_deg_c d) (bat1 d) (bat2 d) (pic_ver d) v.
End FPODData.

(** The constructor [FPODData(max_clicks, header)]: every Rcpp vector has
    [max_clicks] elements, zero, [FALSE] or the empty string, except
    [click_no], which is [seq(1, max_clicks)] ([Rcpp::seq] raises an error
    when [max_clicks] is 0; the decoders are not reached then). *)
Definition FPODData_new (max_clicks : nat) (header_pic_ver : Z) : FPODData.t :=
  let zeros := replicate max_clicks 0 in
  FPODData.Build
    zeros zeros (map Z.of_nat (seq 1 max_clicks)) zeros zeros zeros zeros zeros
    zeros zeros zeros
    (replicate max_clicks (double_of_int 0))
    (replicate max_clicks false)
    zeros (replicate max_clicks "") zeros (replicate max_clicks false)
    [] [] [] [] header_pic_ver 0.

(** *** Element access on the Rcpp vectors

    A column pairs a vector member with its assignment.  [write c i v dat]
    is [dat.c[i] = v] and [read c i dat] is [dat.c[i]]; both are undefined
    outside the vector. *)

Record column (A : Type) : Type := Column {
  get : FPODData.t -> list A;
  set : list A -> FPODData.t -> FPODData.t }.
Arguments Column {A} _ _.
Arguments get {A} _ _.
Arguments set {A} _ _ _.

Module col.
Definition min : column Z := Column FPODData.min FPODData.set_min.
Definition microsec : column Z := Column FPODData.microsec FPODData.set_microsec.
Definition click_no : column Z := Column FPODData.click_no FPODData.set_click_no.
Definition ncyc : column Z := Column FPODData.ncyc FPODData.set_ncyc.
Definition pkat : column Z := Column FPODData.pkat FPODData.set_pkat.
Definition clk_ipi_range : column Z := Column FPODData.clk_ipi_range FPODData.set_clk_ipi_range.
Definition ipi_pre_max : column Z := Column FPODData.ipi_pre_max FPODData.set_ipi_pre_max.
Definition ipi_at_max : column Z := Column FPODData.ipi_at_max FPODData.set_ipi_at_max.
Definition khz : column Z := Column FPODData.khz FPODData.set_khz.
Definition amp_at_max : column Z := Column FPODData.amp_at_max FPODData.set_amp_at_max.
Definition amp_reversals : column Z := Column FPODData.amp_reversals FPODData.set_amp_reversals.
Definition duration : column float := Column FPODData.duration FPODData.set_duration.
Definition has_wav : column bool := Column FPODData.has_wav FPODData.set_has_wav.
Definition train_id : column Z := Column FPODData.train_id FPODData.set_train_id.
Definition species : column string := Column FPODData.species FPODData.set_species.
Definition quality_level : column Z := Column FPODData.quality_level FPODData.set_quality_level.
Definition echo : column bool := Column FPODData.echo FPODData.set_echo.
End col.

(** [v[i] = x].  Neither an Rcpp vector nor an [std::vector] grows on
    assignment: outside the vector nothing defined happens. *)
Fixpoint store {A : Type} (i : nat) (x : A) (v : list A) : option (list A) :=
  match v, i with
  | [], _ => None
  | _ :: v', O => Some (x :: v')
  | y :: v', S i' => cons y <$> store i' x v'
  end.

Definition write {A : Type} (c : column A) (i : Z) (v : A) (dat : FPODData.t)
    : option FPODData.t :=
  if 0 <=? i then
    l ← store (Z.to_nat i) v (get c dat);
    Some (set c l dat)
  else None.

Definition read {A : Type} (c : column A) (i : Z) (dat : FPODData.t) : option A :=
  if 0 <=? i then get c dat !! Z.to_nat i else None.

(** [v.push_back(x)] on the [std::vector] members. *)
Definition push_back {A : Type} (x : A) (v : list A) : list A := v ++ [x].

(** [v.back() = f (v.back())]; undefined on an empty vector. *)
Fixpoint update_back {A : Type} (f : A -> A) (v : list A) : option (list A) :=
  match v with
  | [] => None
  | [x] => Some [f x]
  | x :: v' => cons x <$> update_back f v'
  end.

(** ** Reading blocks from the file *)

(** [fid.read(&buf[0], n)]: the block read, or [None] when fewer than [n]
    bytes are left (the stream then fails and stands at its end), together
    with the bytes still unread. *)
Definition fid_read (fid : list byte) (n : nat) : option (list byte) * list byte :=
  if (n <=? length fid)%nat then (Some (take n fid), drop n fid) else (None, []).

(** What running a decoding loop gives: the value returned, undefined
    behaviour, or no answer within the number of iterations allowed. *)
Inductive run (A : Type) : Type :=
| Returns (a : A)
| Undefined
| Unfinished.
Arguments Returns {A} _.
Arguments Undefined {A}.
Arguments Unfinished {A}.

(** ** [getFPODData] *)

Section FPOD.

Variable ext : string.
Variable pic_ver : Z.

(** The branch [buf[0] < 184]: click data. *)
Definition FPOD_click (buf : list byte) (current_click current_min : Z)
    (dat : FPODData.t) : option (Z * Z * FPODData.t) :=
  let current_click := current_click + 1 in
  dat ← write col.min current_click current_min dat;
  let microsec_d :=
    PrimFloat.mul
      (PrimFloat.div (double_of_int (constructInt uint32_t buf 0 3))
                     (double_of_int 200))
      (double_of_int 1000) in
  dat ← write col.microsec current_click (int_of_double microsec_d) dat;
  dat ← write col.ncyc current_click (at_ buf 3) dat;
  dat ← write col.pkat current_click (Z.shiftr (Z.land (at_ buf 4) 0xF0) 4) dat;
  dat ← (if Z.land (at_ buf 4) 0xF =? 15 then
           write col.clk_ipi_range current_click 65 dat
         else if Z.land (at_ buf 4) 0x8 =? 8 then
           write col.clk_ipi_range current_click
                 (Z.shiftl (Z.land (at_ buf 4) 0x7 + 1) 3) dat
         else
           write col.clk_ipi_range current_click (Z.land (at_ buf 4) 0x7) dat);
  dat ← write col.ipi_pre_max current_click (at_ buf 5 + 1) dat;
  dat ← write col.ipi_at_max current_click (at_ buf 6 + 1) dat;
  dat ← write col.amp_at_max current_click (Z.max 2 (at_ buf 10)) dat;
  dat ← write col.amp_reversals current_click (Z.land (at_ buf 13) 15) dat;
  dat ← write col.duration current_click
          (double_of_int
             (Z.quot (Z.land (at_ buf 13) 240 * 16 + at_ buf 14) 5)) dat;
  Some (current_click, current_min, dat).

(** The branch [buf[0] == 249]: click train data precedes next click. *)
Definition FPOD_train (buf : list byte) (current_click current_min : Z)
    (dat : FPODData.t) : option (Z * Z * FPODData.t) :=
  dat ← write col.train_id (current_click + 1) (at_ buf 15) dat;
  dat ← write col.species (current_click + 1)
          (getSpeciesFromCode
             (to_uint8 (Z.land (Z.shiftr (at_ buf 14) 2) 3)) ext) dat;
  dat ← write col.quality_level (current_click + 1) (Z.land (at_ buf 14) 3) dat;
  dat ← write col.echo (current_click + 1) (Z.land (at_ buf 14) 32 =? 32) dat;
  Some (current_click, current_min, dat).

(** The values of [pos] in [for (int pos = 12; pos >= 0; pos -= 2)]. *)
Definition wav_positions : list nat := [12; 10; 8; 6; 4; 2; 0]%nat.

(** One iteration pushes [buf[pos+1]] and [buf[pos+2]] onto the chunk. *)
Definition wav_push (buf : list byte) (chunk : WavDataChunk) (pos : nat)
    : WavDataChunk :=
  Build_WavDataChunk (push_back (at_ buf (pos + 1)) (IPI chunk))
                     (push_back (at_ buf (pos + 2)) (SPL chunk)).

Definition wav_chunk (buf : list byte) : WavDataChunk :=
  fold_left (wav_push buf) wav_positions (Build_WavDataChunk [] []).

Definition add_chunk (chunk : WavDataChunk) (wav : WavData) : WavData :=
  Build_WavData (click wav) (push_back chunk (chunks wav)).

(** The branch [buf[0] == 250]: wav data precedes next click. *)
Definition FPOD_wav (buf : list byte) (current_click current_min : Z)
    (dat : FPODData.t) : option (Z * Z * FPODData.t) :=
  has ← read col.has_wav (current_click + 1) dat;
  dat ← (if negb has then
           dat ← write col.has_wav (current_click + 1) true dat;
           Some (FPODData.set_wav_data
                   (push_back (WavData_new (current_click + 2))
                              (FPODData.wav_data dat)) dat)
         else Some dat);
  wav_data ← update_back (add_chunk (wav_chunk buf)) (FPODData.wav_data dat);
  Some (current_click, current_min, FPODData.set_wav_data wav_data dat).

(** The branch [buf[0] == 254]: a minute marker. *)
Definition FPOD_minute (buf : list byte) (current_click current_min : Z)
    (dat : FPODData.t) : option (Z * Z * FPODData.t) :=
  let current_min := current_min + 1 in
  let dat :=
    FPODData.set_temp_deg_c (push_back (at_ buf 7) (FPODData.temp_deg_c dat)) dat in
  let dat :=
    if (pic_ver <? 28) && (at_ buf 11 =? 0) && negb (at_ buf 13 =? 0) then
      let dat := FPODData.set_bat1 (push_back (at_ buf 12) (FPODData.bat1 dat)) dat in
      FPODData.set_bat2 (push_back (at_ buf 13) (FPODData.bat2 dat)) dat
    else
      let dat := FPODData.set_bat1 (push_back (at_ buf 11) (FPODData.bat1 dat)) dat in
      FPODData.set_bat2 (push_back (at_ buf 12) (FPODData.bat2 dat)) dat in
  Some (current_click, current_min, dat).

(** The body of the loop on one block that was read in full. *)
Definition FPOD_block (buf : list byte) (current_click current_min : Z)
    (dat : FPODData.t) : option (Z * Z * FPODData.t) :=
  if at_ buf 0 <? 184 then FPOD_click buf current_click current_min dat
  else if at_ buf 0 =? 249 then FPOD_train buf current_click current_min dat
  else if at_ buf 0 =? 250 then FPOD_wav buf current_click current_min dat
  else if at_ buf 0 =? 254 then FPOD_minute buf current_click current_min dat
  else Some (current_click, current_min, dat).

(** [while (1) { ... }], at most [fuel] iterations.  The result is the final
    [current_click], [current_min] and [dat], and the unread bytes. *)
Fixpoint getFPODData_loop (fuel : nat) (data_buf_size : nat) (fid : list byte)
    (current_click current_min : Z) (dat : FPODData.t)
    : run (Z * Z * FPODData.t * list byte) :=
  match fuel with
  | O => Unfinished
  | S fuel =>
      match fid_read fid data_buf_size with
      | (None, fid) => Returns (current_click, current_min, dat, fid)
      | (Some buf, fid) =>
          let bytesActuallyRead := length buf in
          if (bytesActuallyRead <? data_buf_size)%nat then
            Returns (current_click, current_min, dat, fid)
          else
            match FPOD_block buf current_click current_min dat with
            | None => Undefined
            | Some (current_click, current_min, dat) =>
                getFPODData_loop fuel data_buf_size fid current_click current_min dat
            end
      end
  end.

End FPOD.

(** [getFPODData(fid, ext, data_buf_size, dat)]: the value returned, [dat]
    and [fid] afterwards.  Each iteration consumes [data_buf_size] bytes, so
    [length fid + 1] iterations are enough. *)
Definition getFPODData (fid : list byte) (ext : string) (data_buf_size : nat)
    (dat : FPODData.t) : run (Z * FPODData.t * list byte) :=
  let current_click := -1 in
  let current_min := -1 in
  let pic_ver := FPODData.pic_ver dat in
  match getFPODData_loop ext pic_ver (S (length fid)) data_buf_size fid
          current_click current_min dat with
  | Returns (current_click, _, dat, fid) =>
      Returns (current_click, FPODData.set_last_click current_click dat, fid)
  | Undefined => Undefined
  | Unfinished => Unfinished
  end.

(** ** [getCPODData] *)

Section CPOD.

Variable ext : string.
Variable data_buf_size : nat.

(** [size_t last_byte = data_buf_size - 1]; the block size is positive in
    every file format. *)
Definition last_byte : nat := (data_buf_size - 1)%nat.

(** The branch [buf[last_byte] != 254]: click data. *)
Definition CPOD_click (buf : list byte) (current_click current_min : Z)
    (dat : FPODData.t) : option (Z * Z * FPODData.t) :=
  let current_click := current_click + 1 in
  dat ← write col.min current_click current_min dat;
  let microsec_d :=
    PrimFloat.mul
      (PrimFloat.div (double_of_int (constructInt uint32_t buf 0 3))
                     (double_of_int 200))
      (double_of_int 1000) in
  dat ← write col.microsec current_click (int_of_double microsec_d) dat;
  dat ← write col.ncyc current_click (at_ buf 3) dat;
  dat ← write col.khz current_click (at_ buf 5) dat;
  dat ← write col.amp_at_max current_click (at_ buf 5) dat;
  dat ← (if at_ buf 5 >? 0 then
           write col.duration current_click
                 (PrimFloat.div (double_of_int (at_ buf 3))
                                (double_of_int (at_ buf 5))) dat
         else Some dat);
  dat ← (if (ext =? "CP3")%string then
           dat ← write col.train_id current_click (at_ buf 39) dat;
           dat ← write col.species current_click
                   (getSpeciesFromCode (to_uint8 (Z.shiftr (at_ buf 36) 3)) ext)
                   dat;
           write col.quality_level current_click (Z.land (at_ buf 36) 3) dat
         else Some dat);
  Some (current_click, current_min, dat).

(** What one iteration on a block read in full does: it leaves the loop, or
    goes on with new values of [current_click], [current_min], [file_ends]
    and [dat]. *)
Inductive CPOD_next : Type :=
| Break
| Continue (current_click current_min file_ends : Z) (dat : FPODData.t).

Definition CPOD_block (buf : list byte) (current_click current_min file_ends : Z)
    (dat : FPODData.t) : option CPOD_next :=
  (* two consecutive data chunks where all values are 255 end the data *)
  let '(file_ends, stop) :=
    if eof buf then (file_ends + 1, file_ends + 1 =? 2) else (0, false) in
  if stop then Some Break
  else if negb (at_ buf last_byte =? 254) then
    '(current_click, current_min, dat) ←
      CPOD_click buf current_click current_min dat;
    Some (Continue current_click current_min file_ends dat)
  else if at_ buf last_byte =? 254 then
    Some (Continue current_click (current_min + 1) file_ends dat)
  else Some (Continue current_click current_min file_ends dat).

Fixpoint getCPODData_loop (fuel : nat) (fid : list byte)
    (current_click current_min file_ends : Z) (dat : FPODData.t)
    : run (Z * Z * FPODData.t * list byte) :=
  match fuel with
  | O => Unfinished
  | S fuel =>
      match fid_read fid data_buf_size with
      | (None, fid) => Returns (current_click, current_min, dat, fid)
      | (Some buf, fid) =>
          let bytesActuallyRead := length buf in
          if (bytesActuallyRead <? data_buf_size)%nat then
            Returns (current_click, current_min, dat, fid)
          else
            match CPOD_block buf current_click current_min file_ends dat with
            | None => Undefined
            | Some Break => Returns (current_click, current_min, dat, fid)
            | Some (Continue current_click current_min file_ends dat) =>
                getCPODData_loop fuel fid current_click current_min file_ends dat
            end
      end
  end.

End CPOD.

(** [getCPODData(fid, ext, data_buf_size, dat)]: the value returned, [dat]
    and [fid] afterwards. *)
Definition getCPODData (fid : list byte) (ext : string) (data_buf_size : nat)
    (dat : FPODData.t) : run (Z * FPODData.t * list byte) :=
  let current_click := -1 in
  let current_min := -1 in
  let file_ends := 0 in
  match getCPODData_loop ext data_buf_size (S (length fid)) fid
          current_click current_min file_ends dat with
  | Returns (current_click, _, dat, fid) =>
      Returns (current_click - 1,
               FPODData.set_last_click (current_click - 1) dat, fid)
  | Undefined => Undefined
  | Unfinished => Unfinished
  end.

(** ** Data frames

    An R data frame is a list of named columns of equal length. *)

Inductive vector : Type :=
| IntegerVector (v : list Z)
| NumericVector (v : list float)
| LogicalVector (v : list bool)
| CharacterVector (v : list string).

Definition DataFrame : Type := list (string * vector).

Definition vector_length (v : vector) : nat :=
  match v with
  | IntegerVector v => length v
  | NumericVector v => length v
  | LogicalVector v => length v
  | CharacterVector v => length v
  end.

(** The number of rows: the length of the first column. *)
Definition nrow (df : DataFrame) : nat :=
  match df with
  | [] => 0%nat
  | (_, v) :: _ => vector_length v
  end.

(** The column called [name]. *)
Fixpoint column_of (df : DataFrame) (name : string) : option vector :=
  match df with
  | [] => None
  | (n, v) :: df' => if (n =? name)%string then Some v else column_of df' name
  end.

(** [v[filter]] with [filter = seq(0, n - 1)], and with the empty [filter]
    when [n = 0]; an index outside [v] raises an error. *)
Definition subset {A : Type} (v : list A) (n : nat) : option (list A) :=
  mapM (fun i => v !! i) (seq 0 n).

(** ** [wavToList] *)

(** The three vectors being filled, [pos] and [total_records]. *)
Record wav_table : Type := Build_wav_table {
  wt_click_num : list Z;
  wt_IPI : list Z;
  wt_SPL : list Z;
  wt_pos : nat;
  wt_total_records : nat }.

(** The body of the innermost loop, for sample [j] of chunk [it] of [wav]. *)
Definition wav_cell (wav : WavData) (it : WavDataChunk) (t : wav_table) (j : nat)
    : option wav_table :=
  click_num ← store (wt_pos t) (click wav) (wt_click_num t);
  ipi_j ← IPI it !! j;
  ipi ← store (wt_pos t) ipi_j (wt_IPI t);
  spl_j ← SPL it !! j;
  spl ← store (wt_pos t) spl_j (wt_SPL t);
  Some (Build_wav_table click_num ipi spl (S (wt_pos t)) (S (wt_total_records t))).

(** A [for] loop over the elements of [l], stopping at undefined behaviour. *)
Fixpoint for_each {A S : Type} (body : S -> A -> option S) (l : list A) (s : S)
    : option S :=
  match l with
  | [] => Some s
  | a :: l' => s ← body s a; for_each body l' s
  end.

(** [for (it = wav.chunks.rbegin(); it != wav.chunks.rend(); ++it)] *)
Definition wav_rows (t : wav_table) (wav : WavData) : option wav_table :=
  for_each (fun t it => for_each (wav_cell wav it) (seq 0 7) t)
           (rev (chunks wav)) t.

Definition wavToList (wav_data : list WavData) : option DataFrame :=
  let estimated_num_records := (length wav_data * 21)%nat in
  let t := Build_wav_table (replicate estimated_num_records 0)
                           (replicate estimated_num_records 0)
                           (replicate estimated_num_records 0) 0 0 in
  t ← for_each wav_rows wav_data t;
  click_no ← subset (wt_click_num t) (wt_total_records t);
  ipi ← subset (wt_IPI t) (wt_total_records t);
  spl ← subset (wt_SPL t) (wt_total_records t);
  Some [ ("click_no", IntegerVector click_no);
         ("IPI", IntegerVector ipi);
         ("SPL", IntegerVector spl) ].

(** ** [FPODData::toList] *)

(** The list returned, without its [header] entry; [env] is present when a
    minute marker was decoded. *)
Record R_list : Type := Build_R_list {
  env : option DataFrame;
  wav : DataFrame;
  clicks : DataFrame }.

Definition toList (dat : FPODData.t) : option R_list :=
  (* use this to truncate down to actual data size *)
  let filter :=
    if FPODData.last_click dat >? -1
    then Z.to_nat (FPODData.last_click dat + 1) else 0%nat in
  minute ← subset (FPODData.min dat) filter;
  microsec ← subset (FPODData.microsec dat) filter;
  click_no ← subset (FPODData.click_no dat) filter;
  train_id ← subset (FPODData.train_id dat) filter;
  species ← subset (FPODData.species dat) filter;
  quality_level ← subset (FPODData.quality_level dat) filter;
  echo ← subset (FPODData.echo dat) filter;
  ncyc ← subset (FPODData.ncyc dat) filter;
  pkat ← subset (FPODData.pkat dat) filter;
  clk_ipi_range ← subset (FPODData.clk_ipi_range dat) filter;
  ipi_pre_max ← subset (FPODData.ipi_pre_max dat) filter;
  ipi_at_max ← subset (FPODData.ipi_at_max dat) filter;
  khz ← subset (FPODData.khz dat) filter;
  amp_at_max ← subset (FPODData.amp_at_max dat) filter;
  amp_reversals ← subset (FPODData.amp_reversals dat) filter;
  duration ← subset (FPODData.duration dat) filter;
  has_wav ← subset (FPODData.has_wav dat) filter;
  let clicks :=
    [ ("minute", IntegerVector minute);
      ("microsec", IntegerVector microsec);
      ("click_no", IntegerVector click_no);
      ("train_id", IntegerVector train_id);
      ("species", CharacterVector species);
      ("quality_level", IntegerVector quality_level);
      ("echo", LogicalVector echo);
      ("ncyc", IntegerVector ncyc);
      ("pkat", IntegerVector pkat);
      ("clk_ipi_range", IntegerVector clk_ipi_range);
      ("ipi_pre_max", IntegerVector ipi_pre_max);
      ("ipi_at_max", IntegerVector ipi_at_max);
      ("khz", IntegerVector khz);
      ("amp_at_max", IntegerVector amp_at_max);
      ("amp_reversals", IntegerVector amp_reversals);
      ("duration", NumericVector duration);
      ("has_wav", LogicalVector has_wav) ] in
  let env :=
    if (0 <? length (FPODData.temp_deg_c dat))%nat then
      Some [ ("minute",
              IntegerVector
                (map Z.of_nat (seq 1 (length (FPODData.temp_deg_c dat)))));
             ("degC", IntegerVector (FPODData.temp_deg_c dat));
             ("bat1v", IntegerVector (FPODData.bat1 dat));
             ("bat2v", IntegerVector (FPODData.bat2 dat)) ]
    else None in
  wav ← wavToList (FPODData.wav_data dat);
  Some (Build_R_list env wav clicks).

(** ** [parseString] *)

(** [std::string(buf.data() + offset, length)]: the [length] bytes from
    [offset], copied as they are; reading past the end of the buffer is
    undefined. *)
Definition parseString (buf : list byte) (offset length : nat) : option string :=
  if (offset + length <=? List.length buf)%nat
  then Some (string_of_list_byte (take length (drop offset buf)))
  else None.

(** ** [getFiletype] *)

(** [std::toupper] on one character, in the C locale. *)
Definition toupper (c : ascii) : ascii :=
  let n := nat_of_ascii c in
  if (97 <=? n)%nat && (n <=? 122)%nat then ascii_of_nat (n - 32) else c.

Fixpoint transform (f : ascii -> ascii) (s : string) : string :=
  match s with
  | EmptyString => EmptyString
  | String c s' => String (f c) (transform f s')
  end.

(** Errors raised to R: by [stop], by [std::string::substr] and by
    [Rcpp::seq]. *)
Inductive error : Set :=
| Unable_to_open_file
| Unable_to_read_from_file
| Unknown_file_type
| out_of_range
| range_error.

(** ** The header lists *)

(** The values stored in the header: integers, strings, booleans. *)
Inductive header_value : Type :=
| integer (z : Z)
| character (s : string)
| logical (b : bool).

(** [header[name] = v] on an [Rcpp::List]: the entry called [name] is
    replaced, or a new entry is added at the end. *)
Fixpoint List_set (name : string) (v : header_value)
    (l : list (string * header_value)) : list (string * header_value) :=
  match l with
  | [] => [(name, v)]
  | (n, x) :: l' =>
      if (n =? name)%string then (n, v) :: l' else (n, x) :: List_set name v l'
  end.

(** [header[name]] *)
Fixpoint List_get (name : string) (l : list (string * header_value))
    : option header_value :=
  match l with
  | [] => None
  | (n, x) :: l' => if (n =? name)%string then Some x else List_get name l'
  end.

(** [buf[i]] where the index may be outside the buffer. *)
Definition byte_at (buf : list byte) (i : nat) : option Z := u8 <$> buf !! i.

Definition getFPODHeader (buf : list byte) (ext : string)
    : option (list (string * header_value)) :=
  let header := [] in
  b3 ← byte_at buf 3; b4 ← byte_at buf 4;
  let header := List_set "pod_id" (integer (100 * b3 + b4)) header in
  let header :=
    List_set "first_logged_min" (integer (constructInt int32_t buf 256 4)) header in
  let header :=
    List_set "last_logged_min" (integer (constructInt int32_t buf 260 4)) header in
  b131 ← byte_at buf 131; b132 ← byte_at buf 132;
  let header := List_set "water_depth" (integer (Z.shiftl b131 8 + b132)) header in
  b129 ← byte_at buf 129; b130 ← byte_at buf 130;
  let header :=
    List_set "deployment_depth" (integer (Z.shiftl b129 8 + b130)) header in
  s ← parseString buf 133 11;
  let header := List_set "lat_text" (character s) header in
  s ← parseString buf 145 11;
  let header := List_set "lon_text" (character s) header in
  s ← parseString buf 157 30;
  let header := List_set "location_text" (character s) header in
  s ← parseString buf 188 43;
  let header := List_set "notes_text" (character s) header in
  s ← parseString buf 232 11;
  let header := List_set "gmt_text" (character s) header in
  b39 ← byte_at buf 39; b40 ← byte_at buf 40;
  let fpga_ver := Z.lor (Z.shiftl b39 8) b40 in
  b37 ← byte_at buf 37;
  let header := List_set "pic_ver" (integer b37) header in
  let header := List_set "fpga_ver" (integer fpga_ver) header in
  let header :=
    if fpga_ver >? 0 then List_set "extended_amps" (logical true) header
    else List_set "extended_amps" (logical false) header in
  let header :=
    if (ext =? "FP3")%string then
      List_set "clicks_in_fp1" (integer (constructInt int64_t buf 231 8)) header
    else header in
  Some header.

Definition getCPODHeader (buf : list byte) (ext : string)
    : option (list (string * header_value)) :=
  let header := [] in
  s ← parseString buf 164 4;
  let header := List_set "pod_id" (character s) header in
  let header :=
    List_set "first_logged_min" (integer (constructInt int32_t buf 256 4)) header in
  let header :=
    List_set "last_logged_min" (integer (constructInt int32_t buf 260 4)) header in
  b31 ← byte_at buf 31; b32 ← byte_at buf 32;
  let header := List_set "water_depth" (integer (Z.lor (Z.shiftl b31 8) b32)) header in
  b29 ← byte_at buf 29; b30 ← byte_at buf 30;
  let header :=
    List_set "deployment_depth" (integer (Z.lor (Z.shiftl b29 8) b30)) header in
  s ← parseString buf 13 8;
  let header := List_set "lat_text" (character s) header in
  s ← parseString buf 21 8;
  let header := List_set "lon_text" (character s) header in
  s ← parseString buf 33 31;
  let header := List_set "location_text" (character s) header in
  s ← parseString buf 211 50;
  let header := List_set "notes_text" (character s) header in
  let header :=
    if (ext =? "CP3")%string then
      List_set "clicks_in_cp1" (integer (constructInt uint32_t buf 128 4)) header
    else header in
  Some header.

(** ** [readFPOD] *)

(** What a call of [readFPOD] gives: the list returned (its [header] entry
    and the three tables), an error raised to R, or undefined behaviour (an
    access outside a vector). *)
Inductive outcome : Type :=
| Value (header : list (string * header_value)) (tables : R_list)
| Raise (e : error)
| Undefined_behaviour.

Section Files.

(** [std::filesystem::path(file).extension().string()]: empty, or a dot and
    what follows it. *)
Variable extension : string -> string.

(** The bytes of the file called [file]; [None] when it cannot be opened. *)
Variable contents : string -> option (list byte).

(** [f.extension().string().substr(1)] raises [std::out_of_range] on an
    empty extension. *)
Definition getFiletype (file : string) : error + string :=
  match extension file with
  | EmptyString => inl out_of_range
  | String _ ext => inr (transform toupper ext)
  end.

(** The data part, after the header has been read: the branches of
    [readFPOD] on the file type.  [pic_ver] of the dataset is the entry the
    FPOD decoder reads from the header. *)
Definition readFPOD_data (file ext : string) (buf fid : list byte)
    (data_buf_size max_clicks : nat) : outcome :=
  if (ext =? "CP1")%string || (ext =? "CP3")%string then
    match getCPODHeader buf ext with
    | None => Undefined_behaviour
    | Some header =>
        match getCPODData fid ext data_buf_size (FPODData_new max_clicks 0) with
        | Returns (last_click, fpod_data, _) =>
            let fpod_data := FPODData.set_last_click last_click fpod_data in
            let header := List_set "filename" (character file) header in
            match toList fpod_data with
            | Some tables => Value header tables
            | None => Undefined_behaviour
            end
        | _ => Undefined_behaviour
        end
    end
  else if (ext =? "FP1")%string || (ext =? "FP3")%string then
    match getFPODHeader buf ext with
    | None => Undefined_behaviour
    | Some header =>
        match List_get "pic_ver" header with
        | Some (integer pic_ver) =>
            match getFPODData fid ext data_buf_size
                    (FPODData_new max_clicks pic_ver) with
            | Returns (last_click, fpod_data, _) =>
                let fpod_data := FPODData.set_last_click last_click fpod_data in
                let header := List_set "filename" (character file) header in
                match toList fpod_data with
                | Some tables => Value header tables
                | None => Undefined_behaviour
                end
            | _ => Undefined_behaviour
            end
        | _ => Undefined_behaviour
        end
    end
  else Raise Unknown_file_type.

Definition readFPOD (file : string) : outcome :=
  match getFiletype file with
  | inl e => Raise e
  | inr ext =>
      let '(header_buf_size, data_buf_size) := getBufsize ext in
      match contents file with
      | None => Raise Unable_to_open_file
      | Some bytes =>
          (* an estimate of the maximum possible number of clicks *)
          let max_clicks :=
            size_t_wrap (Z.of_nat (List.length bytes) - Z.of_nat header_buf_size)
            / Z.of_nat data_buf_size in
          match fid_read bytes header_buf_size with
          | (None, _) => Raise Unable_to_read_from_file
          | (Some buf, fid) =>
              (* FPODData fpod_data(max_clicks, header): Rcpp::seq(1, 0) raises *)
              if max_clicks =? 0 then Raise range_error
              else readFPOD_data file ext buf fid data_buf_size (Z.to_nat max_clicks)
          end
      end
  end.

End Files.

(** * Specification *)

(** ** Species lookup *)

(** The labels the specification gives for the two families. *)
Definition cp3_label (code : Z) : string :=
  match code with
  | 0 | 1 => "NBHF"
  | 2 | 3 => "OtherCet"
  | 4 | 5 => "Unclassed"
  | 6 | 7 => "Sonar"
  | _ => ""
  end.

Definition fp3_label (code : Z) : string :=
  match code with
  | 0 => "NBHF"
  | 1 => "OtherCet"
  | 2 => "Unclassed"
  | 3 => "Sonar"
  | _ => ""
  end.

(** ** Big-endian values *)

(** The number that a sequence of bytes denotes, most significant first. *)
Definition big_endian (field : list byte) : Z :=
  fold_left (fun acc b => acc * 256 + u8 b) field 0.

(** ** IPI-range class

    The three-way branch on the low nibble of byte 4, as the specification
    words it. *)
Definition ipi_range_class (nibble : Z) : Z :=
  if nibble =? 15 then 65
  else if Z.testbit nibble 3 then Z.shiftl (Z.land nibble 7 + 1) 3
  else Z.land nibble 7.

Definition low_nibble (b : Z) : Z := Z.land b 15.

(** ** Datasets built for [n] clicks

    Every Rcpp vector of [dat] has [n] elements, as after
    [FPODData(n, header)]. *)
Definition sized (n : nat) (dat : FPODData.t) : Prop :=
  length (FPODData.min dat) = n /\
  length (FPODData.microsec dat) = n /\
  length (FPODData.click_no dat) = n /\
  length (FPODData.ncyc dat) = n /\
  length (FPODData.pkat dat) = n /\
  length (FPODData.clk_ipi_range dat) = n /\
  length (FPODData.ipi_pre_max dat) = n /\
  length (FPODData.ipi_at_max dat) = n /\
  length (FPODData.khz dat) = n /\
  length (FPODData.amp_at_max dat) = n /\
  length (FPODData.amp_reversals dat) = n /\
  length (FPODData.duration dat) = n /\
  length (FPODData.has_wav dat) = n /\
  length (FPODData.train_id dat) = n /\
  length (FPODData.species dat) = n /\
  length (FPODData.quality_level dat) = n /\
  length (FPODData.echo dat) = n.

(** ** States reached by [getFPODData]

    [FPOD_reach ext pic_ver dat0 current_click current_min dat]: the loop of
    [getFPODData], started on the dataset [dat0], can stand at the head of an
    iteration with these values of its variables. *)
Inductive FPOD_reach (ext : string) (pic_ver : Z) (dat0 : FPODData.t)
    : Z -> Z -> FPODData.t -> Prop :=
| FPOD_reach_start : FPOD_reach ext pic_ver dat0 (-1) (-1) dat0
| FPOD_reach_block buf current_click current_min dat current_click' current_min' dat' :
    FPOD_reach ext pic_ver dat0 current_click current_min dat ->
    FPOD_block ext pic_ver buf current_click current_min dat
      = Some (current_click', current_min', dat') ->
    FPOD_reach ext pic_ver dat0 current_click' current_min' dat'.

(** ** The invariant of the FPOD loop on waveform series

    At the head of an iteration with click index [current_click], in a
    dataset built for [n] clicks: no click after the next one has its
    [has_wav] flag set, and if the next click has it set, the series opened
    last is keyed by the number of that click, [current_click + 2]. *)
Definition FPOD_inv (n : nat) (current_click : Z) (dat : FPODData.t) : Prop :=
  -1 <= current_click /\
  sized n dat /\
  (forall j : nat, current_click + 1 < Z.of_nat j ->
     FPODData.has_wav dat !! j <> Some true) /\
  (FPODData.has_wav dat !! Z.to_nat (current_click + 1) = Some true ->
   exists ws w, FPODData.wav_data dat = (ws ++ [w])%list /\
                click w = current_click + 2).

(** ** Click rows

    [CPOD_click_row ext buf minute dat i]: row [i] of the click vectors of
    [dat] holds the click that the CPOD decoder derives from the block
    [buf] in minute [minute]. *)
Definition CPOD_click_row (ext : string) (buf : list byte) (minute : Z)
    (dat : FPODData.t) (i : nat) : Prop :=
  FPODData.min dat !! i = Some minute /\
  FPODData.microsec dat !! i
  = Some (int_of_double
            (PrimFloat.mul
               (PrimFloat.div (double_of_int (constructInt uint32_t buf 0 3))
                              (double_of_int 200))
               (double_of_int 1000))) /\
  FPODData.ncyc dat !! i = Some (at_ buf 3) /\
  FPODData.khz dat !! i = Some (at_ buf 5) /\
  FPODData.amp_at_max dat !! i = Some (at_ buf 5) /\
  (0 < at_ buf 5 ->
   FPODData.duration dat !! i
   = Some (PrimFloat.div (double_of_int (at_ buf 3)) (double_of_int (at_ buf 5)))) /\
  (ext = "CP3" ->
   FPODData.train_id dat !! i = Some (at_ buf 39) /\
   FPODData.species dat !! i
   = Some (getSpeciesFromCode (to_uint8 (Z.shiftr (at_ buf 36) 3)) ext) /\
   FPODData.quality_level dat !! i = Some (Z.land (at_ buf 36) 3)).

(** The two CPOD formats with their block sizes. *)
Definition CPOD_format (ext : string) (data_buf_size : nat) : Prop :=
  (ext = "CP1" /\ data_buf_size = 10%nat) \/
  (ext = "CP3" /\ data_buf_size = 40%nat).

(** ** Records decoded by [getCPODData]

    The blocks that the CPOD loop decodes as records, reading blocks of
    [data_buf_size] bytes from [fid]: all blocks read in full before the
    second of two terminator blocks in a row.  [file_ends] counts the
    terminator blocks that came just before; [fuel] bounds the number of
    blocks. *)
Fixpoint CPOD_records (fuel : nat) (data_buf_size : nat) (fid : list byte)
    (file_ends : Z) : list (list byte) :=
  match fuel with
  | O => []
  | S fuel =>
      match fid_read fid data_buf_size with
      | (None, _) => []
      | (Some buf, fid) =>
          if eof buf then
            if file_ends + 1 =? 2 then []
            else buf :: CPOD_records fuel data_buf_size fid (file_ends + 1)
          else buf :: CPOD_records fuel data_buf_size fid 0
      end
  end.

(** A record is a click when the last byte of its block is not 254. *)
Definition CPOD_is_click (data_buf_size : nat) (buf : list byte) : bool :=
  negb (at_ buf (data_buf_size - 1) =? 254).

(** The number of clicks that [getCPODData] decodes from [fid]. *)
Definition CPOD_clicks_decoded (data_buf_size : nat) (fid : list byte) : Z :=
  Z.of_nat
    (length (List.filter (CPOD_is_click data_buf_size)
               (CPOD_records (S (length fid)) data_buf_size fid 0))).

(** ** The click table

    The data frame of the first [k] clicks of [dat]. *)
Definition first_clicks (dat : FPODData.t) (k : nat) : DataFrame :=
  [ ("minute", IntegerVector (take k (FPODData.min dat)));
    ("microsec", IntegerVector (take k (FPODData.microsec dat)));
    ("click_no", IntegerVector (take k (FPODData.click_no dat)));
    ("train_id", IntegerVector (take k (FPODData.train_id dat)));
    ("species", CharacterVector (take k (FPODData.species dat)));
    ("quality_level", IntegerVector (take k (FPODData.quality_level dat)));
    ("echo", LogicalVector (take k (FPODData.echo dat)));
    ("ncyc", IntegerVector (take k (FPODData.ncyc dat)));
    ("pkat", IntegerVector (take k (FPODData.pkat dat)));
    ("clk_ipi_range", IntegerVector (take k (FPODData.clk_ipi_range dat)));
    ("ipi_pre_max", IntegerVector (take k (FPODData.ipi_pre_max dat)));
    ("ipi_at_max", IntegerVector (take k (FPODData.ipi_at_max dat)));
    ("khz", IntegerVector (take k (FPODData.khz dat)));
    ("amp_at_max", IntegerVector (take k (FPODData.amp_at_max dat)));
    ("amp_reversals", IntegerVector (take k (FPODData.amp_reversals dat)));
    ("duration", NumericVector (take k (FPODData.duration dat)));
    ("has_wav", LogicalVector (take k (FPODData.has_wav dat))) ].

(** The environmental table of [dat], when a minute marker was decoded. *)
Definition env_table (dat : FPODData.t) : option DataFrame :=
  if (0 <? length (FPODData.temp_deg_c dat))%nat then
    Some [ ("minute",
            IntegerVector
              (map Z.of_nat (seq 1 (length (FPODData.temp_deg_c dat)))));
           ("degC", IntegerVector (FPODData.temp_deg_c dat));
           ("bat1v", IntegerVector (FPODData.bat1 dat));
           ("bat2v", IntegerVector (FPODData.bat2 dat)) ]
  else None.

(** ** Bit fields of a byte *)

(** Bits [lo] to [hi] of [b], as a number. *)
Definition bits (b : Z) (lo hi : Z) : Z := (b / 2 ^ lo) mod 2 ^ (hi - lo + 1).

(** The two FPOD formats with their block size. *)
Definition FPOD_format (ext : string) (data_buf_size : nat) : Prop :=
  (ext = "FP1" \/ ext = "FP3") /\ data_buf_size = 16%nat.

(** ** Waveform chunks *)

(** The chunk of a waveform block with the inter-pulse intervals taken from
    bytes 13, 11, ..., 1 and the amplitudes from bytes 14, 12, ..., 2. *)
Definition wav_chunk_odd_even (buf : list byte) : WavDataChunk :=
  Build_WavDataChunk
    [at_ buf 13; at_ buf 11; at_ buf 9; at_ buf 7; at_ buf 5; at_ buf 3; at_ buf 1]
    [at_ buf 14; at_ buf 12; at_ buf 10; at_ buf 8; at_ buf 6; at_ buf 4; at_ buf 2].

(** The chunk of a waveform block if the pairs came from the byte offsets
    13,12 down to 1,0: inter-pulse intervals from bytes 13, 11, ..., 1 and
    amplitudes from bytes 12, 10, ..., 0. *)
Definition wav_chunk_13_12_down_to_1_0 (buf : list byte) : WavDataChunk :=
  Build_WavDataChunk
    [at_ buf 13; at_ buf 11; at_ buf 9; at_ buf 7; at_ buf 5; at_ buf 3; at_ buf 1]
    [at_ buf 12; at_ buf 10; at_ buf 8; at_ buf 6; at_ buf 4; at_ buf 2; at_ buf 0].

(** ** Flattened waveform data

    One column of the waveform table as the specification orders it: the
    clicks in their order, the chunks of a click in reverse insertion order,
    and inside a chunk the values [f wav chunk] in their own order. *)
Definition wav_column (f : WavData -> WavDataChunk -> list Z)
    (wav_data : list WavData) : list Z :=
  flat_map (fun wav => flat_map (f wav) (rev (chunks wav))) wav_data.

(** A chunk holds 7 pairs. *)
Definition chunk_ok (chunk : WavDataChunk) : Prop :=
  length (IPI chunk) = 7%nat /\ length (SPL chunk) = 7%nat.

(** The number of chunks of all clicks together. *)
Definition total_chunks (wav_data : list WavData) : nat :=
  length (flat_map chunks wav_data).

(** The table of [wavToList] when the first [length click_num] cells of its
    vectors of size [cap] have been filled. *)
Definition wav_table_filled (cap : nat) (click_num ipi spl : list Z) : wav_table :=
  Build_wav_table
    (click_num ++ replicate (cap - length click_num) 0)
    (ipi ++ replicate (cap - length ipi) 0)
    (spl ++ replicate (cap - length spl) 0)
    (length click_num) (length click_num).

(** ** Bytes of a block that are not 0xFF *)

Definition other_bytes (buf : list byte) : nat :=
  length (List.filter (fun b => negb (Byte.eqb b eof_code)) buf).

(** ** The blocks of a file

    The blocks of [data_buf_size] bytes that can be read in full from
    [fid], in order; at most [fuel] of them. *)
Fixpoint whole_blocks (fuel : nat) (data_buf_size : nat) (fid : list byte)
    : list (list byte) :=
  match fuel with
  | O => []
  | S fuel =>
      match fid_read fid data_buf_size with
      | (None, _) => []
      | (Some buf, fid) => buf :: whole_blocks fuel data_buf_size fid
      end
  end.

Definition blocks (data_buf_size : nat) (fid : list byte) : list (list byte) :=
  whole_blocks (S (length fid)) data_buf_size fid.

(** The kinds of FPOD blocks, by their first byte. *)
Definition FPOD_is_click (buf : list byte) : bool := at_ buf 0 <? 184.
Definition FPOD_is_minute (buf : list byte) : bool := at_ buf 0 =? 254.

(** The click blocks among [bl], in order, each with the minute index in
    force when it is read; [current_min] is the index before [bl]. *)
Fixpoint FPOD_clicks (current_min : Z) (bl : list (list byte))
    : list (Z * list byte) :=
  match bl with
  | [] => []
  | buf :: bl =>
      if FPOD_is_click buf then (current_min, buf) :: FPOD_clicks current_min bl
      else if FPOD_is_minute buf then FPOD_clicks (current_min + 1) bl
      else FPOD_clicks current_min bl
  end.

(** [FPOD_click_row buf minute dat i]: row [i] of the click vectors of [dat]
    holds the click that the FPOD decoder derives from the block [buf] in
    minute [minute]. *)
Definition FPOD_click_row (buf : list byte) (minute : Z) (dat : FPODData.t)
    (i : nat) : Prop :=
  FPODData.min dat !! i = Some minute /\
  FPODData.microsec dat !! i
  = Some (int_of_double
            (PrimFloat.mul
               (PrimFloat.div (double_of_int (constructInt uint32_t buf 0 3))
                              (double_of_int 200))
               (double_of_int 1000))) /\
  FPODData.ncyc dat !! i = Some (at_ buf 3) /\
  FPODData.pkat dat !! i = Some (Z.shiftr (Z.land (at_ buf 4) 0xF0) 4) /\
  FPODData.clk_ipi_range dat !! i
  = Some (if Z.land (at_ buf 4) 0xF =? 15 then 65
          else if Z.land (at_ buf 4) 0x8 =? 8
               then Z.shiftl (Z.land (at_ buf 4) 0x7 + 1) 3
               else Z.land (at_ buf 4) 0x7) /\
  FPODData.ipi_pre_max dat !! i = Some (at_ buf 5 + 1) /\
  FPODData.ipi_at_max dat !! i = Some (at_ buf 6 + 1) /\
  FPODData.amp_at_max dat !! i = Some (Z.max 2 (at_ buf 10)) /\
  FPODData.amp_reversals dat !! i = Some (Z.land (at_ buf 13) 15) /\
  FPODData.duration dat !! i
  = Some (double_of_int (Z.quot (Z.land (at_ buf 13) 240 * 16 + at_ buf 14) 5)).

(** The click records among [bl], as [FPOD_clicks]: a block is a minute
    marker when its last byte is 254 and a click otherwise. *)
Fixpoint CPOD_clicks (data_buf_size : nat) (current_min : Z)
    (bl : list (list byte)) : list (Z * list byte) :=
  match bl with
  | [] => []
  | buf :: bl =>
      if CPOD_is_click data_buf_size buf
      then (current_min, buf) :: CPOD_clicks data_buf_size current_min bl
      else CPOD_clicks data_buf_size (current_min + 1) bl
  end.

(** What a decoder run gives, without the bytes left unread. *)
Definition decoded {A B : Type} (r : run (A * B)) : run A :=
  match r with
  | Returns (a, _) => Returns a
  | Undefined => Undefined
  | Unfinished => Unfinished
  end.

(** ** The waveform series of a dataset *)

Definition FPOD_is_wav (buf : list byte) : bool := at_ buf 0 =? 250.

(** At click index [current_click]: every series holds at least one chunk,
    every chunk 7 pairs; the key of a series is the number of a click up to
    the next one, and that click is flagged [has_wav]; the keys increase
    along [wav_data]; and every flagged click has its series. *)
Definition wav_series_ok (current_click : Z) (dat : FPODData.t) : Prop :=
  Forall (fun w => chunks w <> [] /\ Forall chunk_ok (chunks w) /\
                   1 <= click w <= current_click + 2 /\
                   FPODData.has_wav dat !! Z.to_nat (click w - 1) = Some true)
         (FPODData.wav_data dat) /\
  (forall (i j : nat) (w1 w2 : WavData),
     (i < j)%nat -> FPODData.wav_data dat !! i = Some w1 ->
     FPODData.wav_data dat !! j = Some w2 -> click w1 < click w2) /\
  (forall j : nat, FPODData.has_wav dat !! j = Some true ->
     exists w, In w (FPODData.wav_data dat) /\ click w = Z.of_nat j + 1).

(** ** Blocks that precede a click

    A train block and a waveform block are about the next click. *)

Definition FPOD_is_train (buf : list byte) : bool := at_ buf 0 =? 249.

(** For every click block of [bl], in order, the blocks read since the
    click block before it; [pending] are the blocks read since the last
    click before [bl]. *)
Fixpoint FPOD_groups (pending : list (list byte)) (bl : list (list byte))
    : list (list (list byte)) :=
  match bl with
  | [] => []
  | buf :: bl =>
      if FPOD_is_click buf then pending :: FPOD_groups [] bl
      else FPOD_groups (pending ++ [buf]) bl
  end.

(** The blocks after the last click block of [bl]. *)
Fixpoint FPOD_rest (pending : list (list byte)) (bl : list (list byte))
    : list (list byte) :=
  match bl with
  | [] => pending
  | buf :: bl =>
      if FPOD_is_click buf then FPOD_rest [] bl
      else FPOD_rest (pending ++ [buf]) bl
  end.

(** [FPOD_annotation ext group dat i]: row [i] of the train vectors of [dat]
    holds the fields of the last train block of [group], or nothing when
    [group] has no train block, and the flag [has_wav] of the row tells
    whether [group] has a waveform block. *)
Definition FPOD_annotation (ext : string) (group : list (list byte))
    (dat : FPODData.t) (i : nat) : Prop :=
  match last (List.filter FPOD_is_train group) with
  | Some buf =>
      FPODData.train_id dat !! i = Some (at_ buf 15) /\
      FPODData.species dat !! i
      = Some (getSpeciesFromCode
                (to_uint8 (Z.land (Z.shiftr (at_ buf 14) 2) 3)) ext) /\
      FPODData.quality_level dat !! i = Some (Z.land (at_ buf 14) 3) /\
      FPODData.echo dat !! i = Some (Z.land (at_ buf 14) 32 =? 32)
  | None =>
      FPODData.train_id dat !! i = Some 0 /\
      FPODData.species dat !! i = Some "" /\
      FPODData.quality_level dat !! i = Some 0 /\
      FPODData.echo dat !! i = Some false
  end /\
  FPODData.has_wav dat !! i = Some (existsb FPOD_is_wav group).

(** The series of the click of number [click_no], from the waveform blocks
    of its group. *)
Definition FPOD_series_of (click_no : Z) (group : list (list byte))
    : list WavData :=
  if existsb FPOD_is_wav group
  then [Build_WavData click_no (map wav_chunk (List.filter FPOD_is_wav group))]
  else [].

Fixpoint FPOD_series (click_no : Z) (groups : list (list (list byte)))
    : list WavData :=
  match groups with
  | [] => []
  | group :: groups =>
      FPOD_series_of click_no group ++ FPOD_series (click_no + 1) groups
  end.

(** At the head of an iteration of [getFPODData] on a dataset built for [n]
    clicks, the blocks [pending] having been read since the last click:
    the row of the next click holds what [pending] tells, and the rows
    after it are as in a new dataset. *)
Definition FPOD_pending_inv (ext : string) (n : nat) (current_click : Z)
    (pending : list (list byte)) (dat : FPODData.t) : Prop :=
  -1 <= current_click /\
  sized n dat /\
  forall j : nat, (j < n)%nat -> current_click + 1 <= Z.of_nat j ->
    FPOD_annotation ext
      (if Z.of_nat j =? current_click + 1 then pending else []) dat j.

(** ** States reached by [getCPODData]

    [CPOD_reach ext data_buf_size dat0 read current_click current_min
    file_ends dat]: the loop of [getCPODData], started on the dataset
    [dat0], stands at the head of an iteration with these values of its
    variables after the blocks [read], each read in full and none of which
    has left the loop. *)
Inductive CPOD_reach (ext : string) (data_buf_size : nat) (dat0 : FPODData.t)
    : list (list byte) -> Z -> Z -> Z -> FPODData.t -> Prop :=
| CPOD_reach_start : CPOD_reach ext data_buf_size dat0 [] (-1) (-1) 0 dat0
| CPOD_reach_block read buf current_click current_min file_ends dat
    current_click' current_min' file_ends' dat' :
    CPOD_reach ext data_buf_size dat0 read current_click current_min file_ends dat ->
    length buf = data_buf_size ->
    CPOD_block ext data_buf_size buf current_click current_min file_ends dat
      = Some (Continue current_click' current_min' file_ends' dat') ->
    CPOD_reach ext data_buf_size dat0 (read ++ [buf])
      current_click' current_min' file_ends' dat'.

(** The block read last was a terminator block. *)
Definition after_terminator (read : list (list byte)) : bool :=
  match last read with
  | Some previous => eof previous
  | None => false
  end.

(** ** Example inputs *)

(** The bytes with the given values. *)
Definition bytes (l : list Z) : list byte :=
  map (fun z => default x00 (Byte.of_N (Z.to_N z))) l.

Definition fpod_minute_block : list byte :=
  bytes [254; 0; 0; 0; 0; 0; 0; 21; 0; 0; 0; 0; 60; 61; 0; 0].

Definition fpod_click_block : list byte :=
  bytes [1; 2; 3; 4; 0xAA; 5; 6; 0; 0; 0; 1; 0; 0; 0x35; 7; 0].

Definition fpod_train_block : list byte :=
  bytes [249; 0; 0; 0; 0; 0; 0; 0; 0; 0; 0; 0; 0; 0; 0x2B; 77].

Definition fpod_wav_block : list byte :=
  bytes [250; 1; 2; 3; 4; 5; 6; 7; 8; 9; 10; 11; 12; 13; 14; 15].

Definition cp1_click_block : list byte :=
  bytes [0; 0; 201; 7; 0; 9; 0; 0; 0; 1].

Definition cp1_minute_block : list byte :=
  bytes [0; 0; 0; 0; 0; 0; 0; 0; 0; 254].

(** A terminator block of [n] bytes, all 0xFF. *)
Definition terminator_block (n : nat) : list byte := repeat xff n.

(** A CP1 block of nine bytes 0xFF and a last byte 254. *)
Definition cp1_terminator_254 : list byte :=
  bytes [255; 255; 255; 255; 255; 255; 255; 255; 255; 254].

(** One click with three chunks, appended in the order shown. *)
Definition wav_three_chunks : list WavData :=
  [ Build_WavData 1
      [ Build_WavDataChunk [1; 2; 3; 4; 5; 6; 7] [11; 12; 13; 14; 15; 16; 17];
        Build_WavDataChunk [21; 22; 23; 24; 25; 26; 27] [31; 32; 33; 34; 35; 36; 37];
        Build_WavDataChunk [41; 42; 43; 44; 45; 46; 47] [51; 52; 53; 54; 55; 56; 57] ] ].

(** * Properties *)

(** ** Bytes *)

Lemma u8_range (b : byte) : 0 <= u8 b < 256.
Proof.
  unfold u8. pose proof (Byte.to_N_bounded b) as H. lia.
Qed.

Lemma at__range (buf : list byte) (i : nat) : 0 <= at_ buf i < 256.
Proof. apply u8_range. Qed.

(** ** [constructInt] *)

(** C9. When a field ends exactly at the last byte of the buffer, that is
    [offset + size = buf.size()], [constructInt] returns 0: the guard
    [offset + size < buf.size()] is strict, so the loop over the bytes of the
    field, all of them inside the buffer, is not entered. *)
Theorem constructInt_exact_fit (T : int_type) (buf : list byte)
    (offset size : nat) :
  (offset + size)%nat = length buf ->
  constructInt T buf offset size = 0.
Proof.
  intros H. unfold constructInt.
  destruct (Z.ltb_spec (Z.of_nat offset + Z.of_nat size) (Z.of_nat (length buf)));
    [lia|reflexivity].
Qed.

Lemma constructInt_exact_fit_witness :
  (2 + 2)%nat = length [x00; x00; x01; x02] /\
  constructInt uint32_t [x00; x00; x01; x02] 2 2 = 0.
Proof.
  split; [reflexivity|].
  apply (constructInt_exact_fit uint32_t [x00; x00; x01; x02] 2 2).
  reflexivity.
Defined.

(** Shifting left by 8 and or-ing a byte in appends the byte. *)
Lemma shift_or_byte (acc b : Z) :
  0 <= acc -> 0 <= b < 256 -> Z.lor (Z.shiftl acc 8) b = acc * 256 + b.
Proof.
  intros Hacc Hb.
  assert (Hland : Z.land (Z.shiftl acc 8) b = 0).
  { apply Z.bits_inj'. intros i Hi.
    rewrite Z.land_spec, Z.bits_0.
    destruct (Z.lt_ge_cases i 8) as [Hlt|Hge].
    - rewrite Z.shiftl_spec_low by exact Hlt. reflexivity.
    - rewrite (Z.bits_above_log2 b i); [apply andb_false_r|lia|].
      destruct (Z.eq_dec b 0) as [->|Hnz]; [simpl; lia|].
      apply Z.log2_lt_pow2; [lia|].
      apply Z.lt_le_trans with (2 ^ 8); [lia|].
      apply Z.pow_le_mono_r; lia. }
  rewrite <- Z.lxor_lor by exact Hland.
  rewrite <- Z.add_nocarry_lxor by exact Hland.
  rewrite Z.shiftl_mul_pow2 by lia. reflexivity.
Qed.

Lemma constructInt_fold (buf : list byte) (offset : nat) (k : nat) :
  forall (j : nat) (acc : Z),
  (j + k <= 4)%nat ->
  (offset + j + k <= length buf)%nat ->
  0 <= acc < 256 ^ Z.of_nat j ->
  fold_left (constructInt_step uint32_t buf offset) (seq j k) acc
  = fold_left (fun acc b => acc * 256 + u8 b) (take k (drop (offset + j) buf)) acc.
Proof.
  induction k as [|k IH]; intros j acc Hj Hlen Hacc; [reflexivity|].
  destruct (lookup_lt_is_Some_2 buf (offset + j)) as [b Hb]; [lia|].
  rewrite (drop_S _ _ _ Hb). cbn [seq fold_left take].
  replace (S (offset + j)) with (offset + S j)%nat by lia.
  assert (Hstep : constructInt_step uint32_t buf offset acc j = acc * 256 + u8 b).
  { unfold constructInt_step, at_. rewrite (nth_lookup_Some _ _ _ _ Hb).
    pose proof (u8_range b) as Hu.
    assert (Hpow : 256 ^ Z.of_nat j <= 256 ^ 3)
      by (apply Z.pow_le_mono_r; lia).
    unfold wrap; cbn [signed width].
    rewrite Z.shiftl_mul_pow2 by lia.
    rewrite (Z.mod_small (acc * 2 ^ 8)) by lia.
    rewrite (Z.mod_small (u8 b)) by lia.
    rewrite <- Z.shiftl_mul_pow2 by lia.
    rewrite shift_or_byte by lia.
    apply Z.mod_small. lia. }
  rewrite Hstep. apply IH; [lia|lia|].
  pose proof (u8_range b) as Hu.
  rewrite Nat2Z.inj_succ, Z.pow_succ_r by lia. lia.
Qed.

(** A field of at most 4 bytes that ends before the last byte of the buffer
    is read as the big-endian value of its bytes. *)
Lemma constructInt_big_endian (buf : list byte) (offset size : nat) :
  (size <= 4)%nat ->
  (offset + size < length buf)%nat ->
  constructInt uint32_t buf offset size
  = big_endian (take size (drop offset buf)).
Proof.
  intros Hsize Hlen. unfold constructInt, big_endian.
  destruct (Z.ltb_spec (Z.of_nat offset + Z.of_nat size) (Z.of_nat (length buf)));
    [|lia].
  rewrite (constructInt_fold buf offset size 0 0) by (simpl; lia).
  rewrite Nat.add_0_r. reflexivity.
Qed.

(** A field that would end past the buffer yields 0. *)
Lemma constructInt_past_end (T : int_type) (buf : list byte) (offset size : nat) :
  (length buf < offset + size)%nat ->
  constructInt T buf offset size = 0.
Proof.
  intros H. unfold constructInt.
  destruct (Z.ltb_spec (Z.of_nat offset + Z.of_nat size) (Z.of_nat (length buf)));
    [lia|reflexivity].
Qed.

(** Followed by one more byte, the bytes 0x01, 0x02 read as 258. *)
Lemma constructInt_01_02_inside (T : int_type) (b : byte) :
  constructInt T [x01; x02; b] 0 2 = 258.
Proof. destruct T; reflexivity. Qed.

(** C6. On the buffer that holds exactly the two bytes 0x01, 0x02, the
    2-byte field at offset 0 is read as 0 by [constructInt], for every
    result type, and not as 258. *)
Theorem constructInt_01_02_whole_buffer (T : int_type) :
  constructInt T [x01; x02] 0 2 = 0.
Proof. destruct T; reflexivity. Qed.

(** ** Species lookup *)

Lemma map_at_absent (m : list (Z * string)) (code : Z) :
  Forall (fun kv => fst kv <> code) m -> map_at m code = "".
Proof.
  induction 1 as [|[k v] m Hk _ IH]; simpl; [reflexivity|].
  simpl in Hk. destruct (Z.eqb_spec k code); [contradiction|exact IH].
Qed.

Lemma cp3_label_outside (code : Z) : ~ (0 <= code <= 7) -> cp3_label code = "".
Proof.
  intros H. destruct code as [|p|p]; [lia| |reflexivity].
  destruct p as [[[p|p|]|[p|p|]|]|[[p|p|]|[p|p|]|]|]; try lia; reflexivity.
Qed.

Lemma fp3_label_outside (code : Z) : ~ (0 <= code <= 3) -> fp3_label code = "".
Proof.
  intros H. destruct code as [|p|p]; [lia| |reflexivity].
  destruct p as [[p|p|]|[p|p|]|]; try lia; reflexivity.
Qed.

Lemma cpod_codes_keys (code : Z) :
  ~ (0 <= code <= 7) -> Forall (fun kv => fst kv <> code) cpod_codes.
Proof. intros H. unfold cpod_codes. repeat constructor; simpl; lia. Qed.

Lemma fpod_codes_keys (code : Z) :
  ~ (0 <= code <= 3) -> Forall (fun kv => fst kv <> code) fpod_codes.
Proof. intros H. unfold fpod_codes. repeat constructor; simpl; lia. Qed.

(** C7. For every code, [getSpeciesFromCode] on a CP3 file gives "NBHF" for
    0 and 1, "OtherCet" for 2 and 3, "Unclassed" for 4 and 5, "Sonar" for 6
    and 7; on an FP3 file "NBHF", "OtherCet", "Unclassed", "Sonar" for 0, 1,
    2, 3; and the empty label for every other code. *)
Theorem getSpeciesFromCode_labels (code : Z) :
  getSpeciesFromCode code "CP3" = cp3_label code /\
  getSpeciesFromCode code "FP3" = fp3_label code.
Proof.
  split.
  - change (getSpeciesFromCode code "CP3")
      with (if code <=? 7 then map_at cpod_codes code else "").
    destruct (Z.leb_spec code 7) as [Hle|Hgt].
    + destruct (Z.ltb_spec code 0) as [Hneg|Hpos].
      * rewrite map_at_absent by (apply cpod_codes_keys; lia).
        symmetry; apply cp3_label_outside; lia.
      * assert (H : code = 0 \/ code = 1 \/ code = 2 \/ code = 3 \/
                    code = 4 \/ code = 5 \/ code = 6 \/ code = 7) by lia.
        repeat (destruct H as [->|H]; [reflexivity|]); subst; reflexivity.
    + symmetry; apply cp3_label_outside; lia.
  - change (getSpeciesFromCode code "FP3")
      with (if code <=? 3 then map_at fpod_codes code else "").
    destruct (Z.leb_spec code 3) as [Hle|Hgt].
    + destruct (Z.ltb_spec code 0) as [Hneg|Hpos].
      * rewrite map_at_absent by (apply fpod_codes_keys; lia).
        symmetry; apply fp3_label_outside; lia.
      * assert (H : code = 0 \/ code = 1 \/ code = 2 \/ code = 3) by lia.
        repeat (destruct H as [->|H]; [reflexivity|]); subst; reflexivity.
    + symmetry; apply fp3_label_outside; lia.
Qed.

(** ** Assignments to vector elements *)

Lemma store_Some {A : Type} (i : nat) (x : A) (v : list A) :
  (i < length v)%nat -> store i x v = Some (<[i := x]> v).
Proof.
  revert i; induction v as [|y v IH]; intros [|i] H; simpl in *; try lia.
  - reflexivity.
  - rewrite IH by lia. reflexivity.
Qed.

Lemma store_None {A : Type} (i : nat) (x : A) (v : list A) :
  (length v <= i)%nat -> store i x v = None.
Proof.
  revert i; induction v as [|y v IH]; intros [|i] H; simpl in *;
    try reflexivity; try lia.
  rewrite IH by lia. reflexivity.
Qed.

Lemma write_Some {A : Type} (c : column A) (i : Z) (v : A) (dat : FPODData.t) :
  0 <= i < Z.of_nat (length (get c dat)) ->
  write c i v dat = Some (set c (<[Z.to_nat i := v]> (get c dat)) dat).
Proof.
  intros H. unfold write.
  destruct (Z.leb_spec 0 i); [|lia].
  rewrite store_Some by lia. reflexivity.
Qed.

Lemma write_if {A : Type} (c : column A) (i : Z) (b : bool) (x y : A)
    (dat : FPODData.t) :
  (if b then write c i x dat else write c i y dat)
  = write c i (if b then x else y) dat.
Proof. destruct b; reflexivity. Qed.

Lemma FPODData_new_sized (n : nat) (pic_ver : Z) : sized n (FPODData_new n pic_ver).
Proof.
  unfold sized, FPODData_new; simpl.
  rewrite !length_replicate, length_map, length_seq. tauto.
Qed.

#[local] Arguments at_ : simpl never.
#[local] Arguments constructInt : simpl never.
#[local] Arguments getSpeciesFromCode : simpl never.
#[local] Arguments double_of_int : simpl never.
#[local] Arguments int_of_double : simpl never.

(** Resolves the next assignment [dat.c[i] = v] of a decoder body, for an
    index inside the vectors. *)
Ltac write_ok :=
  rewrite write_Some by (simpl; rewrite ?length_insert; lia); simpl.

(** ** IPI-range class of an FPOD click *)

Lemma ipi_range_class_byte (b : byte) :
  (if Z.land (u8 b) 0xF =? 15 then 65
   else if Z.land (u8 b) 0x8 =? 8 then Z.shiftl (Z.land (u8 b) 0x7 + 1) 3
   else Z.land (u8 b) 0x7)
  = ipi_range_class (low_nibble (u8 b)).
Proof. destruct b; reflexivity. Qed.

(** C3. For every FPOD click block (first byte below 184) decoded into a
    dataset with room for the click, the IPI-range class stored for the
    click is the three-way function of the low nibble of byte 4: 65 when the
    nibble is 15, else [((nibble & 7) + 1) << 3] when bit 3 of the nibble is
    set, else [nibble & 7]; nibble 15 gives 65, nibble 10 gives 24, nibble 3
    gives 3. *)
Theorem FPOD_click_ipi_range (ext : string) (pic_ver : Z) (buf : list byte)
    (current_click current_min : Z) (dat : FPODData.t) (n : nat) :
  length buf = 16%nat ->
  at_ buf 0 < 184 ->
  sized n dat ->
  0 <= current_click + 1 < Z.of_nat n ->
  (exists dat',
     FPOD_block ext pic_ver buf current_click current_min dat
       = Some (current_click + 1, current_min, dat') /\
     FPODData.clk_ipi_range dat' !! Z.to_nat (current_click + 1)
       = Some (ipi_range_class (low_nibble (at_ buf 4)))) /\
  ipi_range_class 15 = 65 /\ ipi_range_class 10 = 24 /\ ipi_range_class 3 = 3.
Proof.
  intros Hlen Hclick Hsized Hroom.
  split; [|repeat split; reflexivity].
  unfold sized in Hsized.
  destruct Hsized as
    (? & ? & ? & ? & ? & ? & ? & ? & ? & ? & ? & ? & ? & ? & ? & ? & ?).
  unfold FPOD_block.
  destruct (Z.ltb_spec (at_ buf 0) 184) as [_|]; [|lia].
  unfold FPOD_click.
  do 4 write_ok. rewrite !write_if. do 6 write_ok.
  eexists; split; [reflexivity|]. simpl.
  rewrite list_lookup_insert_eq by lia.
  f_equal. apply ipi_range_class_byte.
Qed.

Lemma FPOD_click_ipi_range_witness :
  length fpod_click_block = 16%nat /\
  at_ fpod_click_block 0 < 184 /\
  sized 1 (FPODData_new 1 0) /\
  0 <= -1 + 1 < Z.of_nat 1 /\
  exists dat',
    FPOD_block "FP1" 0 fpod_click_block (-1) (-1) (FPODData_new 1 0)
      = Some (-1 + 1, -1, dat') /\
    FPODData.clk_ipi_range dat' !! Z.to_nat (-1 + 1)
      = Some (ipi_range_class (low_nibble (at_ fpod_click_block 4))).
Proof.
  assert (Hs : sized 1 (FPODData_new 1 0)) by (repeat split; reflexivity).
  repeat split; try reflexivity; try exact (proj1 Hs); try apply Hs.
  apply (FPOD_click_ipi_range "FP1" 0 fpod_click_block (-1) (-1)
           (FPODData_new 1 0) 1);
    [reflexivity | reflexivity | exact Hs | lia].
Defined.

(** ** FPOD minute markers *)

(** C8. For every FPOD minute-marker block (first byte 254) the minute index
    advances by one, byte 7 is appended to the temperatures, and the battery
    voltages appended are bytes 12 and 13 when the processor version is
    below 28, byte 11 is 0 and byte 13 is not 0, and bytes 11 and 12 in
    every other case. *)
Theorem FPOD_minute_marker (ext : string) (pic_ver : Z) (buf : list byte)
    (current_click current_min : Z) (dat : FPODData.t) :
  length buf = 16%nat ->
  at_ buf 0 = 254 ->
  exists dat',
    FPOD_block ext pic_ver buf current_click current_min dat
      = Some (current_click, current_min + 1, dat') /\
    FPODData.temp_deg_c dat' = (FPODData.temp_deg_c dat ++ [at_ buf 7])%list /\
    (pic_ver < 28 /\ at_ buf 11 = 0 /\ at_ buf 13 <> 0 ->
     FPODData.bat1 dat' = (FPODData.bat1 dat ++ [at_ buf 12])%list /\
     FPODData.bat2 dat' = (FPODData.bat2 dat ++ [at_ buf 13])%list) /\
    (~ (pic_ver < 28 /\ at_ buf 11 = 0 /\ at_ buf 13 <> 0) ->
     FPODData.bat1 dat' = (FPODData.bat1 dat ++ [at_ buf 11])%list /\
     FPODData.bat2 dat' = (FPODData.bat2 dat ++ [at_ buf 12])%list).
Proof.
  intros _ Hmark. unfold FPOD_block. rewrite Hmark. simpl.
  unfold FPOD_minute.
  destruct (Z.ltb_spec pic_ver 28) as [Hv|Hv];
    destruct (Z.eqb_spec (at_ buf 11) 0) as [H11|H11];
    destruct (Z.eqb_spec (at_ buf 13) 0) as [H13|H13]; simpl;
    (eexists; split; [reflexivity|]); simpl; unfold push_back;
    repeat split; try reflexivity; intros; tauto || lia.
Qed.

Lemma FPOD_minute_marker_witness :
  length fpod_minute_block = 16%nat /\
  at_ fpod_minute_block 0 = 254 /\
  exists dat',
    FPOD_block "FP1" 20 fpod_minute_block (-1) (-1) (FPODData_new 1 20)
      = Some (-1, -1 + 1, dat') /\
    FPODData.temp_deg_c dat' = [21] /\
    FPODData.bat1 dat' = [60] /\
    FPODData.bat2 dat' = [61].
Proof.
  split; [reflexivity|]. split; [reflexivity|].
  destruct (FPOD_minute_marker "FP1" 20 fpod_minute_block (-1) (-1)
              (FPODData_new 1 20) eq_refl eq_refl)
    as (dat' & Hrun & Htemp & Hlegacy & _).
  exists dat'. split; [exact Hrun|]. split; [exact Htemp|].
  apply Hlegacy.
  split; [reflexivity|].
  split; [reflexivity | intros H; vm_compute in H; discriminate H].
Defined.

(** ** Inversion of the decoder bodies *)

Lemma write_inv {A : Type} (c : column A) (i : Z) (v : A) (dat dat' : FPODData.t) :
  write c i v dat = Some dat' ->
  0 <= i /\ (Z.to_nat i < length (get c dat))%nat /\
  dat' = set c (<[Z.to_nat i := v]> (get c dat)) dat.
Proof.
  unfold write. destruct (Z.leb_spec 0 i) as [Hi|Hi]; [|discriminate].
  destruct (Nat.lt_ge_cases (Z.to_nat i) (length (get c dat))) as [Hlt|Hge].
  - rewrite store_Some by exact Hlt. simpl. intros [= <-]. auto.
  - rewrite store_None by exact Hge. discriminate.
Qed.

(** Splits a successful sequence of assignments into its steps. *)
Ltac bind_inv H :=
  repeat match type of H with
  | (?m ≫= _) = Some _ =>
      let E := fresh "E" in
      let d := fresh "dat" in
      destruct m as [d|] eqn:E; [simpl in H | discriminate H];
      rewrite ?write_if in E;
      apply write_inv in E; destruct E as (? & ? & ->); simpl in *
  end.

Lemma Some_triple_inv {A B C : Type} (a a' : A) (b b' : B) (c c' : C) :
  Some (a, b, c) = Some (a', b', c') -> a = a' /\ b = b' /\ c = c'.
Proof. intros [= -> -> ->]. auto. Qed.

(** What the click, train and minute branches leave alone. *)
Lemma FPOD_click_frame (buf : list byte) (cc cm : Z) (dat : FPODData.t)
    (cc' cm' : Z) (dat' : FPODData.t) (n : nat) :
  FPOD_click buf cc cm dat = Some (cc', cm', dat') ->
  cc' = cc + 1 /\ cm' = cm /\
  FPODData.has_wav dat' = FPODData.has_wav dat /\
  FPODData.wav_data dat' = FPODData.wav_data dat /\
  (sized n dat -> sized n dat').
Proof.
  unfold FPOD_click. intros H. bind_inv H.
  apply Some_triple_inv in H. destruct H as (<- & <- & <-). simpl.
  repeat apply conj; try reflexivity.
  unfold sized; simpl. rewrite !length_insert. exact (fun Hs => Hs).
Qed.

Lemma FPOD_train_frame (ext : string) (buf : list byte) (cc cm : Z)
    (dat : FPODData.t) (cc' cm' : Z) (dat' : FPODData.t) (n : nat) :
  FPOD_train ext buf cc cm dat = Some (cc', cm', dat') ->
  cc' = cc /\ cm' = cm /\
  FPODData.has_wav dat' = FPODData.has_wav dat /\
  FPODData.wav_data dat' = FPODData.wav_data dat /\
  (sized n dat -> sized n dat').
Proof.
  unfold FPOD_train. intros H. bind_inv H.
  apply Some_triple_inv in H. destruct H as (<- & <- & <-). simpl.
  repeat apply conj; try reflexivity.
  unfold sized; simpl. rewrite !length_insert. exact (fun Hs => Hs).
Qed.

Lemma FPOD_minute_frame (pic_ver : Z) (buf : list byte) (cc cm : Z)
    (dat : FPODData.t) (cc' cm' : Z) (dat' : FPODData.t) (n : nat) :
  FPOD_minute pic_ver buf cc cm dat = Some (cc', cm', dat') ->
  cc' = cc /\ cm' = cm + 1 /\
  FPODData.has_wav dat' = FPODData.has_wav dat /\
  FPODData.wav_data dat' = FPODData.wav_data dat /\
  (sized n dat -> sized n dat').
Proof.
  unfold FPOD_minute. intros H.
  destruct ((pic_ver <? 28) && (at_ buf 11 =? 0) && negb (at_ buf 13 =? 0));
    apply Some_triple_inv in H; destruct H as (<- & <- & <-); simpl;
    repeat apply conj; try reflexivity; exact (fun Hs => Hs).
Qed.

(** ** FPOD waveform blocks *)

Lemma wav_chunk_bytes (buf : list byte) : wav_chunk buf = wav_chunk_odd_even buf.
Proof. reflexivity. Qed.

Lemma update_back_snoc {A : Type} (f : A -> A) (ws : list A) (w : A) :
  update_back f (ws ++ [w])%list = Some (ws ++ [f w])%list.
Proof.
  induction ws as [|x ws IH]; [reflexivity|].
  simpl. rewrite IH. destruct (ws ++ [w])%list eqn:E; [|reflexivity].
  destruct ws; discriminate E.
Qed.

(** The waveform branch on a dataset where the flag of the next click can
    be read and, when it is set, a series exists. *)
Lemma FPOD_wav_run (buf : list byte) (cc cm : Z) (dat : FPODData.t) (has : bool) :
  0 <= cc + 1 ->
  FPODData.has_wav dat !! Z.to_nat (cc + 1) = Some has ->
  (has = true -> exists ws w, FPODData.wav_data dat = (ws ++ [w])%list) ->
  exists dat',
    FPOD_wav buf cc cm dat = Some (cc, cm, dat') /\
    FPODData.has_wav dat' = <[Z.to_nat (cc + 1) := true]> (FPODData.has_wav dat) /\
    (forall n, sized n dat -> sized n dat') /\
    if has then
      forall ws w, FPODData.wav_data dat = (ws ++ [w])%list ->
        FPODData.wav_data dat' = (ws ++ [add_chunk (wav_chunk buf) w])%list
    else
      FPODData.wav_data dat'
      = (FPODData.wav_data dat
           ++ [Build_WavData (cc + 2) [wav_chunk buf]])%list.
Proof.
  intros Hcc Hhas Hseries.
  assert (Hlt : (Z.to_nat (cc + 1) < length (FPODData.has_wav dat))%nat)
    by (eapply lookup_lt_Some; exact Hhas).
  unfold FPOD_wav, read.
  destruct (Z.leb_spec 0 (cc + 1)) as [_|]; [|lia].
  simpl. rewrite Hhas. simpl.
  destruct has; simpl.
  - destruct (Hseries eq_refl) as (ws & w & Hwd).
    rewrite Hwd, update_back_snoc. simpl.
    eexists; split; [reflexivity|]. simpl.
    split; [symmetry; apply list_insert_id; exact Hhas|].
    split; [intros n Hs; exact Hs|].
    intros ws' w' Hwd'.
    apply app_inj_tail in Hwd' as [-> ->]. reflexivity.
  - rewrite write_Some by (simpl; lia). simpl.
    unfold push_back. rewrite update_back_snoc. simpl.
    eexists; split; [reflexivity|]. simpl.
    split; [reflexivity|].
    split; [|reflexivity].
    intros n. unfold sized; simpl. rewrite length_insert. exact (fun Hs => Hs).
Qed.

(** Every block of the loop keeps the invariant. *)
Lemma FPOD_block_inv (ext : string) (pic_ver : Z) (buf : list byte) (n : nat)
    (cc cm : Z) (dat : FPODData.t) (cc' cm' : Z) (dat' : FPODData.t) :
  FPOD_inv n cc dat ->
  FPOD_block ext pic_ver buf cc cm dat = Some (cc', cm', dat') ->
  FPOD_inv n cc' dat'.
Proof.
  intros (Hcc & Hs & Hnone & Hlast) H. unfold FPOD_block in H.
  destruct (at_ buf 0 <? 184).
  { apply (FPOD_click_frame _ _ _ _ _ _ _ n) in H.
    destruct H as (-> & -> & Hhw & Hwd & Hs').
    unfold FPOD_inv. rewrite Hhw, Hwd.
    split; [lia|]. split; [auto|]. split.
    - intros j Hj. apply Hnone. lia.
    - intros Ht. exfalso. apply (Hnone (Z.to_nat (cc + 1 + 1))); [lia|exact Ht]. }
  destruct (at_ buf 0 =? 249).
  { apply (FPOD_train_frame _ _ _ _ _ _ _ _ n) in H.
    destruct H as (-> & -> & Hhw & Hwd & Hs').
    unfold FPOD_inv. rewrite Hhw, Hwd. auto. }
  destruct (at_ buf 0 =? 250).
  { destruct (FPODData.has_wav dat !! Z.to_nat (cc + 1)) as [has|] eqn:Hhas.
    - destruct (FPOD_wav_run buf cc cm dat has) as (dat1 & Hrun & Hhw & Hs' & Hwd);
        [lia | exact Hhas | |].
      { intros ->. destruct (Hlast eq_refl) as (ws & w & Hw & _). eauto. }
      rewrite Hrun in H. apply Some_triple_inv in H. destruct H as (<- & <- & <-).
      assert (Hlt : (Z.to_nat (cc + 1) < length (FPODData.has_wav dat))%nat)
        by (eapply lookup_lt_Some; exact Hhas).
      unfold FPOD_inv. rewrite Hhw.
      split; [lia|]. split; [auto|]. split.
      + intros j Hj. rewrite list_lookup_insert_ne by lia. apply Hnone. lia.
      + intros _. destruct has.
        * destruct (Hlast eq_refl) as (ws & w & Hw & Hclick).
          rewrite (Hwd ws w Hw). exists ws, (add_chunk (wav_chunk buf) w).
          split; [reflexivity|exact Hclick].
        * rewrite Hwd. eauto.
    - exfalso. unfold FPOD_wav, read in H.
      destruct (0 <=? cc + 1); simpl in H; [rewrite Hhas in H|]; discriminate H. }
  destruct (at_ buf 0 =? 254).
  { apply (FPOD_minute_frame _ _ _ _ _ _ _ _ n) in H.
    destruct H as (-> & -> & Hhw & Hwd & Hs').
    unfold FPOD_inv. rewrite Hhw, Hwd. auto. }
  apply Some_triple_inv in H. destruct H as (<- & <- & <-).
  unfold FPOD_inv. auto.
Qed.

(** The invariant holds in every state reached from a fresh dataset. *)
Lemma FPOD_reach_inv (ext : string) (pic_ver : Z) (n : nat) (pic_ver0 : Z)
    (cc cm : Z) (dat : FPODData.t) :
  FPOD_reach ext pic_ver (FPODData_new n pic_ver0) cc cm dat ->
  FPOD_inv n cc dat.
Proof.
  induction 1 as [|buf cc cm dat cc' cm' dat' _ IH Hblock].
  - unfold FPOD_inv. split; [lia|]. split; [apply FPODData_new_sized|].
    simpl. split.
    + intros j _ Hj. apply lookup_replicate in Hj. destruct Hj; discriminate.
    + intros Hj. apply lookup_replicate in Hj. destruct Hj; discriminate.
  - eapply FPOD_block_inv; eassumption.
Qed.

(** C5, as the code has it.  For every FPOD waveform block (first byte 250)
    met by the decoder while the next click has room in the dataset: the
    block gives one chunk of 7 pairs, the inter-pulse intervals from bytes
    13, 11, ..., 1 and the amplitudes from bytes 14, 12, ..., 2; the flag
    [has_wav] of the next click is set afterwards; on the first waveform
    block for that click a new series keyed [current_click + 2] is opened
    with this chunk, and on a later one the chunk is appended to that
    series, which is the last one. *)
Theorem FPOD_wav_block (n : nat) (pic_ver0 : Z) (ext : string) (pic_ver : Z)
    (buf : list byte) (current_click current_min : Z) (dat : FPODData.t) :
  FPOD_reach ext pic_ver (FPODData_new n pic_ver0) current_click current_min dat ->
  length buf = 16%nat ->
  at_ buf 0 = 250 ->
  current_click + 1 < Z.of_nat n ->
  exists (has : bool) (dat' : FPODData.t),
    FPODData.has_wav dat !! Z.to_nat (current_click + 1) = Some has /\
    FPOD_block ext pic_ver buf current_click current_min dat
      = Some (current_click, current_min, dat') /\
    FPODData.has_wav dat' !! Z.to_nat (current_click + 1) = Some true /\
    if has then
      exists ws w,
        FPODData.wav_data dat = (ws ++ [w])%list /\
        click w = current_click + 2 /\
        FPODData.wav_data dat'
        = (ws ++ [Build_WavData (current_click + 2)
                    (chunks w ++ [wav_chunk_odd_even buf])])%list
    else
      FPODData.wav_data dat'
      = (FPODData.wav_data dat
           ++ [Build_WavData (current_click + 2) [wav_chunk_odd_even buf]])%list.
Proof.
  intros Hreach _ Hwav Hroom.
  apply FPOD_reach_inv in Hreach.
  destruct Hreach as (Hcc & Hs & Hnone & Hlast).
  assert (Hlt : (Z.to_nat (current_click + 1) < length (FPODData.has_wav dat))%nat).
  { unfold sized in Hs. lia. }
  destruct (lookup_lt_is_Some_2 _ _ Hlt) as [has Hhas].
  destruct (FPOD_wav_run buf current_click current_min dat has)
    as (dat' & Hrun & Hhw & _ & Hwd); [lia | exact Hhas | |].
  { intros ->. destruct (Hlast Hhas) as (ws & w & Hw & _). eauto. }
  exists has, dat'. split; [exact Hhas|]. split.
  - unfold FPOD_block. rewrite Hwav. exact Hrun.
  - split; [rewrite Hhw; apply list_lookup_insert_eq; exact Hlt|].
    rewrite <- wav_chunk_bytes. destruct has.
    + destruct (Hlast Hhas) as (ws & w & Hw & Hclick).
      exists ws, w. split; [exact Hw|]. split; [exact Hclick|].
      rewrite (Hwd ws w Hw). unfold add_chunk, push_back. rewrite Hclick.
      reflexivity.
    + exact Hwd.
Qed.

Lemma FPOD_wav_block_witness :
  FPOD_reach "FP1" 0 (FPODData_new 1 0) (-1) (-1) (FPODData_new 1 0) /\
  length fpod_wav_block = 16%nat /\
  at_ fpod_wav_block 0 = 250 /\
  -1 + 1 < Z.of_nat 1 /\
  exists dat',
    FPOD_block "FP1" 0 fpod_wav_block (-1) (-1) (FPODData_new 1 0)
      = Some (-1, -1, dat') /\
    FPODData.has_wav dat' !! Z.to_nat (-1 + 1) = Some true /\
    FPODData.wav_data dat'
    = [Build_WavData (-1 + 2) [wav_chunk_odd_even fpod_wav_block]].
Proof.
  split; [apply FPOD_reach_start|].
  split; [reflexivity|]. split; [reflexivity|]. split; [lia|].
  destruct (FPOD_wav_block 1 0 "FP1" 0 fpod_wav_block (-1) (-1) (FPODData_new 1 0)
              (FPOD_reach_start _ _ _) eq_refl eq_refl ltac:(lia))
    as (has & dat' & Hhas & Hrun & Hset & Hwd).
  exists dat'. split; [exact Hrun|]. split; [exact Hset|].
  vm_compute in Hhas. injection Hhas as <-. exact Hwd.
Defined.

(** C5 fails as worded.  On the waveform block with bytes 250, 1, 2, ..., 15
    the chunk stored has the amplitudes 14, 12, ..., 2 (bytes 14, 12, ...,
    2), not the bytes at offsets 12, 10, ..., 0. *)
Lemma FPOD_wav_block_offsets_counterexample :
  exists dat',
    FPOD_block "FP1" 0 fpod_wav_block (-1) (-1) (FPODData_new 1 0)
      = Some (-1, -1, dat') /\
    FPODData.wav_data dat'
    = [Build_WavData 1
         [Build_WavDataChunk [13; 11; 9; 7; 5; 3; 1] [14; 12; 10; 8; 6; 4; 2]]] /\
    FPODData.wav_data dat'
    <> [Build_WavData 1 [wav_chunk_13_12_down_to_1_0 fpod_wav_block]].
Proof.
  eexists. split; [vm_compute; reflexivity|].
  split; [reflexivity|].
  vm_compute. discriminate.
Qed.

(** ** CPOD terminator blocks *)

Lemma CPOD_format_getBufsize (ext : string) (data_buf_size : nat) :
  CPOD_format ext data_buf_size -> snd (getBufsize ext) = data_buf_size.
Proof. intros [[-> ->]|[-> ->]]; reflexivity. Qed.

(** A click decoded by the CPOD decoder into a dataset with room for it. *)
Lemma CPOD_click_run (ext : string) (data_buf_size : nat) (buf : list byte)
    (cc cm : Z) (dat : FPODData.t) (n : nat) :
  CPOD_format ext data_buf_size ->
  sized n dat ->
  0 <= cc + 1 < Z.of_nat n ->
  exists dat',
    CPOD_click ext buf cc cm dat = Some (cc + 1, cm, dat') /\
    sized n dat' /\
    CPOD_click_row ext buf cm dat' (Z.to_nat (cc + 1)) /\
    FPODData.wav_data dat' = FPODData.wav_data dat /\
    FPODData.temp_deg_c dat' = FPODData.temp_deg_c dat /\
    (forall ext0 buf0 minute (j : nat),
       Z.of_nat j <> cc + 1 ->
       CPOD_click_row ext0 buf0 minute dat j ->
       CPOD_click_row ext0 buf0 minute dat' j).
Proof.
  intros Hfmt Hs Hroom.
  pose proof Hs as Hs'. unfold sized in Hs'.
  destruct Hs' as
    (? & ? & ? & ? & ? & ? & ? & ? & ? & ? & ? & ? & ? & ? & ? & ? & ?).
  unfold CPOD_click. do 5 write_ok.
  destruct (Z.gtb_spec (at_ buf 5) 0) as [Hkhz|Hkhz];
    destruct Hfmt as [[-> ->]|[-> ->]]; simpl;
    repeat write_ok;
    (eexists; split; [reflexivity|]); simpl;
    (split; [unfold sized; simpl; rewrite ?length_insert; tauto|]);
    (split;
     [unfold CPOD_click_row; simpl;
      rewrite ?list_lookup_insert_eq by lia;
      repeat apply conj; try reflexivity; try discriminate; intros;
      try lia; repeat apply conj; reflexivity|]);
    (split; [reflexivity|]); (split; [reflexivity|]);
    intros ext0 buf0 minute j Hj Hrow;
    unfold CPOD_click_row in *; simpl;
    rewrite ?list_lookup_insert_ne by lia; exact Hrow.
Qed.

(** ** [wavToList] *)

Lemma store_middle {A : Type} (l : list A) (x y : A) (r : list A) :
  store (length l) x (l ++ y :: r) = Some (l ++ x :: r).
Proof.
  induction l as [|a l IH]; simpl; [reflexivity|].
  rewrite IH. reflexivity.
Qed.

Lemma store_next_free (cap : nat) (l : list Z) (x : Z) :
  (length l < cap)%nat ->
  store (length l) x (l ++ replicate (cap - length l) 0)
  = Some ((l ++ [x]) ++ replicate (cap - length (l ++ [x])) 0).
Proof.
  intros H. rewrite length_app. simpl.
  replace (cap - length l)%nat with (S (cap - (length l + 1)))%nat by lia.
  simpl. rewrite store_middle, <- app_assoc. reflexivity.
Qed.

Lemma wav_cell_filled (cap : nat) (wav : WavData) (it : WavDataChunk)
    (cn ip sp : list Z) (j : nat) (a b : Z) :
  length ip = length cn -> length sp = length cn ->
  (length cn < cap)%nat ->
  IPI it !! j = Some a -> SPL it !! j = Some b ->
  wav_cell wav it (wav_table_filled cap cn ip sp) j
  = Some (wav_table_filled cap (cn ++ [click wav]) (ip ++ [a]) (sp ++ [b])).
Proof.
  intros Hip Hsp Hcap Ha Hb. unfold wav_cell, wav_table_filled. simpl.
  rewrite store_next_free by exact Hcap. simpl.
  rewrite Ha. simpl. rewrite <- Hip at 1. rewrite store_next_free by lia. simpl.
  rewrite Hb. simpl. rewrite <- Hsp at 1. rewrite store_next_free by lia. simpl.
  rewrite length_app. simpl. do 3 f_equal; lia.
Qed.

Lemma wav_chunk_filled (cap : nat) (wav : WavData) (it : WavDataChunk) (m : nat) :
  forall (j : nat) (cn ip sp : list Z),
  length ip = length cn -> length sp = length cn ->
  (length cn + m <= cap)%nat ->
  (j + m <= length (IPI it))%nat -> (j + m <= length (SPL it))%nat ->
  for_each (wav_cell wav it) (seq j m) (wav_table_filled cap cn ip sp)
  = Some (wav_table_filled cap
            (cn ++ replicate m (click wav))
            (ip ++ take m (drop j (IPI it)))
            (sp ++ take m (drop j (SPL it)))).
Proof.
  induction m as [|m IH]; intros j cn ip sp Hip Hsp Hcap Hi Hs.
  - simpl. rewrite !take_0, !app_nil_r. reflexivity.
  - destruct (lookup_lt_is_Some_2 (IPI it) j) as [a Ha]; [lia|].
    destruct (lookup_lt_is_Some_2 (SPL it) j) as [b Hb]; [lia|].
    simpl. rewrite (wav_cell_filled cap wav it cn ip sp j a b) by (auto; lia).
    simpl. rewrite IH by (rewrite ?length_app; simpl; lia).
    rewrite (drop_S _ _ _ Ha), (drop_S _ _ _ Hb). simpl.
    rewrite <- !app_assoc. reflexivity.
Qed.

Lemma wav_chunks_filled (cap : nat) (wav : WavData) (its : list WavDataChunk) :
  forall (cn ip sp : list Z),
  Forall chunk_ok its ->
  length ip = length cn -> length sp = length cn ->
  (length cn + 7 * length its <= cap)%nat ->
  for_each (fun t it => for_each (wav_cell wav it) (seq 0 7) t) its
           (wav_table_filled cap cn ip sp)
  = Some (wav_table_filled cap
            (cn ++ flat_map (fun _ => replicate 7 (click wav)) its)
            (ip ++ flat_map IPI its)
            (sp ++ flat_map SPL its)).
Proof.
  induction its as [|it its IH]; intros cn ip sp Hok Hip Hsp Hcap.
  - simpl. rewrite !app_nil_r. reflexivity.
  - apply Forall_cons in Hok as [[Hi Hs] Hok].
    cbn [for_each]. simpl length in Hcap.
    rewrite (wav_chunk_filled cap wav it 7 0 cn ip sp) by (auto; lia).
    cbn [mbind option_bind].
    rewrite !drop_0, !take_ge by lia.
    rewrite IH; [|exact Hok|rewrite !length_app, length_replicate; lia..].
    cbn [flat_map]. rewrite <- !app_assoc. reflexivity.
Qed.

Lemma wav_rows_filled (cap : nat) (wav : WavData) (cn ip sp : list Z) :
  Forall chunk_ok (chunks wav) ->
  length ip = length cn -> length sp = length cn ->
  (length cn + 7 * length (chunks wav) <= cap)%nat ->
  wav_rows (wav_table_filled cap cn ip sp) wav
  = Some (wav_table_filled cap
            (cn ++ flat_map (fun _ => replicate 7 (click wav)) (rev (chunks wav)))
            (ip ++ flat_map IPI (rev (chunks wav)))
            (sp ++ flat_map SPL (rev (chunks wav)))).
Proof.
  intros Hok Hip Hsp Hcap. unfold wav_rows.
  apply wav_chunks_filled; auto.
  - apply Forall_rev. exact Hok.
  - rewrite length_rev. exact Hcap.
Qed.

Lemma flat_map_rev_length {A B : Type} (f : A -> list B) (k : nat) (l : list A) :
  Forall (fun c => length (f c) = k) l ->
  length (flat_map f (rev l)) = (k * length l)%nat.
Proof.
  intros Hf. rewrite <- (length_rev l). apply Forall_rev in Hf.
  induction Hf as [|c cs Hc _ IH]; simpl; [lia|].
  rewrite length_app, Hc, IH. lia.
Qed.

Lemma wav_column_length (f : WavData -> WavDataChunk -> list Z) (k : nat)
    (wav_data : list WavData) :
  Forall (fun wav => Forall (fun c => length (f wav c) = k) (chunks wav)) wav_data ->
  length (wav_column f wav_data) = (k * total_chunks wav_data)%nat.
Proof.
  unfold wav_column, total_chunks.
  induction 1 as [|wav wd Hwav _ IH]; simpl; [lia|].
  rewrite !length_app, IH, (flat_map_rev_length _ k) by exact Hwav. lia.
Qed.

Lemma chunk_ok_IPI (l : list WavDataChunk) :
  Forall chunk_ok l -> Forall (fun c => length (IPI c) = 7%nat) l.
Proof. intros H. eapply Forall_impl; [exact H|]. intros c Hc; apply Hc. Qed.

Lemma chunk_ok_SPL (l : list WavDataChunk) :
  Forall chunk_ok l -> Forall (fun c => length (SPL c) = 7%nat) l.
Proof. intros H. eapply Forall_impl; [exact H|]. intros c Hc; apply Hc. Qed.

Lemma replicate_7_length (click : Z) (l : list WavDataChunk) :
  Forall (fun _ : WavDataChunk => length (replicate 7 click) = 7%nat) l.
Proof. apply Forall_forall. intros; apply length_replicate. Qed.

Lemma wav_data_filled (cap : nat) (wav_data : list WavData) :
  forall (cn ip sp : list Z),
  Forall (fun wav => Forall chunk_ok (chunks wav)) wav_data ->
  length ip = length cn -> length sp = length cn ->
  (length cn + 7 * total_chunks wav_data <= cap)%nat ->
  for_each wav_rows wav_data (wav_table_filled cap cn ip sp)
  = Some (wav_table_filled cap
            (cn ++ wav_column (fun wav _ => replicate 7 (click wav)) wav_data)
            (ip ++ wav_column (fun _ chunk => IPI chunk) wav_data)
            (sp ++ wav_column (fun _ chunk => SPL chunk) wav_data)).
Proof.
  unfold total_chunks.
  induction wav_data as [|wav wav_data IH]; intros cn ip sp Hok Hip Hsp Hcap.
  - simpl. rewrite !app_nil_r. reflexivity.
  - apply Forall_cons in Hok as [Hwav Hok].
    cbn [flat_map] in Hcap. rewrite length_app in Hcap.
    cbn [for_each]. rewrite wav_rows_filled by (auto; lia).
    cbn [mbind option_bind].
    pose proof (flat_map_rev_length IPI 7 _ (chunk_ok_IPI _ Hwav)) as Hi.
    pose proof (flat_map_rev_length SPL 7 _ (chunk_ok_SPL _ Hwav)) as Hs.
    pose proof (flat_map_rev_length _ 7 _ (replicate_7_length (click wav) (chunks wav)))
      as Hc.
    rewrite IH; [|exact Hok|rewrite !length_app; lia..].
    unfold wav_column. cbn [flat_map]. rewrite <- !app_assoc. reflexivity.
Qed.

Lemma subset_range {A : Type} (v : list A) (n : nat) :
  forall j : nat, (j + n <= length v)%nat ->
  mapM (fun i => v !! i) (seq j n) = Some (take n (drop j v)).
Proof.
  induction n as [|n IH]; intros j Hj.
  - rewrite take_0. reflexivity.
  - destruct (lookup_lt_is_Some_2 v j) as [a Ha]; [lia|].
    simpl. rewrite Ha. simpl. rewrite IH by lia. simpl.
    rewrite (drop_S _ _ _ Ha). reflexivity.
Qed.

Lemma subset_filled {A : Type} (l r : list A) (n : nat) :
  n = length l -> subset (l ++ r) n = Some l.
Proof.
  intros ->. unfold subset. rewrite subset_range by (rewrite length_app; lia).
  rewrite drop_0, take_app_length. reflexivity.
Qed.

(** The order of the waveform table.  When the waveform data fit the table
    that [wavToList] allocates (at most three chunks of 7 pairs per click
    on average), every column of the data frame lists the clicks in order,
    the chunks of each click from the last appended to the first appended,
    and the 7 values of each chunk in their order inside the chunk. *)
Theorem wavToList_reverse_chunks (wav_data : list WavData) :
  Forall (fun wav => Forall chunk_ok (chunks wav)) wav_data ->
  (total_chunks wav_data <= 3 * length wav_data)%nat ->
  wavToList wav_data
  = Some [ ("click_no",
            IntegerVector
              (wav_column (fun wav _ => replicate 7 (click wav)) wav_data));
           ("IPI", IntegerVector (wav_column (fun _ chunk => IPI chunk) wav_data));
           ("SPL", IntegerVector (wav_column (fun _ chunk => SPL chunk) wav_data)) ].
Proof.
  intros Hok Hcap. unfold wavToList.
  pose (cap := (length wav_data * 21)%nat).
  change (Build_wav_table (replicate (length wav_data * 21) 0)
            (replicate (length wav_data * 21) 0)
            (replicate (length wav_data * 21) 0) 0 0)
    with (Build_wav_table (replicate cap 0) (replicate cap 0) (replicate cap 0) 0 0).
  replace (Build_wav_table (replicate cap 0) (replicate cap 0) (replicate cap 0) 0 0)
    with (wav_table_filled cap [] [] [])
    by (unfold wav_table_filled; simpl; rewrite Nat.sub_0_r; reflexivity).
  rewrite wav_data_filled by (auto; simpl; unfold cap; lia).
  cbn [mbind option_bind app].
  unfold wav_table_filled. cbn [wt_click_num wt_IPI wt_SPL wt_total_records].
  assert (Hc : length (wav_column (fun wav _ => replicate 7 (click wav)) wav_data)
               = (7 * total_chunks wav_data)%nat).
  { apply wav_column_length. apply Forall_forall. intros wav _.
    apply replicate_7_length. }
  assert (Hi : length (wav_column (fun _ chunk => IPI chunk) wav_data)
               = (7 * total_chunks wav_data)%nat).
  { apply wav_column_length. eapply Forall_impl; [exact Hok|].
    intros wav; apply chunk_ok_IPI. }
  assert (Hs : length (wav_column (fun _ chunk => SPL chunk) wav_data)
               = (7 * total_chunks wav_data)%nat).
  { apply wav_column_length. eapply Forall_impl; [exact Hok|].
    intros wav; apply chunk_ok_SPL. }
  rewrite !subset_filled by lia. reflexivity.
Qed.

Lemma wavToList_reverse_chunks_witness :
  Forall (fun wav => Forall chunk_ok (chunks wav)) wav_three_chunks /\
  (total_chunks wav_three_chunks <= 3 * length wav_three_chunks)%nat /\
  wavToList wav_three_chunks
  = Some [ ("click_no", IntegerVector (replicate 21 1));
           ("IPI", IntegerVector [41; 42; 43; 44; 45; 46; 47;
                                  21; 22; 23; 24; 25; 26; 27;
                                  1; 2; 3; 4; 5; 6; 7]);
           ("SPL", IntegerVector [51; 52; 53; 54; 55; 56; 57;
                                  31; 32; 33; 34; 35; 36; 37;
                                  11; 12; 13; 14; 15; 16; 17]) ].
Proof.
  assert (Hok : Forall (fun wav => Forall chunk_ok (chunks wav)) wav_three_chunks)
    by (repeat constructor).
  assert (Hcap : (total_chunks wav_three_chunks <= 3 * length wav_three_chunks)%nat)
    by (vm_compute; lia).
  split; [exact Hok|]. split; [exact Hcap|].
  exact (wavToList_reverse_chunks wav_three_chunks Hok Hcap).
Defined.

(** Four chunks for one click do not fit the table: the writes of the
    fourth chunk fall outside the vectors. *)
Lemma wavToList_overflow (chunk : WavDataChunk) :
  chunk_ok chunk ->
  wavToList [Build_WavData 1 [chunk; chunk; chunk; chunk]] = None.
Proof.
  intros [Hi Hs].
  destruct chunk as [ipi spl]; simpl in *.
  do 8 (destruct ipi as [|? ipi]; try discriminate Hi).
  do 8 (destruct spl as [|? spl]; try discriminate Hs).
  reflexivity.
Qed.

(** ** The decoding loops *)

Lemma fid_read_block (buf fid : list byte) (n : nat) :
  length buf = n -> fid_read (buf ++ fid) n = (Some buf, fid).
Proof.
  intros <-. unfold fid_read. rewrite length_app.
  destruct (Nat.leb_spec (length buf) (length buf + length fid)); [|lia].
  rewrite take_app_length, drop_app_length. reflexivity.
Qed.

Lemma fid_read_short (fid : list byte) (n : nat) :
  (length fid < n)%nat -> fid_read fid n = (None, []).
Proof.
  intros H. unfold fid_read.
  destruct (Nat.leb_spec n (length fid)); [lia|reflexivity].
Qed.

Lemma fid_read_Some (fid buf fid' : list byte) (n : nat) :
  fid_read fid n = (Some buf, fid') ->
  length buf = n /\ fid = buf ++ fid'.
Proof.
  unfold fid_read. destruct (Nat.leb_spec n (length fid)) as [Hn|Hn];
    [|discriminate].
  intros [= <- <-]. split; [apply length_take_le; exact Hn|].
  symmetry; apply take_drop.
Qed.

(** One iteration of [getCPODData] on a block read in full. *)
Lemma getCPODData_loop_block (ext : string) (data_buf_size fuel : nat)
    (buf fid : list byte) (cc cm fe : Z) (dat : FPODData.t) :
  length buf = data_buf_size ->
  getCPODData_loop ext data_buf_size (S fuel) (buf ++ fid) cc cm fe dat
  = match CPOD_block ext data_buf_size buf cc cm fe dat with
    | None => Undefined
    | Some Break => Returns (cc, cm, dat, fid)
    | Some (Continue cc cm fe dat) =>
        getCPODData_loop ext data_buf_size fuel fid cc cm fe dat
    end.
Proof.
  intros Hlen. cbn [getCPODData_loop].
  rewrite (fid_read_block buf fid data_buf_size Hlen).
  replace (length buf <? data_buf_size)%nat with false
    by (symmetry; apply Nat.ltb_ge; lia).
  reflexivity.
Qed.

(** One iteration of [getFPODData] on a block read in full. *)
Lemma getFPODData_loop_block (ext : string) (pic_ver : Z)
    (data_buf_size fuel : nat) (buf fid : list byte) (cc cm : Z)
    (dat : FPODData.t) :
  length buf = data_buf_size ->
  getFPODData_loop ext pic_ver (S fuel) data_buf_size (buf ++ fid) cc cm dat
  = match FPOD_block ext pic_ver buf cc cm dat with
    | None => Undefined
    | Some (cc, cm, dat) =>
        getFPODData_loop ext pic_ver fuel data_buf_size fid cc cm dat
    end.
Proof.
  intros Hlen. cbn [getFPODData_loop].
  rewrite (fid_read_block buf fid data_buf_size Hlen).
  replace (length buf <? data_buf_size)%nat with false
    by (symmetry; apply Nat.ltb_ge; lia).
  reflexivity.
Qed.





(** The click branch of the CPOD decoder advances the click index by one
    and leaves the minute alone. *)
Lemma CPOD_click_index (ext : string) (buf : list byte) (cc cm : Z)
    (dat : FPODData.t) (cc' cm' : Z) (dat' : FPODData.t) :
  CPOD_click ext buf cc cm dat = Some (cc', cm', dat') ->
  cc' = cc + 1 /\ cm' = cm.
Proof.
  unfold CPOD_click. intros H.
  repeat match type of H with
  | (?m ≫= _) = Some _ => destruct m; [simpl in H|discriminate H]
  end.
  apply Some_triple_inv in H. destruct H as (<- & <- & _). auto.
Qed.

(** The click index at the end of the CPOD loop counts the clicks decoded. *)
Lemma getCPODData_loop_clicks (ext : string) (data_buf_size : nat) (fuel : nat) :
  forall (fid : list byte) (cc cm fe : Z) (dat : FPODData.t)
         (cc' cm' : Z) (dat' : FPODData.t) (fid' : list byte),
  getCPODData_loop ext data_buf_size fuel fid cc cm fe dat
    = Returns (cc', cm', dat', fid') ->
  cc' = cc + Z.of_nat
               (length (List.filter (CPOD_is_click data_buf_size)
                          (CPOD_records fuel data_buf_size fid fe))).
Proof.
  induction fuel as [|fuel IH]; intros fid cc cm fe dat cc' cm' dat' fid' H;
    [discriminate H|].
  cbn [getCPODData_loop CPOD_records] in *.
  destruct (fid_read fid data_buf_size) as [[buf|] fid1] eqn:Hread.
  2:{ injection H as <- _ _ _. simpl. lia. }
  apply fid_read_Some in Hread as [Hlen ->].
  replace (length buf <? data_buf_size)%nat with false in H
    by (symmetry; apply Nat.ltb_ge; lia).
  assert (Hgo : forall fe1,
    match
      (if negb (at_ buf (last_byte data_buf_size) =? 254) then
         '(cc1, cm1, dat1) ← CPOD_click ext buf cc cm dat;
         Some (Continue cc1 cm1 fe1 dat1)
       else if at_ buf (last_byte data_buf_size) =? 254 then
         Some (Continue cc (cm + 1) fe1 dat)
       else Some (Continue cc cm fe1 dat))
    with
    | None => Undefined
    | Some Break => Returns (cc, cm, dat, fid1)
    | Some (Continue cc1 cm1 fe2 dat1) =>
        getCPODData_loop ext data_buf_size fuel fid1 cc1 cm1 fe2 dat1
    end = Returns (cc', cm', dat', fid') ->
    cc' = cc + Z.of_nat
                 (length (List.filter (CPOD_is_click data_buf_size)
                            (buf :: CPOD_records fuel data_buf_size fid1 fe1)))).
  { intros fe1 Hrun. cbn [List.filter]. unfold CPOD_is_click at 1.
    unfold last_byte in Hrun.
    destruct (at_ buf (data_buf_size - 1) =? 254); cbn [negb] in *.
    - apply IH in Hrun. exact Hrun.
    - destruct (CPOD_click ext buf cc cm dat) as [[[cc1 cm1] dat1]|] eqn:Hclick;
        simpl in Hrun; [|discriminate Hrun].
      apply CPOD_click_index in Hclick as [-> ->].
      apply IH in Hrun. rewrite Hrun. cbn [length]. lia. }
  unfold CPOD_block in H.
  destruct (eof buf).
  - destruct (fe + 1 =? 2).
    + injection H as <- _ _ _. simpl. lia.
    + apply Hgo. exact H.
  - apply Hgo. exact H.
Qed.

(** ** [toList] *)

Lemma subset_take {A : Type} (v : list A) (k : nat) :
  (k <= length v)%nat -> subset v k = Some (take k v).
Proof.
  intros H. unfold subset. rewrite subset_range by lia.
  rewrite drop_0. reflexivity.
Qed.

Lemma wavToList_nil :
  wavToList []
  = Some [ ("click_no", IntegerVector []); ("IPI", IntegerVector []);
           ("SPL", IntegerVector []) ].
Proof. reflexivity. Qed.

(** On a dataset built for [n] clicks, [toList] returns the first
    [last_click + 1] clicks. *)
Lemma toList_first_clicks (dat : FPODData.t) (n : nat) (w : DataFrame) :
  sized n dat ->
  -1 <= FPODData.last_click dat < Z.of_nat n ->
  wavToList (FPODData.wav_data dat) = Some w ->
  toList dat
  = Some (Build_R_list (env_table dat) w
            (first_clicks dat (Z.to_nat (FPODData.last_click dat + 1)))).
Proof.
  intros Hs Hlast Hwav. unfold sized in Hs.
  destruct Hs as
    (? & ? & ? & ? & ? & ? & ? & ? & ? & ? & ? & ? & ? & ? & ? & ? & ?).
  unfold toList.
  assert (Hfilter :
    (if FPODData.last_click dat >? -1
     then Z.to_nat (FPODData.last_click dat + 1) else 0%nat)
    = Z.to_nat (FPODData.last_click dat + 1)).
  { destruct (Z.gtb_spec (FPODData.last_click dat) (-1)); [reflexivity|].
    replace (FPODData.last_click dat) with (-1) by lia. reflexivity. }
  rewrite Hfilter.
  rewrite !subset_take by lia. cbn [mbind option_bind].
  rewrite Hwav. reflexivity.
Qed.

Lemma nrow_first_clicks (dat : FPODData.t) (k : nat) :
  (k <= length (FPODData.min dat))%nat -> nrow (first_clicks dat k) = k.
Proof. intros H. simpl. apply length_take_le. exact H. Qed.

(** ** CPOD end of data *)

Lemma at_terminator (n i : nat) : (i < n)%nat -> at_ (terminator_block n) i = 255.
Proof.
  intros H. unfold at_, terminator_block.
  rewrite nth_repeat_lt by exact H. reflexivity.
Qed.

Lemma terminator_length (n : nat) : length (terminator_block n) = n.
Proof. apply repeat_length. Qed.

Lemma eof_terminator (ext : string) (data_buf_size : nat) :
  CPOD_format ext data_buf_size -> eof (terminator_block data_buf_size) = true.
Proof. intros [[_ ->]|[_ ->]]; reflexivity. Qed.

Lemma CPOD_block_stop (ext : string) (data_buf_size : nat) (buf : list byte)
    (cc cm : Z) (dat : FPODData.t) :
  eof buf = true ->
  CPOD_block ext data_buf_size buf cc cm 1 dat = Some Break.
Proof. intros H. unfold CPOD_block. rewrite H. reflexivity. Qed.

Lemma CPOD_block_click (ext : string) (data_buf_size : nat) (buf : list byte)
    (cc cm fe : Z) (dat : FPODData.t) (cc' cm' : Z) (dat' : FPODData.t) :
  at_ buf (data_buf_size - 1) <> 254 ->
  (eof buf = true -> fe <> 1) ->
  CPOD_click ext buf cc cm dat = Some (cc', cm', dat') ->
  CPOD_block ext data_buf_size buf cc cm fe dat
  = Some (Continue cc' cm' (if eof buf then fe + 1 else 0) dat').
Proof.
  intros Hlast Hfe Hclick. unfold CPOD_block, last_byte.
  destruct (Z.eqb_spec (at_ buf (data_buf_size - 1)) 254) as [|_]; [contradiction|].
  destruct (eof buf).
  - destruct (Z.eqb_spec (fe + 1) 2) as [E|_]; [specialize (Hfe eq_refl); lia|].
    cbn [negb]. rewrite Hclick. reflexivity.
  - cbn [negb]. rewrite Hclick. reflexivity.
Qed.

(** The value returned by [getCPODData] is stored in [last_click] and is
    the index of the last click decoded, less one. *)
Lemma getCPODData_reports (fid : list byte) (ext : string) (data_buf_size : nat)
    (dat : FPODData.t) (r : Z) (dat' : FPODData.t) (fid' : list byte) :
  getCPODData fid ext data_buf_size dat = Returns (r, dat', fid') ->
  FPODData.last_click dat' = r /\
  r = (CPOD_clicks_decoded data_buf_size fid - 1) - 1.
Proof.
  unfold getCPODData, CPOD_clicks_decoded. intros H.
  destruct (getCPODData_loop ext data_buf_size (S (length fid)) fid (-1) (-1) 0 dat)
    as [[[[cc cm] dat1] fid1]| |] eqn:Hloop; try discriminate H.
  apply getCPODData_loop_clicks in Hloop.
  injection H as <- <- _. split; [reflexivity|]. lia.
Qed.

(** C1. A CPOD file whose data are one click block that is not a terminator
    block, then two terminator blocks [0xFF ... 0xFF], then anything:
    [getCPODData] returns after the second terminator block with the rest
    of the file unread, reports 0, and the click table that [toList] builds
    has exactly one row, the click of the first block.  On every input the
    value reported is the index of the last click decoded, less one. *)
Theorem getCPODData_click_two_terminators (ext : string) (data_buf_size : nat)
    (buf rest : list byte) (n : nat) (pic_ver : Z) :
  CPOD_format ext data_buf_size ->
  length buf = data_buf_size ->
  eof buf = false ->
  at_ buf (data_buf_size - 1) <> 254 ->
  (2 <= n)%nat ->
  (exists dat' out,
     getCPODData
       (buf ++ terminator_block data_buf_size
            ++ terminator_block data_buf_size ++ rest)
       ext data_buf_size (FPODData_new n pic_ver)
     = Returns (0, dat', rest) /\
     FPODData.last_click dat' = 0 /\
     CPOD_click_row ext buf (-1) dat' 0 /\
     toList dat' = Some out /\
     nrow (clicks out) = 1%nat) /\
  (forall fid dat0 r dat' fid',
     getCPODData fid ext data_buf_size dat0 = Returns (r, dat', fid') ->
     FPODData.last_click dat' = r /\
     r = (CPOD_clicks_decoded data_buf_size fid - 1) - 1).
Proof.
  intros Hfmt Hlen Heof Hclick Hn.
  split; [|intros fid dat0 r dat' fid'; apply getCPODData_reports].
  unfold getCPODData.
  assert (Hsize : (9 < data_buf_size)%nat)
    by (destruct Hfmt as [[-> ->]|[-> ->]]; lia).
  pose proof (eof_terminator _ _ Hfmt) as Hterm.
  pose proof (terminator_length data_buf_size) as Htlen.
  assert (Hfuel : exists fuel,
            S (length (buf ++ terminator_block data_buf_size
                           ++ terminator_block data_buf_size ++ rest))
            = S (S (S fuel))).
  { exists (length buf + data_buf_size * 2 + length rest - 2)%nat.
    rewrite !length_app, !terminator_length. lia. }
  destruct Hfuel as [fuel ->].
  pose proof (FPODData_new_sized n pic_ver) as Hs0.
  assert (Hroom0 : 0 <= -1 + 1 < Z.of_nat n) by lia.
  assert (Hroom1 : 0 <= -1 + 1 + 1 < Z.of_nat n) by lia.
  destruct (CPOD_click_run ext data_buf_size buf (-1) (-1)
              (FPODData_new n pic_ver) n Hfmt Hs0 Hroom0)
    as (dat1 & Hc1 & Hs1 & Hrow1 & Hwav1 & _ & _).
  destruct (CPOD_click_run ext data_buf_size (terminator_block data_buf_size)
              (-1 + 1) (-1) dat1 n Hfmt Hs1 Hroom1)
    as (dat2 & Hc2 & Hs2 & _ & Hwav2 & _ & Hkeep2).
  assert (Hlast : at_ (terminator_block data_buf_size) (data_buf_size - 1) <> 254)
    by (rewrite at_terminator by lia; discriminate).
  rewrite getCPODData_loop_block by exact Hlen.
  rewrite (CPOD_block_click ext data_buf_size buf (-1) (-1) 0 _ _ _ _ Hclick)
    by (exact Hc1 || congruence).
  rewrite Heof.
  rewrite getCPODData_loop_block by exact Htlen.
  rewrite (CPOD_block_click ext data_buf_size _ (-1 + 1) (-1) 0 _ _ _ _ Hlast)
    by (exact Hc2 || discriminate).
  rewrite Hterm.
  rewrite getCPODData_loop_block by exact Htlen.
  change (0 + 1) with 1.
  rewrite CPOD_block_stop by exact Hterm.
  eexists. eexists.
  split; [reflexivity|]. split; [reflexivity|].
  split.
  - apply (Hkeep2 ext buf (-1) 0%nat); [simpl; lia|exact Hrow1].
  - split.
    + apply (toList_first_clicks _ n).
      * exact Hs2.
      * simpl. lia.
      * simpl. rewrite Hwav2, Hwav1. apply wavToList_nil.
    + cbn [clicks]. apply nrow_first_clicks.
      destruct Hs2 as [Hmin _]. simpl. rewrite Hmin. simpl. lia.
Qed.

Lemma getCPODData_click_two_terminators_witness :
  CPOD_format "CP1" 10 /\
  length cp1_click_block = 10%nat /\
  eof cp1_click_block = false /\
  at_ cp1_click_block (10 - 1) <> 254 /\
  (2 <= 3)%nat /\
  exists dat' out,
    getCPODData
      (cp1_click_block ++ terminator_block 10 ++ terminator_block 10
         ++ bytes [1; 2; 3])
      "CP1" 10 (FPODData_new 3 0)
    = Returns (0, dat', bytes [1; 2; 3]) /\
    FPODData.last_click dat' = 0 /\
    CPOD_click_row "CP1" cp1_click_block (-1) dat' 0 /\
    toList dat' = Some out /\
    nrow (clicks out) = 1%nat.
Proof.
  assert (Hfmt : CPOD_format "CP1" 10) by (left; split; reflexivity).
  assert (Hlast : at_ cp1_click_block (10 - 1) <> 254)
    by (intros H; vm_compute in H; discriminate H).
  assert (Hn : (2 <= 3)%nat) by lia.
  split; [exact Hfmt|]. split; [reflexivity|]. split; [reflexivity|].
  split; [exact Hlast|]. split; [exact Hn|].
  exact (proj1 (getCPODData_click_two_terminators "CP1" 10 cp1_click_block
                  (bytes [1; 2; 3]) 3 0 Hfmt eq_refl eq_refl Hlast Hn)).
Defined.

(** When the block before the two terminator blocks is a minute marker, no
    click is left in the table: the click made from the first terminator
    block has index 0 and the value reported is -1. *)
Lemma getCPODData_marker_two_terminators :
  exists dat' out,
    getCPODData (cp1_minute_block ++ terminator_block 10 ++ terminator_block 10)
      "CP1" 10 (FPODData_new 3 0)
    = Returns (-1, dat', []) /\
    toList dat' = Some out /\
    nrow (clicks out) = 0%nat.
Proof.
  eexists. eexists.
  split; [vm_compute; reflexivity|].
  split; vm_compute; reflexivity.
Qed.

(** ** FPOD clicks and train annotations *)

Lemma FPOD_block_click (ext : string) (pic_ver : Z) (buf : list byte)
    (cc cm : Z) (dat : FPODData.t) :
  at_ buf 0 < 184 ->
  FPOD_block ext pic_ver buf cc cm dat = FPOD_click buf cc cm dat.
Proof.
  intros H. unfold FPOD_block.
  destruct (Z.ltb_spec (at_ buf 0) 184); [reflexivity|lia].
Qed.

Lemma FPOD_block_train (ext : string) (pic_ver : Z) (buf : list byte)
    (cc cm : Z) (dat : FPODData.t) :
  at_ buf 0 = 249 ->
  FPOD_block ext pic_ver buf cc cm dat = FPOD_train ext buf cc cm dat.
Proof. intros H. unfold FPOD_block. rewrite H. reflexivity. Qed.

Lemma FPOD_block_minute (ext : string) (pic_ver : Z) (buf : list byte)
    (cc cm : Z) (dat : FPODData.t) :
  at_ buf 0 = 254 ->
  FPOD_block ext pic_ver buf cc cm dat = FPOD_minute pic_ver buf cc cm dat.
Proof. intros H. unfold FPOD_block. rewrite H. reflexivity. Qed.

(** The train fields as the source extracts them and as bit fields. *)
Lemma train_bits (b : byte) :
  to_uint8 (Z.land (Z.shiftr (u8 b) 2) 3) = bits (u8 b) 2 3 /\
  Z.land (u8 b) 3 = bits (u8 b) 0 1 /\
  (Z.land (u8 b) 32 =? 32) = Z.testbit (u8 b) 5.
Proof. destruct b; vm_compute; auto. Qed.

Lemma FPOD_click_run (buf : list byte) (cc cm : Z) (dat : FPODData.t) (n : nat) :
  sized n dat ->
  0 <= cc + 1 < Z.of_nat n ->
  exists dat',
    FPOD_click buf cc cm dat = Some (cc + 1, cm, dat') /\
    sized n dat' /\
    FPODData.min dat' = <[Z.to_nat (cc + 1) := cm]> (FPODData.min dat) /\
    FPODData.train_id dat' = FPODData.train_id dat /\
    FPODData.species dat' = FPODData.species dat /\
    FPODData.quality_level dat' = FPODData.quality_level dat /\
    FPODData.echo dat' = FPODData.echo dat /\
    FPODData.wav_data dat' = FPODData.wav_data dat /\
    FPODData.temp_deg_c dat' = FPODData.temp_deg_c dat.
Proof.
  intros Hs Hroom.
  pose proof Hs as Hs'. unfold sized in Hs'.
  destruct Hs' as
    (? & ? & ? & ? & ? & ? & ? & ? & ? & ? & ? & ? & ? & ? & ? & ? & ?).
  unfold FPOD_click.
  do 4 write_ok. rewrite !write_if. do 6 write_ok.
  eexists; split; [reflexivity|]. simpl.
  split; [unfold sized; simpl; rewrite ?length_insert; tauto|].
  repeat apply conj; reflexivity.
Qed.

Lemma FPOD_train_run (ext : string) (buf : list byte) (cc cm : Z)
    (dat : FPODData.t) (n : nat) :
  sized n dat ->
  0 <= cc + 1 < Z.of_nat n ->
  exists dat',
    FPOD_train ext buf cc cm dat = Some (cc, cm, dat') /\
    sized n dat' /\
    FPODData.min dat' = FPODData.min dat /\
    FPODData.train_id dat'
    = <[Z.to_nat (cc + 1) := at_ buf 15]> (FPODData.train_id dat) /\
    FPODData.species dat'
    = <[Z.to_nat (cc + 1) := getSpeciesFromCode (bits (at_ buf 14) 2 3) ext]>
        (FPODData.species dat) /\
    FPODData.quality_level dat'
    = <[Z.to_nat (cc + 1) := bits (at_ buf 14) 0 1]> (FPODData.quality_level dat) /\
    FPODData.echo dat'
    = <[Z.to_nat (cc + 1) := Z.testbit (at_ buf 14) 5]> (FPODData.echo dat) /\
    FPODData.wav_data dat' = FPODData.wav_data dat /\
    FPODData.temp_deg_c dat' = FPODData.temp_deg_c dat.
Proof.
  intros Hs Hroom.
  pose proof Hs as Hs'. unfold sized in Hs'.
  destruct Hs' as
    (? & ? & ? & ? & ? & ? & ? & ? & ? & ? & ? & ? & ? & ? & ? & ? & ?).
  destruct (train_bits (nth 14 buf x00)) as (Hcode & Hq & Hecho).
  fold (at_ buf 14) in Hcode, Hq, Hecho.
  unfold FPOD_train. rewrite Hcode, Hq, Hecho.
  do 4 write_ok.
  eexists; split; [reflexivity|]. simpl.
  split; [unfold sized; simpl; rewrite ?length_insert; tauto|].
  repeat apply conj; reflexivity.
Qed.

Lemma FPOD_minute_run (pic_ver : Z) (buf : list byte) (cc cm : Z)
    (dat : FPODData.t) :
  exists dat',
    FPOD_minute pic_ver buf cc cm dat = Some (cc, cm + 1, dat') /\
    (forall n, sized n dat -> sized n dat') /\
    FPODData.min dat' = FPODData.min dat /\
    FPODData.train_id dat' = FPODData.train_id dat /\
    FPODData.species dat' = FPODData.species dat /\
    FPODData.quality_level dat' = FPODData.quality_level dat /\
    FPODData.echo dat' = FPODData.echo dat /\
    FPODData.wav_data dat' = FPODData.wav_data dat /\
    FPODData.temp_deg_c dat' = FPODData.temp_deg_c dat ++ [at_ buf 7].
Proof.
  unfold FPOD_minute.
  destruct ((pic_ver <? 28) && (at_ buf 11 =? 0) && negb (at_ buf 13 =? 0));
    (eexists; split; [reflexivity|]); simpl;
    (split; [intros n Hs; exact Hs|]); repeat apply conj; reflexivity.
Qed.

Lemma take_2_written {A : Type} (n : nat) (x a b : A) :
  (2 <= n)%nat -> take 2 (<[1%nat := b]> (<[0%nat := a]> (replicate n x))) = [a; b].
Proof. intros H. destruct n as [|[|n]]; try lia. reflexivity. Qed.

Lemma take_2_second {A : Type} (n : nat) (x b : A) :
  (2 <= n)%nat -> take 2 (<[1%nat := b]> (replicate n x)) = [x; b].
Proof. intros H. destruct n as [|[|n]]; try lia. reflexivity. Qed.

(** C2. An FPOD file whose data are a minute marker, a click block, a train
    block and a second click block: [getFPODData] returns 1 and the click
    table has exactly 2 rows; the train id (byte 15 of the train block), the
    species of the code in bits 2-3 of its byte 14, the quality level in
    bits 0-1 and the echo flag in bit 5 are in the row of the second click,
    the click of index [current_click + 1] when the train block was read,
    and the first click has none; both clicks are in minute 0, the minute
    index having advanced once, from -1, before the first click, and the
    environmental table has one row. *)
Theorem getFPODData_minute_click_train_click (ext : string)
    (data_buf_size : nat) (minute click1 train click2 : list byte)
    (n : nat) (pic_ver : Z) :
  FPOD_format ext data_buf_size ->
  length minute = data_buf_size ->
  length click1 = data_buf_size ->
  length train = data_buf_size ->
  length click2 = data_buf_size ->
  at_ minute 0 = 254 ->
  at_ click1 0 < 184 ->
  at_ train 0 = 249 ->
  at_ click2 0 < 184 ->
  (2 <= n)%nat ->
  exists dat' out,
    getFPODData (minute ++ click1 ++ train ++ click2) ext data_buf_size
      (FPODData_new n pic_ver)
    = Returns (1, dat', []) /\
    toList dat' = Some out /\
    nrow (clicks out) = 2%nat /\
    column_of (clicks out) "minute" = Some (IntegerVector [0; 0]) /\
    column_of (clicks out) "train_id" = Some (IntegerVector [0; at_ train 15]) /\
    column_of (clicks out) "species"
    = Some (CharacterVector
              [""; getSpeciesFromCode (bits (at_ train 14) 2 3) ext]) /\
    column_of (clicks out) "quality_level"
    = Some (IntegerVector [0; bits (at_ train 14) 0 1]) /\
    column_of (clicks out) "echo"
    = Some (LogicalVector [false; Z.testbit (at_ train 14) 5]) /\
    exists e, env out = Some e /\ nrow e = 1%nat.
Proof.
  intros [_ ->] Hl1 Hl2 Hl3 Hl4 Hminute Hclick1 Htrain Hclick2 Hn.
  unfold getFPODData.
  replace (S (length (minute ++ click1 ++ train ++ click2))) with 65%nat
    by (rewrite !length_app; lia).
  change (FPODData.pic_ver (FPODData_new n pic_ver)) with pic_ver.
  pose proof (FPODData_new_sized n pic_ver) as Hs0.
  destruct (FPOD_minute_run pic_ver minute (-1) (-1) (FPODData_new n pic_ver))
    as (dat1 & Hrun1 & Hs1 & Hmin1 & Hid1 & Hsp1 & Hq1 & He1 & Hw1 & Ht1).
  specialize (Hs1 n Hs0).
  assert (Hroom0 : 0 <= -1 + 1 < Z.of_nat n) by lia.
  assert (Hroom1 : 0 <= -1 + 1 + 1 < Z.of_nat n) by lia.
  destruct (FPOD_click_run click1 (-1) (-1 + 1) dat1 n Hs1 Hroom0)
    as (dat2 & Hrun2 & Hs2 & Hmin2 & Hid2 & Hsp2 & Hq2 & He2 & Hw2 & Ht2).
  destruct (FPOD_train_run ext train (-1 + 1) (-1 + 1) dat2 n Hs2 Hroom1)
    as (dat3 & Hrun3 & Hs3 & Hmin3 & Hid3 & Hsp3 & Hq3 & He3 & Hw3 & Ht3).
  destruct (FPOD_click_run click2 (-1 + 1) (-1 + 1) dat3 n Hs3 Hroom1)
    as (dat4 & Hrun4 & Hs4 & Hmin4 & Hid4 & Hsp4 & Hq4 & He4 & Hw4 & Ht4).
  rewrite getFPODData_loop_block by exact Hl1.
  rewrite FPOD_block_minute, Hrun1 by exact Hminute.
  rewrite getFPODData_loop_block by exact Hl2.
  rewrite FPOD_block_click, Hrun2 by exact Hclick1.
  rewrite getFPODData_loop_block by exact Hl3.
  rewrite FPOD_block_train, Hrun3 by exact Htrain.
  rewrite <- (app_nil_r click2).
  rewrite getFPODData_loop_block by exact Hl4.
  rewrite FPOD_block_click, Hrun4 by exact Hclick2.
  assert (Hend : forall cc cm dat fuel,
            getFPODData_loop ext pic_ver (S fuel) 16 [] cc cm dat
            = Returns (cc, cm, dat, [])) by reflexivity.
  rewrite Hend.
  eexists. eexists. split; [reflexivity|].
  split.
  { apply (toList_first_clicks _ n).
    - exact Hs4.
    - simpl. lia.
    - simpl. rewrite Hw4, Hw3, Hw2, Hw1. apply wavToList_nil. }
  cbn [clicks env].
  change (Z.to_nat
            (FPODData.last_click
               (FPODData.set_last_click (-1 + 1 + 1) dat4) + 1)) with 2%nat.
  split.
  { apply nrow_first_clicks. destruct Hs4 as [Hmin _]. simpl. rewrite Hmin. lia. }
  unfold first_clicks. cbn [column_of String.eqb Ascii.eqb Bool.eqb].
  simpl FPODData.min. simpl FPODData.train_id. simpl FPODData.species.
  simpl FPODData.quality_level. simpl FPODData.echo.
  rewrite Hmin4, Hmin3, Hmin2, Hmin1.
  rewrite Hid4, Hid3, Hid2, Hid1.
  rewrite Hsp4, Hsp3, Hsp2, Hsp1.
  rewrite Hq4, Hq3, Hq2, Hq1.
  rewrite He4, He3, He2, He1.
  change (Z.to_nat (-1 + 1)) with 0%nat.
  change (Z.to_nat (-1 + 1 + 1)) with 1%nat.
  cbn [FPODData_new FPODData.min FPODData.train_id FPODData.species
       FPODData.quality_level FPODData.echo].
  rewrite take_2_written by exact Hn.
  rewrite !take_2_second by exact Hn.
  repeat (split; [reflexivity|]).
  unfold env_table. simpl FPODData.temp_deg_c.
  rewrite Ht4, Ht3, Ht2, Ht1. simpl.
  eexists. split; reflexivity.
Qed.

Lemma getFPODData_minute_click_train_click_witness :
  FPOD_format "FP3" 16 /\
  length fpod_minute_block = 16%nat /\
  length fpod_click_block = 16%nat /\
  length fpod_train_block = 16%nat /\
  at_ fpod_minute_block 0 = 254 /\
  at_ fpod_click_block 0 < 184 /\
  at_ fpod_train_block 0 = 249 /\
  (2 <= 2)%nat /\
  exists dat' out,
    getFPODData
      (fpod_minute_block ++ fpod_click_block ++ fpod_train_block
         ++ fpod_click_block)
      "FP3" 16 (FPODData_new 2 20)
    = Returns (1, dat', []) /\
    toList dat' = Some out /\
    nrow (clicks out) = 2%nat /\
    column_of (clicks out) "minute" = Some (IntegerVector [0; 0]) /\
    column_of (clicks out) "train_id" = Some (IntegerVector [0; 77]) /\
    column_of (clicks out) "species" = Some (CharacterVector [""; "Unclassed"]) /\
    column_of (clicks out) "quality_level" = Some (IntegerVector [0; 3]) /\
    column_of (clicks out) "echo" = Some (LogicalVector [false; true]).
Proof.
  assert (Hfmt : FPOD_format "FP3" 16) by (split; [right|]; reflexivity).
  assert (Hn : (2 <= 2)%nat) by lia.
  split; [exact Hfmt|].
  do 6 (split; [reflexivity|]).
  split; [exact Hn|].
  destruct (getFPODData_minute_click_train_click "FP3" 16
              fpod_minute_block fpod_click_block fpod_train_block
              fpod_click_block 2 20 Hfmt eq_refl eq_refl eq_refl eq_refl
              eq_refl eq_refl eq_refl eq_refl Hn)
    as (dat' & out & Hrun & Hlist & Hrows & Hmin & Hid & Hsp & Hq & He & _).
  exists dat', out.
  repeat (split; [assumption|]). exact He.
Defined.

(** ** The decoders stay inside the vectors

    [readFPOD] builds the dataset for [max_clicks] clicks, the number of
    whole blocks after the header.  Every click, train or waveform block is
    one of these blocks, so the index [current_click + 1] it writes to stays
    below [max_clicks]. *)








(** * Further properties *)

(** ** [constructInt] on every result type *)

Lemma width_pos (T : int_type) : 8 < width T.
Proof. destruct T; simpl; lia. Qed.

Lemma wrap_congruent (T : int_type) (z : Z) :
  exists k, wrap T z = z + k * 2 ^ width T.
Proof.
  assert (Hm : 0 < 2 ^ width T) by (apply Z.pow_pos_nonneg; destruct T; simpl; lia).
  unfold wrap. destruct (signed T).
  - exists (- ((z + 2 ^ (width T - 1)) / 2 ^ width T)).
    pose proof (Z.div_mod (z + 2 ^ (width T - 1)) (2 ^ width T)). lia.
  - exists (- (z / 2 ^ width T)).
    pose proof (Z.div_mod z (2 ^ width T)). lia.
Qed.

Lemma wrap_plus_multiple (T : int_type) (z k : Z) :
  wrap T (z + k * 2 ^ width T) = wrap T z.
Proof.
  unfold wrap. destruct (signed T).
  - replace (z + k * 2 ^ width T + 2 ^ (width T - 1))
      with (z + 2 ^ (width T - 1) + k * 2 ^ width T) by lia.
    rewrite Z_mod_plus_full. reflexivity.
  - rewrite Z_mod_plus_full. reflexivity.
Qed.

Lemma wrap_byte (T : int_type) (b : Z) : 0 <= b < 256 -> wrap T b = b.
Proof. intros H. destruct T; unfold wrap; simpl; rewrite Z.mod_small; lia. Qed.

Lemma shift_or_low_byte (q b : Z) :
  0 <= b < 256 -> Z.lor (q * 256) b = q * 256 + b.
Proof.
  intros Hb.
  assert (Hland : Z.land (Z.shiftl q 8) b = 0).
  { apply Z.bits_inj'. intros i Hi.
    rewrite Z.land_spec, Z.bits_0.
    destruct (Z.lt_ge_cases i 8) as [Hlt|Hge].
    - rewrite Z.shiftl_spec_low by exact Hlt. reflexivity.
    - rewrite (Z.bits_above_log2 b i); [apply andb_false_r|lia|].
      destruct (Z.eq_dec b 0) as [->|Hnz]; [simpl; lia|].
      apply Z.log2_lt_pow2; [lia|].
      apply Z.lt_le_trans with (2 ^ 8); [lia|].
      apply Z.pow_le_mono_r; lia. }
  rewrite Z.shiftl_mul_pow2 in Hland by lia.
  change (2 ^ 8) with 256 in Hland.
  rewrite <- Z.lxor_lor by exact Hland.
  rewrite <- Z.add_nocarry_lxor by exact Hland.
  reflexivity.
Qed.

(** One iteration of the loop appends a byte, up to the width of [T]. *)
Lemma constructInt_step_wrap (T : int_type) (buf : list byte) (offset i : nat)
    (x : Z) :
  constructInt_step T buf offset (wrap T x) i
  = wrap T (x * 256 + at_ buf (offset + i)).
Proof.
  unfold constructInt_step.
  pose proof (at__range buf (offset + i)) as Hb.
  rewrite (wrap_byte T (at_ buf (offset + i))) by exact Hb.
  rewrite Z.shiftl_mul_pow2 by lia. change (2 ^ 8) with 256.
  destruct (wrap_congruent T x) as [k1 Hk1].
  destruct (wrap_congruent T (wrap T x * 256)) as [k2 Hk2].
  assert (Hsplit : 2 ^ width T = 2 ^ (width T - 8) * 256).
  { replace (width T) with ((width T - 8) + 8) at 1 by lia.
    pose proof (width_pos T). rewrite Z.pow_add_r by lia. reflexivity. }
  assert (Hy : wrap T (wrap T x * 256)
               = (wrap T x + k2 * 2 ^ (width T - 8)) * 256) by lia.
  rewrite Hy, shift_or_low_byte by exact Hb.
  replace ((wrap T x + k2 * 2 ^ (width T - 8)) * 256 + at_ buf (offset + i))
    with (x * 256 + at_ buf (offset + i) + (256 * k1 + k2) * 2 ^ width T) by lia.
  apply wrap_plus_multiple.
Qed.

Lemma constructInt_fold_wrap (T : int_type) (buf : list byte) (offset : nat)
    (k : nat) :
  forall (j : nat) (x : Z),
  (offset + j + k <= length buf)%nat ->
  fold_left (constructInt_step T buf offset) (seq j k) (wrap T x)
  = wrap T (fold_left (fun acc b => acc * 256 + u8 b)
              (take k (drop (offset + j) buf)) x).
Proof.
  induction k as [|k IH]; intros j x Hlen; [reflexivity|].
  destruct (lookup_lt_is_Some_2 buf (offset + j)) as [b Hb]; [lia|].
  rewrite (drop_S _ _ _ Hb). cbn [seq fold_left take].
  replace (S (offset + j)) with (offset + S j)%nat by lia.
  rewrite constructInt_step_wrap.
  unfold at_ at 1. rewrite (nth_lookup_Some _ _ _ _ Hb).
  apply IH. lia.
Qed.

(** X1. For every result type, a field that ends before the last byte of the
    buffer is read as the big-endian value of its bytes, converted to the
    result type (reduced modulo [2^32] or [2^64], and taken as a two's
    complement number for the signed types). *)
Theorem constructInt_value (T : int_type) (buf : list byte) (offset size : nat) :
  (offset + size < length buf)%nat ->
  constructInt T buf offset size
  = wrap T (big_endian (take size (drop offset buf))).
Proof.
  intros Hlen. unfold constructInt, big_endian.
  destruct (Z.ltb_spec (Z.of_nat offset + Z.of_nat size) (Z.of_nat (length buf)));
    [|lia].
  assert (H0 : 0 = wrap T 0) by (destruct T; reflexivity).
  rewrite H0 at 1.
  rewrite (constructInt_fold_wrap T buf offset size 0 0) by lia.
  rewrite Nat.add_0_r. reflexivity.
Qed.

Lemma constructInt_value_witness :
  (1 + 4 < length (bytes [0; 255; 255; 255; 254; 0]%Z))%nat /\
  constructInt int32_t (bytes [0; 255; 255; 255; 254; 0]) 1 4 = -2.
Proof.
  assert (H : (1 + 4 < length (bytes [0; 255; 255; 255; 254; 0]%Z))%nat)
    by (simpl; lia).
  split; [exact H|].
  rewrite (constructInt_value int32_t (bytes [0; 255; 255; 255; 254; 0]) 1 4 H).
  reflexivity.
Defined.

(** ** [eof] *)

Lemma count_other_bytes (buf : list byte) :
  count buf eof_code + Z.of_nat (other_bytes buf) = Z.of_nat (length buf).
Proof.
  unfold count, other_bytes.
  induction buf as [|b buf IH]; [reflexivity|].
  cbn [List.filter length]. destruct (Byte.eqb b eof_code); cbn [negb length]; lia.
Qed.

(** X2. A block of at least 5 bytes is a terminator block for [eof] exactly
    when at most 5 of its bytes differ from 0xFF.  A block of fewer than 5
    bytes never is, whatever its bytes: [buf.size() - 5] wraps around. *)
Theorem eof_iff (buf : list byte) :
  Z.of_nat (length buf) < 2 ^ 64 ->
  ((5 <= length buf)%nat -> (eof buf = true <-> (other_bytes buf <= 5)%nat)) /\
  ((length buf < 5)%nat -> eof buf = false).
Proof.
  intros Hsize. pose proof (count_other_bytes buf) as Hcount.
  unfold eof, size_t_wrap. split; intros Hlen.
  - rewrite Z.mod_small by lia. rewrite Z.leb_le. lia.
  - apply Z.leb_gt.
    replace (Z.of_nat (length buf) - 5)
      with (Z.of_nat (length buf) - 5 + 2 ^ 64 + (-1) * 2 ^ 64) by lia.
    rewrite Z_mod_plus_full, Z.mod_small by lia. lia.
Qed.

Lemma eof_iff_witness :
  eof (bytes [255; 1; 2; 3; 4; 5; 255; 255; 255; 255]%Z) = true /\
  eof (bytes [255; 255; 255; 255]%Z) = false.
Proof.
  split.
  - apply (proj1 (eof_iff (bytes [255; 1; 2; 3; 4; 5; 255; 255; 255; 255]%Z)
                    ltac:(reflexivity))); [simpl; lia|].
    vm_compute. lia.
  - apply (proj2 (eof_iff (bytes [255; 255; 255; 255]%Z) ltac:(reflexivity))).
    simpl; lia.
Defined.

(** ** [wavToList] outside its table *)

Lemma store_inv {A : Type} (i : nat) (x : A) (v v' : list A) :
  store i x v = Some v' -> (i < length v)%nat /\ length v' = length v.
Proof.
  intros H. destruct (Nat.lt_ge_cases i (length v)) as [Hlt|Hge].
  - rewrite store_Some in H by exact Hlt. injection H as <-.
    rewrite length_insert. auto.
  - rewrite store_None in H by exact Hge. discriminate H.
Qed.

Lemma wav_cell_inv (wav : WavData) (it : WavDataChunk) (t t' : wav_table) (j : nat) :
  wav_cell wav it t j = Some t' ->
  (wt_pos t < length (wt_click_num t))%nat /\
  wt_pos t' = S (wt_pos t) /\
  length (wt_click_num t') = length (wt_click_num t).
Proof.
  unfold wav_cell. intros H.
  destruct (store (wt_pos t) (click wav) (wt_click_num t)) as [cn|] eqn:Hcn;
    [|discriminate H].
  apply store_inv in Hcn as [Hlt Hlen]. cbn [mbind option_bind] in H.
  destruct (IPI it !! j); [|discriminate H]. cbn [mbind option_bind] in H.
  destruct (store (wt_pos t) _ (wt_IPI t)); [|discriminate H].
  cbn [mbind option_bind] in H.
  destruct (SPL it !! j); [|discriminate H]. cbn [mbind option_bind] in H.
  destruct (store (wt_pos t) _ (wt_SPL t)); [|discriminate H].
  cbn [mbind option_bind] in H. injection H as <-. simpl. auto.
Qed.

(** A loop that ran to its end advanced [pos] by one per cell and stayed
    inside the vector. *)
Lemma for_each_cells (wav : WavData) (it : WavDataChunk) (l : list nat) :
  forall t t',
  for_each (wav_cell wav it) l t = Some t' ->
  (wt_pos t <= length (wt_click_num t))%nat ->
  wt_pos t' = (wt_pos t + length l)%nat /\
  length (wt_click_num t') = length (wt_click_num t) /\
  (wt_pos t' <= length (wt_click_num t'))%nat.
Proof.
  induction l as [|j l IH]; intros t t' H Hpos.
  - injection H as <-. rewrite Nat.add_0_r. auto.
  - cbn [for_each] in H.
    destruct (wav_cell wav it t j) as [t1|] eqn:Hcell; [|discriminate H].
    cbn [mbind option_bind] in H.
    apply wav_cell_inv in Hcell as (Hlt & Hp & Hlen).
    apply IH in H; [|lia]. cbn [length]. lia.
Qed.

Lemma for_each_chunks (wav : WavData) (its : list WavDataChunk) :
  forall t t',
  for_each (fun t it => for_each (wav_cell wav it) (seq 0 7) t) its t = Some t' ->
  (wt_pos t <= length (wt_click_num t))%nat ->
  wt_pos t' = (wt_pos t + 7 * length its)%nat /\
  length (wt_click_num t') = length (wt_click_num t) /\
  (wt_pos t' <= length (wt_click_num t'))%nat.
Proof.
  induction its as [|it its IH]; intros t t' H Hpos.
  - injection H as <-. rewrite Nat.add_0_r. auto.
  - cbn [for_each] in H.
    destruct (for_each (wav_cell wav it) (seq 0 7) t) as [t1|] eqn:Hchunk;
      [|discriminate H].
    cbn [mbind option_bind] in H.
    apply for_each_cells in Hchunk; [|exact Hpos].
    rewrite length_seq in Hchunk.
    apply IH in H; [|lia]. cbn [length]. lia.
Qed.

Lemma for_each_wavs (wav_data : list WavData) :
  forall t t',
  for_each wav_rows wav_data t = Some t' ->
  (wt_pos t <= length (wt_click_num t))%nat ->
  wt_pos t' = (wt_pos t + 7 * total_chunks wav_data)%nat /\
  length (wt_click_num t') = length (wt_click_num t) /\
  (wt_pos t' <= length (wt_click_num t'))%nat.
Proof.
  unfold total_chunks.
  induction wav_data as [|wav wav_data IH]; intros t t' H Hpos.
  - injection H as <-. simpl. rewrite Nat.add_0_r. auto.
  - cbn [for_each] in H.
    destruct (wav_rows t wav) as [t1|] eqn:Hwav; [|discriminate H].
    cbn [mbind option_bind] in H. unfold wav_rows in Hwav.
    apply for_each_chunks in Hwav; [|exact Hpos].
    rewrite length_rev in Hwav.
    apply IH in H; [|lia].
    cbn [flat_map]. rewrite length_app. lia.
Qed.

(** X3. [wavToList] has room for 21 rows, three chunks, per click with
    waveform data: when the clicks hold more than three chunks each on
    average, a write falls outside the vectors and no data frame is
    returned. *)
Theorem wavToList_too_many_chunks (wav_data : list WavData) :
  (3 * length wav_data < total_chunks wav_data)%nat ->
  wavToList wav_data = None.
Proof.
  intros Hmany. unfold wavToList.
  destruct (for_each wav_rows wav_data _) as [t|] eqn:Hloop; [|reflexivity].
  exfalso. apply for_each_wavs in Hloop; [|simpl; lia].
  simpl in Hloop. rewrite length_replicate in Hloop. lia.
Qed.

Lemma wavToList_too_many_chunks_witness :
  wavToList
    [Build_WavData 1 (replicate 4 (Build_WavDataChunk (replicate 7 0) (replicate 7 0)))]
  = None.
Proof.
  apply (wavToList_too_many_chunks
           [Build_WavData 1
              (replicate 4 (Build_WavDataChunk (replicate 7 0) (replicate 7 0)))]).
  vm_compute. lia.
Defined.

(** ** What [getFPODData] counts *)

(** The index, the minute and the environmental vectors after one block. *)
Lemma FPOD_block_counts (ext : string) (pic_ver : Z) (buf : list byte)
    (cc cm : Z) (dat : FPODData.t) (cc' cm' : Z) (dat' : FPODData.t) :
  FPOD_block ext pic_ver buf cc cm dat = Some (cc', cm', dat') ->
  cc' = cc + (if FPOD_is_click buf then 1 else 0) /\
  cm' = cm + (if FPOD_is_minute buf then 1 else 0) /\
  FPODData.temp_deg_c dat'
  = FPODData.temp_deg_c dat ++ (if FPOD_is_minute buf then [at_ buf 7] else []) /\
  length (FPODData.bat1 dat')
  = (length (FPODData.bat1 dat) + if FPOD_is_minute buf then 1 else 0)%nat /\
  length (FPODData.bat2 dat')
  = (length (FPODData.bat2 dat) + if FPOD_is_minute buf then 1 else 0)%nat.
Proof.
  unfold FPOD_block, FPOD_is_click, FPOD_is_minute. intros H.
  destruct (Z.ltb_spec (at_ buf 0) 184) as [Hc|Hc].
  { replace (at_ buf 0 =? 254) with false by (symmetry; apply Z.eqb_neq; lia).
    unfold FPOD_click in H. bind_inv H.
    apply Some_triple_inv in H. destruct H as (<- & <- & <-). simpl.
    rewrite app_nil_r, !Nat.add_0_r. repeat apply conj; (reflexivity || lia). }
  destruct (Z.eqb_spec (at_ buf 0) 249) as [E249|_].
  { rewrite E249. cbn [Z.eqb Pos.eqb].
    unfold FPOD_train in H. bind_inv H.
    apply Some_triple_inv in H. destruct H as (<- & <- & <-). simpl.
    rewrite app_nil_r, !Nat.add_0_r. repeat apply conj; (reflexivity || lia). }
  destruct (Z.eqb_spec (at_ buf 0) 250) as [E250|_].
  { rewrite E250. cbn [Z.eqb Pos.eqb].
    unfold FPOD_wav in H.
    destruct (read col.has_wav (cc + 1) dat) as [has|]; [|discriminate H].
    cbn [mbind option_bind] in H.
    destruct has; cbn [negb mbind option_bind] in H.
    - destruct (update_back _ (FPODData.wav_data dat)) as [wd|]; [|discriminate H].
      cbn [mbind option_bind] in H.
      apply Some_triple_inv in H. destruct H as (<- & <- & <-). simpl.
      rewrite app_nil_r, !Nat.add_0_r. repeat apply conj; (reflexivity || lia).
    - destruct (write col.has_wav (cc + 1) true dat) as [dat1|] eqn:Hw;
        [|discriminate H].
      apply write_inv in Hw as (_ & _ & ->). cbn [mbind option_bind] in H.
      destruct (update_back _ _) as [wd|]; [|discriminate H].
      cbn [mbind option_bind] in H.
      apply Some_triple_inv in H. destruct H as (<- & <- & <-). simpl.
      rewrite app_nil_r, !Nat.add_0_r. repeat apply conj; (reflexivity || lia). }
  destruct (Z.eqb_spec (at_ buf 0) 254) as [E254|_].
  { unfold FPOD_minute in H.
    destruct ((pic_ver <? 28) && (at_ buf 11 =? 0) && negb (at_ buf 13 =? 0));
      apply Some_triple_inv in H; destruct H as (<- & <- & <-); simpl;
      unfold push_back; rewrite !length_app; simpl;
      repeat apply conj; (reflexivity || lia). }
  apply Some_triple_inv in H. destruct H as (<- & <- & <-).
  rewrite app_nil_r, !Nat.add_0_r. repeat apply conj; (reflexivity || lia).
Qed.




(** ** The click rows that [getFPODData] fills *)

(** The click vectors after a click block. *)
Lemma FPOD_click_columns (buf : list byte) (cc cm : Z) (dat : FPODData.t)
    (cc' cm' : Z) (dat' : FPODData.t) :
  FPOD_click buf cc cm dat = Some (cc', cm', dat') ->
  cc' = cc + 1 /\ cm' = cm /\ 0 <= cc + 1 /\
  FPOD_click_row buf cm dat' (Z.to_nat (cc + 1)) /\
  forall (i : nat) (b : list byte) (m : Z),
    Z.of_nat i <= cc -> FPOD_click_row b m dat i -> FPOD_click_row b m dat' i.
Proof.
  unfold FPOD_click. intros H. bind_inv H.
  apply Some_triple_inv in H. destruct H as (<- & <- & <-).
  split; [reflexivity|]. split; [reflexivity|]. split; [assumption|].
  unfold FPOD_click_row. cbn. split.
  - rewrite !list_lookup_insert_eq by assumption.
    repeat apply conj; reflexivity.
  - intros i b m Hi Hrow.
    rewrite !list_lookup_insert_ne by lia. exact Hrow.
Qed.

(** The decoded rows, the click index and the minute index after one block. *)
Lemma FPOD_block_rows (ext : string) (pic_ver : Z) (buf : list byte)
    (cc cm : Z) (dat : FPODData.t) (cc' cm' : Z) (dat' : FPODData.t) :
  FPOD_block ext pic_ver buf cc cm dat = Some (cc', cm', dat') ->
  (forall (i : nat) (b : list byte) (m : Z),
     Z.of_nat i <= cc -> FPOD_click_row b m dat i -> FPOD_click_row b m dat' i) /\
  (FPOD_is_click buf = true ->
   0 <= cc + 1 /\ FPOD_click_row buf cm dat' (Z.to_nat (cc + 1))).
Proof.
  intros H. unfold FPOD_block in H. unfold FPOD_is_click.
  destruct (at_ buf 0 <? 184).
  { apply FPOD_click_columns in H as (_ & _ & Hcc & Hrow & Hkeep). auto. }
  split; [|discriminate].
  intros i b m _ Hrow.
  destruct (at_ buf 0 =? 249).
  { unfold FPOD_train in H. bind_inv H.
    apply Some_triple_inv in H. destruct H as (<- & <- & <-). exact Hrow. }
  destruct (at_ buf 0 =? 250).
  { unfold FPOD_wav in H.
    destruct (read col.has_wav (cc + 1) dat) as [has|]; [|discriminate H].
    cbn [mbind option_bind] in H.
    destruct has; cbn [negb mbind option_bind] in H.
    - destruct (update_back _ (FPODData.wav_data dat)) as [wd|]; [|discriminate H].
      cbn [mbind option_bind] in H.
      apply Some_triple_inv in H. destruct H as (<- & <- & <-). exact Hrow.
    - destruct (write col.has_wav (cc + 1) true dat) as [dat1|] eqn:Hw;
        [|discriminate H].
      apply write_inv in Hw as (_ & _ & ->). cbn [mbind option_bind] in H.
      destruct (update_back _ _) as [wd|]; [|discriminate H].
      cbn [mbind option_bind] in H.
      apply Some_triple_inv in H. destruct H as (<- & <- & <-). exact Hrow. }
  destruct (at_ buf 0 =? 254).
  { unfold FPOD_minute in H.
    destruct ((pic_ver <? 28) && (at_ buf 11 =? 0) && negb (at_ buf 13 =? 0));
      apply Some_triple_inv in H; destruct H as (<- & <- & <-); exact Hrow. }
  apply Some_triple_inv in H. destruct H as (<- & <- & <-). exact Hrow.
Qed.

Lemma FPOD_click_not_minute (buf : list byte) :
  FPOD_is_click buf = true -> FPOD_is_minute buf = false.
Proof.
  unfold FPOD_is_click, FPOD_is_minute. intros H.
  apply Z.ltb_lt in H. apply Z.eqb_neq. lia.
Qed.

Lemma getFPODData_loop_rows (ext : string) (pic_ver : Z) (data_buf_size : nat)
    (fuel : nat) :
  forall (fid : list byte) (cc cm : Z) (dat : FPODData.t)
         (cc' cm' : Z) (dat' : FPODData.t) (fid' : list byte),
  getFPODData_loop ext pic_ver fuel data_buf_size fid cc cm dat
    = Returns (cc', cm', dat', fid') ->
  -1 <= cc ->
  (forall (i : nat) (b : list byte) (m : Z),
     Z.of_nat i <= cc -> FPOD_click_row b m dat i -> FPOD_click_row b m dat' i) /\
  (forall (i : nat) (b : list byte) (m : Z),
     FPOD_clicks cm (whole_blocks fuel data_buf_size fid) !! i = Some (m, b) ->
     FPOD_click_row b m dat' (Z.to_nat (cc + 1) + i)).
Proof.
  induction fuel as [|fuel IH]; intros fid cc cm dat cc' cm' dat' fid' H Hcc;
    [discriminate H|].
  cbn [getFPODData_loop whole_blocks] in *.
  destruct (fid_read fid data_buf_size) as [[buf|] fid1] eqn:Hread.
  2:{ injection H as <- <- <- <-. split; [auto|]. intros i b m Hi. discriminate Hi. }
  apply fid_read_Some in Hread as [Hlen ->].
  replace (length buf <? data_buf_size)%nat with false in H
    by (symmetry; apply Nat.ltb_ge; lia).
  destruct (FPOD_block ext pic_ver buf cc cm dat) as [[[cc1 cm1] dat1]|] eqn:Hblock;
    [|discriminate H].
  pose proof (FPOD_block_counts _ _ _ _ _ _ _ _ _ Hblock) as (Hcc1 & Hcm1 & _).
  apply FPOD_block_rows in Hblock as (Hkeep & Hclick).
  assert (Hcc1' : -1 <= cc1 /\ cc <= cc1)
    by (destruct (FPOD_is_click buf); lia).
  destruct (IH _ _ _ _ _ _ _ _ H (proj1 Hcc1')) as (Hkeep' & Hrows).
  split.
  { intros i b m Hi Hrow. apply Hkeep'; [lia|]. apply Hkeep; assumption. }
  intros i b m Hi. cbn [FPOD_clicks] in Hi.
  destruct (FPOD_is_click buf) eqn:Hc.
  - destruct (Hclick eq_refl) as (Hpos & Hrow).
    rewrite (FPOD_click_not_minute _ Hc) in Hcm1.
    replace cm1 with cm in * by lia.
    destruct i as [|i].
    + injection Hi as <- <-. rewrite Nat.add_0_r.
      apply Hkeep'; [lia|exact Hrow].
    + cbn in Hi. apply Hrows in Hi.
      replace (Z.to_nat (cc + 1) + S i)%nat with (Z.to_nat (cc1 + 1) + i)%nat by lia.
      exact Hi.
  - replace cc1 with cc in * by lia.
    destruct (FPOD_is_minute buf);
      [replace (cm + 1) with cm1 in Hi by lia | replace cm with cm1 in Hi by lia];
      apply Hrows; exact Hi.
Qed.

(** X5.  The click rows of an FPOD file.  When [getFPODData] returns, the
    [i]th click block of the file (first byte below 184, counting from 0
    among the blocks read in full) is in row [i] of the click vectors: its
    minute is the number of minute markers before the block, less one, and
    the other fields are those the click branch derives from the bytes of
    the block.  Blocks read later have not changed the row. *)
Theorem getFPODData_click_rows (fid : list byte) (ext : string)
    (data_buf_size : nat) (dat : FPODData.t) (r : Z) (dat' : FPODData.t)
    (fid' : list byte) :
  getFPODData fid ext data_buf_size dat = Returns (r, dat', fid') ->
  forall (i : nat) (minute : Z) (buf : list byte),
    FPOD_clicks (-1) (blocks data_buf_size fid) !! i = Some (minute, buf) ->
    FPOD_click_row buf minute dat' i.
Proof.
  unfold getFPODData. intros H i minute buf Hi.
  destruct (getFPODData_loop ext _ (S (length fid)) data_buf_size fid (-1) (-1) dat)
    as [[[[cc cm] dat1] fid1]| |] eqn:Hloop; try discriminate H.
  injection H as <- <- <-.
  apply getFPODData_loop_rows in Hloop as (_ & Hrows); [|lia].
  apply Hrows in Hi. exact Hi.
Qed.

Lemma getFPODData_click_rows_witness :
  exists (r : Z) (dat' : FPODData.t) (fid' : list byte),
    getFPODData (fpod_minute_block ++ fpod_click_block) "FP1" 16
      (FPODData_new 2 30) = Returns (r, dat', fid') /\
    FPOD_clicks (-1) (blocks 16 (fpod_minute_block ++ fpod_click_block)) !! 0%nat
    = Some (0, fpod_click_block) /\
    FPOD_click_row fpod_click_block 0 dat' 0.
Proof.
  eexists _, _, _.
  split; [vm_compute; reflexivity|].
  split; [vm_compute; reflexivity|].
  apply (getFPODData_click_rows (fpod_minute_block ++ fpod_click_block) "FP1" 16
           (FPODData_new 2 30) _ _ _ ltac:(vm_compute; reflexivity) 0 0
           fpod_click_block).
  vm_compute; reflexivity.
Defined.

(** ** The click rows that [getCPODData] fills *)

(** Splits off the next assignment of a successful sequence. *)
Ltac write_case H :=
  match type of H with
  | context [write ?c ?i ?v ?d] =>
      let E := fresh "E" in
      destruct (write c i v d) eqn:E; [|discriminate H];
      apply write_inv in E; destruct E as (? & ? & ->);
      cbn [mbind option_bind] in H; simpl in *
  end.

Lemma CPOD_click_columns (ext : string) (buf : list byte) (cc cm : Z)
    (dat : FPODData.t) (cc' cm' : Z) (dat' : FPODData.t) :
  CPOD_click ext buf cc cm dat = Some (cc', cm', dat') ->
  cc' = cc + 1 /\ cm' = cm /\ 0 <= cc + 1 /\
  CPOD_click_row ext buf cm dat' (Z.to_nat (cc + 1)) /\
  forall (i : nat) (b : list byte) (m : Z),
    Z.of_nat i <= cc -> CPOD_click_row ext b m dat i -> CPOD_click_row ext b m dat' i.
Proof.
  unfold CPOD_click. intros H. bind_inv H.
  destruct (Z.gtb_spec (at_ buf 5) 0) as [Hkhz|Hkhz];
    [write_case H|cbn [mbind option_bind] in H];
    (destruct (String.eqb_spec ext "CP3") as [Hext|Hext];
     [do 3 write_case H|cbn [mbind option_bind] in H]);
    apply Some_triple_inv in H; destruct H as (<- & <- & <-);
    (split; [reflexivity|]); (split; [reflexivity|]); (split; [assumption|]);
    unfold CPOD_click_row; simpl;
    (split;
     [rewrite ?list_lookup_insert_eq by assumption;
      repeat apply conj; try reflexivity; intros; try lia; try contradiction;
      repeat apply conj; reflexivity
     |intros i b m Hi Hrow; rewrite ?list_lookup_insert_ne by lia; exact Hrow]).
Qed.

Lemma getCPODData_loop_rows (ext : string) (data_buf_size : nat) (fuel : nat) :
  forall (fid : list byte) (cc cm fe : Z) (dat : FPODData.t)
         (cc' cm' : Z) (dat' : FPODData.t) (fid' : list byte),
  getCPODData_loop ext data_buf_size fuel fid cc cm fe dat
    = Returns (cc', cm', dat', fid') ->
  -1 <= cc ->
  (forall (i : nat) (b : list byte) (m : Z),
     Z.of_nat i <= cc -> CPOD_click_row ext b m dat i ->
     CPOD_click_row ext b m dat' i) /\
  (forall (i : nat) (b : list byte) (m : Z),
     CPOD_clicks data_buf_size cm (CPOD_records fuel data_buf_size fid fe) !! i
     = Some (m, b) ->
     CPOD_click_row ext b m dat' (Z.to_nat (cc + 1) + i)).
Proof.
  induction fuel as [|fuel IH]; intros fid cc cm fe dat cc' cm' dat' fid' H Hcc;
    [discriminate H|].
  cbn [getCPODData_loop CPOD_records] in *.
  destruct (fid_read fid data_buf_size) as [[buf|] fid1] eqn:Hread.
  2:{ injection H as <- <- <- <-. split; [auto|]. intros i b m Hi. discriminate Hi. }
  apply fid_read_Some in Hread as [Hlen ->].
  replace (length buf <? data_buf_size)%nat with false in H
    by (symmetry; apply Nat.ltb_ge; lia).
  assert (Hgo : forall fe1,
    match
      (if negb (at_ buf (last_byte data_buf_size) =? 254) then
         '(cc1, cm1, dat1) ← CPOD_click ext buf cc cm dat;
         Some (Continue cc1 cm1 fe1 dat1)
       else if at_ buf (last_byte data_buf_size) =? 254 then
         Some (Continue cc (cm + 1) fe1 dat)
       else Some (Continue cc cm fe1 dat))
    with
    | None => Undefined
    | Some Break => Returns (cc, cm, dat, fid1)
    | Some (Continue cc1 cm1 fe2 dat1) =>
        getCPODData_loop ext data_buf_size fuel fid1 cc1 cm1 fe2 dat1
    end = Returns (cc', cm', dat', fid') ->
    (forall (i : nat) (b : list byte) (m : Z),
       Z.of_nat i <= cc -> CPOD_click_row ext b m dat i ->
       CPOD_click_row ext b m dat' i) /\
    (forall (i : nat) (b : list byte) (m : Z),
       CPOD_clicks data_buf_size cm
         (buf :: CPOD_records fuel data_buf_size fid1 fe1) !! i = Some (m, b) ->
       CPOD_click_row ext b m dat' (Z.to_nat (cc + 1) + i))).
  { intros fe1 Hrun. cbn [CPOD_clicks]. unfold CPOD_is_click at 1.
    unfold last_byte in Hrun.
    destruct (at_ buf (data_buf_size - 1) =? 254); cbn [negb] in *.
    - apply IH in Hrun; [|exact Hcc]. exact Hrun.
    - destruct (CPOD_click ext buf cc cm dat) as [[[cc1 cm1] dat1]|] eqn:Hclick;
        simpl in Hrun; [|discriminate Hrun].
      apply CPOD_click_columns in Hclick as (-> & -> & Hpos & Hrow & Hkeep).
      apply IH in Hrun; [|lia]. destruct Hrun as (Hkeep' & Hrows).
      split.
      { intros i b m Hi Hr. apply Hkeep'; [lia|]. apply Hkeep; assumption. }
      intros [|i] b m Hi.
      + injection Hi as <- <-. rewrite Nat.add_0_r. apply Hkeep'; [lia|exact Hrow].
      + cbn in Hi. apply Hrows in Hi.
        replace (Z.to_nat (cc + 1) + S i)%nat
          with (Z.to_nat (cc + 1 + 1) + i)%nat by lia.
        exact Hi. }
  unfold CPOD_block in H.
  destruct (eof buf).
  - destruct (fe + 1 =? 2).
    + injection H as <- <- <- <-. split; [auto|].
      intros i b m Hi. discriminate Hi.
    + apply Hgo. exact H.
  - apply Hgo. exact H.
Qed.

(** X6.  The click rows of a CPOD file.  When [getCPODData] returns, the
    [i]th click record of the file (a block whose last byte is not 254,
    counting from 0 among the blocks read before the second of two
    terminator blocks in a row) is in row [i] of the click vectors: its
    minute is the number of blocks with last byte 254 before it, less one,
    and the other fields are those the click branch derives from the bytes
    of the block.  Blocks read later have not changed the row. *)
Theorem getCPODData_click_rows (fid : list byte) (ext : string)
    (data_buf_size : nat) (dat : FPODData.t) (r : Z) (dat' : FPODData.t)
    (fid' : list byte) :
  getCPODData fid ext data_buf_size dat = Returns (r, dat', fid') ->
  forall (i : nat) (minute : Z) (buf : list byte),
    CPOD_clicks data_buf_size (-1)
      (CPOD_records (S (length fid)) data_buf_size fid 0) !! i
    = Some (minute, buf) ->
    CPOD_click_row ext buf minute dat' i.
Proof.
  unfold getCPODData. intros H i minute buf Hi.
  destruct (getCPODData_loop ext data_buf_size (S (length fid)) fid (-1) (-1) 0 dat)
    as [[[[cc cm] dat1] fid1]| |] eqn:Hloop; try discriminate H.
  injection H as <- <- <-.
  apply getCPODData_loop_rows in Hloop as (_ & Hrows); [|lia].
  apply Hrows in Hi. exact Hi.
Qed.

Lemma getCPODData_click_rows_witness :
  exists (r : Z) (dat' : FPODData.t) (fid' : list byte),
    getCPODData (cp1_minute_block ++ cp1_click_block) "CP1" 10
      (FPODData_new 2 0) = Returns (r, dat', fid') /\
    CPOD_clicks 10 (-1)
      (CPOD_records (S (length (cp1_minute_block ++ cp1_click_block))) 10
         (cp1_minute_block ++ cp1_click_block) 0) !! 0%nat
    = Some (0, cp1_click_block) /\
    CPOD_click_row "CP1" cp1_click_block 0 dat' 0.
Proof.
  eexists _, _, _.
  split; [vm_compute; reflexivity|].
  split; [vm_compute; reflexivity|].
  apply (getCPODData_click_rows (cp1_minute_block ++ cp1_click_block) "CP1" 10
           (FPODData_new 2 0) _ _ _ ltac:(vm_compute; reflexivity) 0 0
           cp1_click_block).
  vm_compute; reflexivity.
Defined.

(** ** [readFPOD] on short files and on unknown file types *)

Lemma getBufsize_cases (ext : string) :
  getBufsize ext = (360, 10)%nat \/ getBufsize ext = (720, 40)%nat \/
  getBufsize ext = (1024, 16)%nat.
Proof.
  unfold getBufsize.
  destruct (ext =? "CP1")%string; [auto|].
  destruct (ext =? "CP3")%string; auto.
Qed.

(** The estimate of the number of clicks, for a file that holds its header. *)
Lemma max_clicks_estimate (len header_buf_size data_buf_size : nat) :
  (header_buf_size <= len)%nat -> Z.of_nat len < 2 ^ 64 ->
  size_t_wrap (Z.of_nat len - Z.of_nat header_buf_size) / Z.of_nat data_buf_size
  = Z.of_nat ((len - header_buf_size) / data_buf_size).
Proof.
  intros Hle Hsize. unfold size_t_wrap.
  rewrite Z.mod_small by lia.
  rewrite <- Nat2Z.inj_sub by exact Hle.
  symmetry. apply Nat2Z.inj_div.
Qed.

(** X7.  Files that are too short, whatever the extension (one of the four
    file types or not): when the file ends before the end of the header,
    [readFPOD] stops with "Unable to read from file"; when it holds the
    header but not one whole data block, the dataset is built for 0 clicks
    and [Rcpp::seq(1, 0)] raises a range error. *)
Theorem readFPOD_short_file (extension : string -> string)
    (contents : string -> option (list byte)) (file ext : string)
    (bytes : list byte) :
  getFiletype extension file = inr ext ->
  contents file = Some bytes ->
  Z.of_nat (length bytes) < 2 ^ 64 ->
  ((length bytes < fst (getBufsize ext))%nat ->
   readFPOD extension contents file = Raise Unable_to_read_from_file) /\
  ((fst (getBufsize ext) <= length bytes)%nat ->
   (length bytes < fst (getBufsize ext) + snd (getBufsize ext))%nat ->
   readFPOD extension contents file = Raise range_error).
Proof.
  intros Hext Hfile Hsize. unfold readFPOD. rewrite Hext, Hfile.
  destruct (getBufsize ext) as [header_buf_size data_buf_size] eqn:Hbuf.
  assert (Hpos : (0 < data_buf_size)%nat).
  { destruct (getBufsize_cases ext) as [H|[H|H]]; rewrite H in Hbuf;
      injection Hbuf as <- <-; lia. }
  cbn [fst snd]. unfold fid_read. split.
  - intros Hshort.
    destruct (Nat.leb_spec header_buf_size (length bytes)); [lia|reflexivity].
  - intros Hheader Hblock.
    destruct (Nat.leb_spec header_buf_size (length bytes)); [|lia].
    rewrite max_clicks_estimate by assumption.
    rewrite Nat.div_small by lia. reflexivity.
Qed.

Lemma readFPOD_short_file_witness :
  readFPOD (fun _ => ".cp1") (fun _ => Some (repeat x00 100)) "a.cp1"
  = Raise Unable_to_read_from_file /\
  readFPOD (fun _ => ".cp1") (fun _ => Some (repeat x00 365)) "a.cp1"
  = Raise range_error.
Proof.
  split.
  - apply (readFPOD_short_file (fun _ => ".cp1") (fun _ => Some (repeat x00 100))
             "a.cp1" "CP1" (repeat x00 100));
      [reflexivity|reflexivity|vm_compute; reflexivity|vm_compute; lia].
  - apply (readFPOD_short_file (fun _ => ".cp1") (fun _ => Some (repeat x00 365))
             "a.cp1" "CP1" (repeat x00 365));
      [reflexivity|reflexivity|vm_compute; reflexivity|vm_compute; lia
      |vm_compute; lia].
Defined.

(** X8.  A file whose extension, in upper case, is none of CP1, CP3, FP1 and
    FP3 is read with the FPOD sizes (a header of 1024 bytes, blocks of 16
    bytes); when it holds the header and at least one block, [readFPOD]
    stops with "Unknown file type". *)
Theorem readFPOD_unknown_file_type (extension : string -> string)
    (contents : string -> option (list byte)) (file ext : string)
    (bytes : list byte) :
  getFiletype extension file = inr ext ->
  ext <> "CP1" -> ext <> "CP3" -> ext <> "FP1" -> ext <> "FP3" ->
  contents file = Some bytes ->
  Z.of_nat (length bytes) < 2 ^ 64 ->
  (1024 + 16 <= length bytes)%nat ->
  readFPOD extension contents file = Raise Unknown_file_type.
Proof.
  intros Hext H1 H2 H3 H4 Hfile Hsize Hlen. unfold readFPOD.
  rewrite Hext, Hfile. unfold getBufsize, readFPOD_data.
  apply String.eqb_neq in H1, H2, H3, H4. rewrite H1, H2, H3, H4.
  unfold fid_read.
  destruct (Nat.leb_spec 1024 (length bytes)); [|lia].
  rewrite max_clicks_estimate by (assumption || lia).
  assert (Hclicks : (1 <= (length bytes - 1024) / 16)%nat).
  { apply Nat.div_le_lower_bound; lia. }
  destruct (Z.eqb_spec (Z.of_nat ((length bytes - 1024) / 16)) 0); [lia|].
  reflexivity.
Qed.

Lemma readFPOD_unknown_file_type_witness :
  readFPOD (fun _ => ".txt") (fun _ => Some (repeat x00 1040)) "a.txt"
  = Raise Unknown_file_type.
Proof.
  apply (readFPOD_unknown_file_type (fun _ => ".txt")
           (fun _ => Some (repeat x00 1040)) "a.txt" "TXT" (repeat x00 1040));
    try reflexivity; try discriminate; vm_compute; try reflexivity; lia.
Defined.

(** ** The header decoders stay inside the header block *)

Lemma byte_at_Some (buf : list byte) (i : nat) :
  (i < length buf)%nat -> byte_at buf i = Some (at_ buf i).
Proof.
  intros H. unfold byte_at, at_.
  destruct (lookup_lt_is_Some_2 buf i H) as [b Hb].
  rewrite Hb. cbn. f_equal. f_equal. symmetry. apply nth_lookup_Some with (d := x00).
  exact Hb.
Qed.

Lemma byte_at_inv (buf : list byte) (i : nat) (z : Z) :
  byte_at buf i = Some z -> (i < length buf)%nat.
Proof.
  unfold byte_at. intros H.
  destruct (buf !! i) as [b|] eqn:Hb; [|discriminate H].
  eapply lookup_lt_Some. exact Hb.
Qed.

Lemma parseString_Some (buf : list byte) (offset len : nat) :
  (offset + len <= length buf)%nat ->
  parseString buf offset len
  = Some (string_of_list_byte (take len (drop offset buf))).
Proof.
  intros H. unfold parseString.
  destruct (Nat.leb_spec (offset + len) (length buf)); [reflexivity|lia].
Qed.

Lemma parseString_inv (buf : list byte) (offset len : nat) (s : string) :
  parseString buf offset len = Some s -> (offset + len <= length buf)%nat.
Proof.
  unfold parseString.
  destruct (Nat.leb_spec (offset + len) (length buf)); [auto|discriminate].
Qed.

(** Splits a successful sequence of reads of the header into its steps. *)
Ltac header_inv H :=
  repeat match type of H with
  | (?m ≫= _) = Some _ =>
      let E := fresh "E" in
      destruct m eqn:E; [cbn [mbind option_bind] in H | discriminate H];
      first [apply byte_at_inv in E | apply parseString_inv in E]
  end.

Lemma getFPODHeader_defined (buf : list byte) (ext : string) :
  (243 <= length buf)%nat -> is_Some (getFPODHeader buf ext).
Proof.
  intros H. unfold getFPODHeader.
  rewrite !byte_at_Some, !parseString_Some by lia.
  eexists. reflexivity.
Qed.

Lemma getCPODHeader_defined (buf : list byte) (ext : string) :
  (261 <= length buf)%nat -> is_Some (getCPODHeader buf ext).
Proof.
  intros H. unfold getCPODHeader.
  rewrite !byte_at_Some, !parseString_Some by lia.
  eexists. reflexivity.
Qed.

(** X9.  [getFPODHeader] is defined, with no read outside its buffer,
    exactly on the buffers of at least 243 bytes, and [getCPODHeader]
    exactly on the buffers of at least 261 bytes; both are defined on a
    buffer that has the size of the header block of a file format (360,
    720 or 1024 bytes). *)
Theorem header_decoders_bounds (buf : list byte) (ext : string) :
  (is_Some (getFPODHeader buf ext) <-> (243 <= length buf)%nat) /\
  (is_Some (getCPODHeader buf ext) <-> (261 <= length buf)%nat) /\
  (forall ext' : string,
     length buf = fst (getBufsize ext') ->
     is_Some (getFPODHeader buf ext) /\ is_Some (getCPODHeader buf ext)).
Proof.
  split; [split|split; [split|]].
  - intros [header H]. unfold getFPODHeader in H. header_inv H. lia.
  - apply getFPODHeader_defined.
  - intros [header H]. unfold getCPODHeader in H. header_inv H. lia.
  - apply getCPODHeader_defined.
  - intros ext' Hlen.
    assert (Hsize : (360 <= length buf)%nat).
    { destruct (getBufsize_cases ext') as [H|[H|H]]; rewrite H in Hlen;
        cbn [fst] in Hlen; lia. }
    split; [apply getFPODHeader_defined|apply getCPODHeader_defined]; lia.
Qed.

Lemma header_decoders_bounds_witness :
  is_Some (getFPODHeader (repeat x00 360) "CP1") /\
  is_Some (getCPODHeader (repeat x00 360) "CP1").
Proof.
  apply (proj2 (proj2 (header_decoders_bounds (repeat x00 360) "CP1")) "CP1").
  reflexivity.
Defined.

(** ** [readFPOD] on the four file types *)


(** What a click of the CPOD decoder leaves alone. *)
Lemma CPOD_click_frame (ext : string) (buf : list byte) (cc cm : Z)
    (dat : FPODData.t) (cc' cm' : Z) (dat' : FPODData.t) (n : nat) :
  CPOD_click ext buf cc cm dat = Some (cc', cm', dat') ->
  sized n dat ->
  cc' = cc + 1 /\ cc + 1 < Z.of_nat n /\ sized n dat' /\
  FPODData.wav_data dat' = FPODData.wav_data dat /\
  FPODData.temp_deg_c dat' = FPODData.temp_deg_c dat /\
  FPODData.bat1 dat' = FPODData.bat1 dat /\
  FPODData.bat2 dat' = FPODData.bat2 dat.
Proof.
  unfold CPOD_click. intros H Hs. bind_inv H.
  assert (Hroom : cc + 1 < Z.of_nat n) by (unfold sized in Hs; lia).
  destruct (at_ buf 5 >? 0);
    [write_case H|cbn [mbind option_bind] in H];
    (destruct (ext =? "CP3")%string;
     [do 3 write_case H|cbn [mbind option_bind] in H]);
    apply Some_triple_inv in H; destruct H as (<- & <- & <-);
    (split; [reflexivity|]); (split; [exact Hroom|]);
    (split; [revert Hs; unfold sized; simpl; rewrite ?length_insert;
             exact (fun Hs => Hs)|]);
    repeat apply conj; reflexivity.
Qed.












(** ** A file cut inside a block *)

Lemma first_block (fid : list byte) (n data_buf_size : nat) :
  length fid = (S n * data_buf_size)%nat ->
  exists buf rest, fid = buf ++ rest /\ length buf = data_buf_size /\
                   length rest = (n * data_buf_size)%nat.
Proof.
  intros H. exists (take data_buf_size fid), (drop data_buf_size fid).
  rewrite take_drop, length_take, length_drop. repeat apply conj; [reflexivity|lia|lia].
Qed.

Lemma getFPODData_loop_tail (ext : string) (pic_ver : Z) (data_buf_size : nat)
    (tail : list byte) :
  (length tail < data_buf_size)%nat ->
  forall (n fuel fuel' : nat) (fid : list byte) (cc cm : Z) (dat : FPODData.t),
  length fid = (n * data_buf_size)%nat -> (n < fuel)%nat -> (n < fuel')%nat ->
  getFPODData_loop ext pic_ver fuel' data_buf_size (fid ++ tail) cc cm dat
  = getFPODData_loop ext pic_ver fuel data_buf_size fid cc cm dat.
Proof.
  intros Htail.
  induction n as [|n IH]; intros [|fuel] [|fuel'] fid cc cm dat Hlen Hf Hf';
    try lia.
  - destruct fid; [|discriminate Hlen]. cbn [app getFPODData_loop].
    rewrite !fid_read_short by (cbn [length]; lia). reflexivity.
  - destruct (first_block fid n data_buf_size Hlen) as (buf & rest & -> & Hbuf & Hrest).
    rewrite <- app_assoc, !getFPODData_loop_block by exact Hbuf.
    destruct (FPOD_block ext pic_ver buf cc cm dat) as [[[cc1 cm1] dat1]|];
      [|reflexivity].
    apply IH; [exact Hrest|lia|lia].
Qed.

Lemma getCPODData_loop_tail (ext : string) (data_buf_size : nat)
    (tail : list byte) :
  (length tail < data_buf_size)%nat ->
  forall (n fuel fuel' : nat) (fid : list byte) (cc cm fe : Z) (dat : FPODData.t),
  length fid = (n * data_buf_size)%nat -> (n < fuel)%nat -> (n < fuel')%nat ->
  decoded (getCPODData_loop ext data_buf_size fuel' (fid ++ tail) cc cm fe dat)
  = decoded (getCPODData_loop ext data_buf_size fuel fid cc cm fe dat).
Proof.
  intros Htail.
  induction n as [|n IH]; intros [|fuel] [|fuel'] fid cc cm fe dat Hlen Hf Hf';
    try lia.
  - destruct fid; [|discriminate Hlen]. cbn [app getCPODData_loop].
    rewrite !fid_read_short by (cbn [length]; lia). reflexivity.
  - destruct (first_block fid n data_buf_size Hlen) as (buf & rest & -> & Hbuf & Hrest).
    rewrite <- app_assoc, !getCPODData_loop_block by exact Hbuf.
    destruct (CPOD_block ext data_buf_size buf cc cm fe dat)
      as [[|cc1 cm1 fe1 dat1]|]; [reflexivity| |reflexivity].
    apply IH; [exact Hrest|lia|lia].
Qed.

Lemma fid_read_app (fid tail : list byte) (n : nat) :
  (n <= length fid)%nat ->
  fid_read (fid ++ tail) n = (Some (take n fid), drop n fid ++ tail).
Proof.
  intros H. unfold fid_read. rewrite length_app.
  destruct (Nat.leb_spec n (length fid + length tail)); [|lia].
  rewrite take_app_le, drop_app_le by exact H. reflexivity.
Qed.

Lemma whole_fuel (n data_buf_size len : nat) :
  (0 < data_buf_size)%nat -> (n * data_buf_size <= len)%nat -> (n < S len)%nat.
Proof. intros Hpos Hlen. nia. Qed.

(** The data part of [readFPOD] on a file cut inside a block. *)
Lemma readFPOD_data_tail (file ext : string) (buf fid tail : list byte)
    (data_buf_size max_clicks n : nat) :
  (length tail < data_buf_size)%nat ->
  length fid = (n * data_buf_size)%nat ->
  readFPOD_data file ext buf (fid ++ tail) data_buf_size max_clicks
  = readFPOD_data file ext buf fid data_buf_size max_clicks.
Proof.
  intros Htail Hlen. unfold readFPOD_data.
  assert (Hpos : (0 < data_buf_size)%nat) by lia.
  destruct ((ext =? "CP1")%string || (ext =? "CP3")%string).
  { destruct (getCPODHeader buf ext) as [header|]; [|reflexivity].
    unfold getCPODData.
    assert (Hrun :
      decoded (getCPODData_loop ext data_buf_size (S (length (fid ++ tail)))
                 (fid ++ tail) (-1) (-1) 0 (FPODData_new max_clicks 0))
      = decoded (getCPODData_loop ext data_buf_size (S (length fid))
                   fid (-1) (-1) 0 (FPODData_new max_clicks 0))).
    { apply (getCPODData_loop_tail ext data_buf_size tail Htail n);
        [exact Hlen| |]; apply (whole_fuel n data_buf_size);
        rewrite ?length_app; lia. }
    destruct (getCPODData_loop ext data_buf_size (S (length (fid ++ tail))) _ _ _ _ _)
      as [[[[cc cm] dat1] fid1]| |];
      destruct (getCPODData_loop ext data_buf_size (S (length fid)) _ _ _ _ _)
        as [[[[cc' cm'] dat1'] fid1']| |];
      cbn [decoded] in Hrun; try discriminate Hrun; try reflexivity.
    injection Hrun as -> -> ->. reflexivity. }
  destruct ((ext =? "FP1")%string || (ext =? "FP3")%string); [|reflexivity].
  destruct (getFPODHeader buf ext) as [header|]; [|reflexivity].
  destruct (List_get "pic_ver" header) as [[pic_ver| |]|]; try reflexivity.
  unfold getFPODData.
  rewrite (getFPODData_loop_tail ext _ data_buf_size tail Htail n
             (S (length fid)) (S (length (fid ++ tail))) fid (-1) (-1) _ Hlen).
  - reflexivity.
  - apply (whole_fuel n data_buf_size); [exact Hpos|lia].
  - apply (whole_fuel n data_buf_size); [exact Hpos|rewrite length_app; lia].
Qed.

(** X12.  A file cut inside a data block.  When the data after the header
    are whole blocks followed by fewer bytes than one block, [readFPOD]
    gives what it gives without these last bytes: the same value, the same
    error or the same undefined behaviour. *)
Theorem readFPOD_partial_block (extension : string -> string)
    (contents contents' : string -> option (list byte)) (file ext : string)
    (bytes tail : list byte) (n : nat) :
  getFiletype extension file = inr ext ->
  contents file = Some bytes ->
  contents' file = Some (bytes ++ tail) ->
  length bytes = (fst (getBufsize ext) + n * snd (getBufsize ext))%nat ->
  (length tail < snd (getBufsize ext))%nat ->
  Z.of_nat (length (bytes ++ tail)) < 2 ^ 64 ->
  readFPOD extension contents' file = readFPOD extension contents file.
Proof.
  intros Hext Hfile Hfile' Hlen Htail Hsize. unfold readFPOD.
  rewrite Hext, Hfile, Hfile'.
  destruct (getBufsize ext) as [header_buf_size data_buf_size].
  cbn [fst snd] in *. rewrite length_app in Hsize.
  rewrite fid_read_app by lia. unfold fid_read.
  destruct (Nat.leb_spec header_buf_size (length bytes)); [|lia].
  rewrite !max_clicks_estimate by (rewrite ?length_app; lia).
  replace ((length (bytes ++ tail) - header_buf_size) / data_buf_size)%nat
    with ((length bytes - header_buf_size) / data_buf_size)%nat.
  2:{ rewrite length_app, Hlen.
      replace (header_buf_size + n * data_buf_size - header_buf_size)%nat
        with (n * data_buf_size)%nat by lia.
      replace (header_buf_size + n * data_buf_size + length tail - header_buf_size)%nat
        with (length tail + n * data_buf_size)%nat by lia.
      rewrite Nat.div_add, Nat.div_mul, Nat.div_small by lia. reflexivity. }
  destruct (_ =? 0); [reflexivity|].
  apply (readFPOD_data_tail _ _ _ _ _ _ _ n); [exact Htail|].
  rewrite length_drop. lia.
Qed.

Lemma readFPOD_partial_block_witness :
  readFPOD (fun _ => ".cp1")
    (fun _ => Some ((repeat x00 360 ++ cp1_click_block) ++ [x01; x02; x03])) "a.cp1"
  = readFPOD (fun _ => ".cp1")
      (fun _ => Some (repeat x00 360 ++ cp1_click_block)) "a.cp1".
Proof.
  apply (readFPOD_partial_block (fun _ => ".cp1")
           (fun _ => Some (repeat x00 360 ++ cp1_click_block))
           (fun _ => Some ((repeat x00 360 ++ cp1_click_block) ++ [x01; x02; x03]))
           "a.cp1" "CP1" (repeat x00 360 ++ cp1_click_block) [x01; x02; x03] 1).
  - reflexivity.
  - reflexivity.
  - reflexivity.
  - vm_compute. reflexivity.
  - vm_compute. lia.
  - vm_compute. reflexivity.
Defined.

(** ** The waveform series that [getFPODData] builds *)

Lemma update_back_inv {A : Type} (f : A -> A) (l l' : list A) :
  update_back f l = Some l' ->
  exists ws w, l = ws ++ [w] /\ l' = ws ++ [f w].
Proof.
  induction l as [|x l _] using rev_ind; intros H; [discriminate H|].
  rewrite update_back_snoc in H. injection H as <-. eauto.
Qed.

(** The waveform branch, read backwards. *)
Lemma FPOD_wav_inv (buf : list byte) (cc cm : Z) (dat : FPODData.t)
    (cc' cm' : Z) (dat' : FPODData.t) :
  FPOD_wav buf cc cm dat = Some (cc', cm', dat') ->
  cc' = cc /\ cm' = cm /\ 0 <= cc + 1 /\
  exists has : bool,
    FPODData.has_wav dat !! Z.to_nat (cc + 1) = Some has /\
    FPODData.has_wav dat' = <[Z.to_nat (cc + 1) := true]> (FPODData.has_wav dat) /\
    if has then
      exists ws w, FPODData.wav_data dat = ws ++ [w] /\
                   FPODData.wav_data dat' = ws ++ [add_chunk (wav_chunk buf) w]
    else
      FPODData.wav_data dat'
      = FPODData.wav_data dat ++ [Build_WavData (cc + 2) [wav_chunk buf]].
Proof.
  unfold FPOD_wav, read. intros H.
  destruct (Z.leb_spec 0 (cc + 1)) as [Hcc|]; [|discriminate H].
  cbn [get col.has_wav] in H.
  destruct (FPODData.has_wav dat !! Z.to_nat (cc + 1)) as [has|] eqn:Hhas;
    [|discriminate H].
  cbn [mbind option_bind] in H.
  destruct has; cbn [negb mbind option_bind] in H.
  - destruct (update_back _ (FPODData.wav_data dat)) as [wd|] eqn:Hwd;
      [|discriminate H].
    cbn [mbind option_bind] in H.
    apply Some_triple_inv in H. destruct H as (<- & <- & <-).
    apply update_back_inv in Hwd as (ws & w & Hwd & ->).
    repeat (split; [reflexivity || assumption|]).
    exists true. split; [reflexivity|]. split.
    + simpl. symmetry. apply list_insert_id. exact Hhas.
    + exists ws, w. split; [exact Hwd|reflexivity].
  - destruct (write col.has_wav (cc + 1) true dat) as [dat1|] eqn:Hw;
      [|discriminate H].
    apply write_inv in Hw as (_ & _ & ->). cbn [mbind option_bind] in H.
    destruct (update_back _ _) as [wd|] eqn:Hwd; [|discriminate H].
    cbn [mbind option_bind] in H.
    apply Some_triple_inv in H. destruct H as (<- & <- & <-).
    simpl in Hwd. unfold push_back in Hwd. rewrite update_back_snoc in Hwd.
    injection Hwd as <-.
    repeat (split; [reflexivity || assumption|]).
    exists false. split; [reflexivity|]. split; reflexivity.
Qed.

Lemma wav_chunk_ok (buf : list byte) : chunk_ok (wav_chunk buf).
Proof. split; reflexivity. Qed.

Lemma total_chunks_snoc (ws : list WavData) (w : WavData) :
  total_chunks (ws ++ [w]) = (total_chunks ws + length (chunks w))%nat.
Proof.
  unfold total_chunks. rewrite flat_map_app, length_app. simpl.
  rewrite app_nil_r. reflexivity.
Qed.

Lemma insert_true_keeps (l : list bool) (i j : nat) :
  l !! j = Some true -> <[i := true]> l !! j = Some true.
Proof.
  intros H. apply list_lookup_insert_Some.
  destruct (Nat.eq_dec i j) as [->|Hne]; [left|right; auto].
  split; [reflexivity|]. split; [reflexivity|]. eapply lookup_lt_Some. exact H.
Qed.

(** A waveform block keeps the series well formed and adds one chunk. *)
Lemma FPOD_wav_series (buf : list byte) (cc cm : Z) (dat : FPODData.t)
    (cc' cm' : Z) (dat' : FPODData.t) :
  FPOD_wav buf cc cm dat = Some (cc', cm', dat') ->
  wav_series_ok cc dat ->
  wav_series_ok cc' dat' /\
  total_chunks (FPODData.wav_data dat') = S (total_chunks (FPODData.wav_data dat)).
Proof.
  intros H (Hall & Hsorted & Hflag).
  apply FPOD_wav_inv in H as (-> & -> & Hcc & has & Hhas & Hhw & Hwd).
  assert (Hlt : (Z.to_nat (cc + 1) < length (FPODData.has_wav dat))%nat)
    by (eapply lookup_lt_Some; exact Hhas).
  destruct has.
  - destruct Hwd as (ws & w & Hwd & Hwd').
    rewrite Hwd in Hall, Hsorted, Hflag.
    split; [|rewrite Hwd, Hwd', !total_chunks_snoc; simpl;
             unfold push_back; rewrite length_app; simpl; lia].
    unfold wav_series_ok. rewrite Hwd', Hhw.
    apply Forall_app in Hall as [Hws Hw]. apply Forall_cons in Hw as [Hw _].
    destruct Hw as (Hne & Hok & Hkey & Hset).
    split; [|split].
    + apply Forall_app. split.
      * eapply Forall_impl; [exact Hws|]. intros w0 (? & ? & ? & ?).
        split; [assumption|]. split; [assumption|]. split; [lia|].
        apply insert_true_keeps. assumption.
      * constructor; [|constructor].
        simpl. unfold push_back. split; [|split; [|split; [lia|]]].
        -- intros E. destruct (chunks w); discriminate E.
        -- apply Forall_app. split; [exact Hok|].
           constructor; [apply wav_chunk_ok|constructor].
        -- apply insert_true_keeps. exact Hset.
    + intros i j w1 w2 Hij H1 H2.
      assert (Hkeys : forall k w0, (ws ++ [add_chunk (wav_chunk buf) w]) !! k = Some w0 ->
                exists w0', (ws ++ [w]) !! k = Some w0' /\ click w0' = click w0).
      { intros k w0 Hk. apply lookup_app_Some in Hk as [Hk|[Hk1 Hk2]].
        - exists w0. split; [apply lookup_app_l_Some; exact Hk|reflexivity].
        - destruct (k - length ws)%nat as [|k'] eqn:Ek; [|destruct k'; discriminate Hk2].
          injection Hk2 as <-. exists w. split; [|reflexivity].
          replace k with (length ws + 0)%nat by lia.
          rewrite lookup_app_r by lia.
          replace (length ws + 0 - length ws)%nat with 0%nat by lia. reflexivity. }
      destruct (Hkeys _ _ H1) as (w1' & H1' & <-).
      destruct (Hkeys _ _ H2) as (w2' & H2' & <-).
      eapply Hsorted; eassumption.
    + intros j Hj. apply list_lookup_insert_Some in Hj.
      assert (Hj' : FPODData.has_wav dat !! j = Some true).
      { destruct Hj as [(<- & _ & _)|(_ & Hj)]; assumption. }
      destruct (Hflag j Hj') as (w0 & Hin & Hclick).
      apply in_app_or in Hin as [Hin|[<-|[]]].
      * exists w0. split; [apply in_or_app; left; exact Hin|exact Hclick].
      * exists (add_chunk (wav_chunk buf) w).
        split; [apply in_or_app; right; left; reflexivity|exact Hclick].
  - split; [|rewrite Hwd, total_chunks_snoc; simpl; lia].
    assert (Hbelow : Forall (fun w => click w < cc + 2) (FPODData.wav_data dat)).
    { eapply Forall_impl; [exact Hall|]. intros w0 (_ & _ & Hkey & Hset).
      destruct (Z.eq_dec (click w0) (cc + 2)) as [E|]; [|lia].
      exfalso. rewrite E in Hset.
      replace (cc + 2 - 1) with (cc + 1) in Hset by lia.
      rewrite Hhas in Hset. discriminate Hset. }
    unfold wav_series_ok. rewrite Hwd, Hhw.
    split; [|split].
    + apply Forall_app. split.
      * eapply Forall_impl; [exact Hall|]. intros w0 (? & ? & ? & ?).
        split; [assumption|]. split; [assumption|]. split; [lia|].
        apply insert_true_keeps. assumption.
      * constructor; [|constructor].
        simpl. split; [|split; [|split; [lia|]]].
        -- discriminate.
        -- constructor; [apply wav_chunk_ok|constructor].
        -- replace (cc + 2 - 1) with (cc + 1) by lia.
           apply list_lookup_insert_eq. exact Hlt.
    + intros i j w1 w2 Hij H1 H2.
      apply lookup_app_Some in H2 as [H2|[Hj1 Hj2]].
      * assert (H1' : FPODData.wav_data dat !! i = Some w1).
        { apply lookup_app_Some in H1 as [H1|[Hi1 _]]; [exact H1|].
          apply lookup_lt_Some in H2. lia. }
        eapply Hsorted; eassumption.
      * destruct (j - length (FPODData.wav_data dat))%nat as [|k] eqn:Ek;
          [|destruct k; discriminate Hj2].
        injection Hj2 as <-. simpl.
        apply lookup_app_Some in H1 as [H1|[Hi1 _]]; [|lia].
        rewrite Forall_forall in Hbelow. apply Hbelow.
        eapply list_elem_of_lookup_2. exact H1.
    + intros j Hj. apply list_lookup_insert_Some in Hj.
      destruct Hj as [(<- & _ & _)|(_ & Hj)].
      * exists (Build_WavData (cc + 2) [wav_chunk buf]).
        split; [apply in_or_app; right; left; reflexivity|simpl; lia].
      * destruct (Hflag j Hj) as (w0 & Hin & Hclick).
        exists w0. split; [apply in_or_app; left; exact Hin|exact Hclick].
Qed.

Lemma wav_series_ok_ext (cc cc' : Z) (dat dat' : FPODData.t) :
  FPODData.has_wav dat' = FPODData.has_wav dat ->
  FPODData.wav_data dat' = FPODData.wav_data dat ->
  cc <= cc' ->
  wav_series_ok cc dat -> wav_series_ok cc' dat'.
Proof.
  intros Hhw Hwd Hcc (Hall & Hsorted & Hflag).
  unfold wav_series_ok. rewrite Hhw, Hwd.
  split; [|split; assumption].
  eapply Forall_impl; [exact Hall|]. intros w (? & ? & ? & ?).
  split; [assumption|]. split; [assumption|]. split; [lia|assumption].
Qed.

Lemma FPOD_block_series (ext : string) (pic_ver : Z) (buf : list byte)
    (cc cm : Z) (dat : FPODData.t) (cc' cm' : Z) (dat' : FPODData.t) :
  FPOD_block ext pic_ver buf cc cm dat = Some (cc', cm', dat') ->
  wav_series_ok cc dat ->
  wav_series_ok cc' dat' /\
  total_chunks (FPODData.wav_data dat')
  = (total_chunks (FPODData.wav_data dat) + if FPOD_is_wav buf then 1 else 0)%nat.
Proof.
  intros H Hok. unfold FPOD_block in H. unfold FPOD_is_wav.
  destruct (Z.ltb_spec (at_ buf 0) 184) as [Hc|Hc].
  { replace (at_ buf 0 =? 250) with false by (symmetry; apply Z.eqb_neq; lia).
    apply (FPOD_click_frame _ _ _ _ _ _ _ 0) in H.
    destruct H as (-> & -> & Hhw & Hwd & _).
    split; [|rewrite Hwd; lia].
    eapply wav_series_ok_ext; [exact Hhw|exact Hwd| |exact Hok]. lia. }
  destruct (Z.eqb_spec (at_ buf 0) 249) as [E249|_].
  { rewrite E249. cbn [Z.eqb Pos.eqb].
    apply (FPOD_train_frame _ _ _ _ _ _ _ _ 0) in H.
    destruct H as (-> & -> & Hhw & Hwd & _).
    split; [|rewrite Hwd; lia].
    eapply wav_series_ok_ext; [exact Hhw|exact Hwd| |exact Hok]. lia. }
  destruct (Z.eqb_spec (at_ buf 0) 250) as [E250|_].
  { apply FPOD_wav_series in H; [|exact Hok].
    destruct H as [Hok' ->]. split; [exact Hok'|lia]. }
  destruct (Z.eqb_spec (at_ buf 0) 254) as [E254|_].
  { apply (FPOD_minute_frame _ _ _ _ _ _ _ _ 0) in H.
    destruct H as (-> & -> & Hhw & Hwd & _).
    split; [|rewrite Hwd; lia].
    eapply wav_series_ok_ext; [exact Hhw|exact Hwd| |exact Hok]. lia. }
  apply Some_triple_inv in H. destruct H as (<- & <- & <-).
  split; [exact Hok|lia].
Qed.

Lemma getFPODData_loop_series (ext : string) (pic_ver : Z) (data_buf_size : nat)
    (fuel : nat) :
  forall (fid : list byte) (cc cm : Z) (dat : FPODData.t)
         (cc' cm' : Z) (dat' : FPODData.t) (fid' : list byte),
  getFPODData_loop ext pic_ver fuel data_buf_size fid cc cm dat
    = Returns (cc', cm', dat', fid') ->
  wav_series_ok cc dat ->
  wav_series_ok cc' dat' /\
  total_chunks (FPODData.wav_data dat')
  = (total_chunks (FPODData.wav_data dat)
     + length (List.filter FPOD_is_wav (whole_blocks fuel data_buf_size fid)))%nat.
Proof.
  induction fuel as [|fuel IH]; intros fid cc cm dat cc' cm' dat' fid' H Hok;
    [discriminate H|].
  cbn [getFPODData_loop whole_blocks] in *.
  destruct (fid_read fid data_buf_size) as [[buf|] fid1] eqn:Hread.
  2:{ injection H as <- <- <- <-. split; [exact Hok|simpl; lia]. }
  apply fid_read_Some in Hread as [Hlen ->].
  replace (length buf <? data_buf_size)%nat with false in H
    by (symmetry; apply Nat.ltb_ge; lia).
  destruct (FPOD_block ext pic_ver buf cc cm dat) as [[[cc1 cm1] dat1]|] eqn:Hblock;
    [|discriminate H].
  apply FPOD_block_series in Hblock as [Hok1 Hn1]; [|exact Hok].
  apply IH in H; [|exact Hok1]. destruct H as [Hok' Hn'].
  split; [exact Hok'|]. rewrite Hn', Hn1. cbn [List.filter].
  destruct (FPOD_is_wav buf); cbn [length]; lia.
Qed.

(** X13.  The waveform series after [getFPODData] on a new dataset.  Every
    series holds at least one chunk and every chunk 7 pairs; the key of a
    series is a click number between 1 and the number of the click after
    the last one decoded, and that click is flagged [has_wav]; the keys
    increase along the list; every flagged click has a series; and the
    chunks are as many as the waveform blocks (first byte 250) of the
    file. *)
Theorem getFPODData_wav_series (fid : list byte) (ext : string)
    (data_buf_size max_clicks : nat) (pic_ver : Z) (r : Z) (dat' : FPODData.t)
    (fid' : list byte) :
  getFPODData fid ext data_buf_size (FPODData_new max_clicks pic_ver)
    = Returns (r, dat', fid') ->
  wav_series_ok r dat' /\
  total_chunks (FPODData.wav_data dat')
  = length (List.filter FPOD_is_wav (blocks data_buf_size fid)).
Proof.
  unfold getFPODData. intros H.
  destruct (getFPODData_loop ext _ (S (length fid)) data_buf_size fid (-1) (-1) _)
    as [[[[cc cm] dat1] fid1]| |] eqn:Hloop; try discriminate H.
  injection H as <- <- <-.
  apply getFPODData_loop_series in Hloop.
  - destruct Hloop as [Hok Hn]. split; [|exact Hn].
    eapply wav_series_ok_ext; [| | |exact Hok]; [reflexivity|reflexivity|lia].
  - unfold wav_series_ok. cbn [FPODData_new FPODData.wav_data FPODData.has_wav].
    split; [constructor|]. split.
    + intros i j w1 w2 _ Hi. discriminate Hi.
    + intros j Hj. apply lookup_replicate in Hj. destruct Hj; discriminate.
Qed.

Lemma getFPODData_wav_series_witness :
  exists (r : Z) (dat' : FPODData.t) (fid' : list byte),
    getFPODData (fpod_wav_block ++ fpod_click_block) "FP1" 16 (FPODData_new 2 30)
    = Returns (r, dat', fid') /\
    wav_series_ok r dat' /\
    total_chunks (FPODData.wav_data dat')
    = length (List.filter FPOD_is_wav
                (blocks 16 (fpod_wav_block ++ fpod_click_block))).
Proof.
  eexists _, _, _.
  split; [vm_compute; reflexivity|].
  apply (getFPODData_wav_series (fpod_wav_block ++ fpod_click_block) "FP1" 16 2 30
           _ _ _ ltac:(vm_compute; reflexivity)).
Defined.

(** ** Train and waveform blocks precede their click *)

(** The train vectors, the flags and the series after one block. *)
Lemma FPOD_block_annot_cols (ext : string) (pic_ver : Z) (buf : list byte)
    (cc cm : Z) (dat : FPODData.t) (cc' cm' : Z) (dat' : FPODData.t) (n : nat) :
  FPOD_block ext pic_ver buf cc cm dat = Some (cc', cm', dat') ->
  sized n dat ->
  sized n dat' /\
  (FPOD_is_click buf = true -> 0 <= cc + 1 < Z.of_nat n) /\
  (if FPOD_is_train buf then
     0 <= cc + 1 < Z.of_nat n /\
     FPODData.train_id dat'
     = <[Z.to_nat (cc + 1) := at_ buf 15]> (FPODData.train_id dat) /\
     FPODData.species dat'
     = <[Z.to_nat (cc + 1) :=
           getSpeciesFromCode (to_uint8 (Z.land (Z.shiftr (at_ buf 14) 2) 3)) ext]>
         (FPODData.species dat) /\
     FPODData.quality_level dat'
     = <[Z.to_nat (cc + 1) := Z.land (at_ buf 14) 3]> (FPODData.quality_level dat) /\
     FPODData.echo dat'
     = <[Z.to_nat (cc + 1) := Z.land (at_ buf 14) 32 =? 32]> (FPODData.echo dat)
   else
     FPODData.train_id dat' = FPODData.train_id dat /\
     FPODData.species dat' = FPODData.species dat /\
     FPODData.quality_level dat' = FPODData.quality_level dat /\
     FPODData.echo dat' = FPODData.echo dat) /\
  (FPOD_is_wav buf = false ->
   FPODData.has_wav dat' = FPODData.has_wav dat /\
   FPODData.wav_data dat' = FPODData.wav_data dat).
Proof.
  intros H Hs. unfold FPOD_block in H.
  unfold FPOD_is_click, FPOD_is_train, FPOD_is_wav.
  destruct (Z.ltb_spec (at_ buf 0) 184) as [Hc|Hc].
  { replace (at_ buf 0 =? 249) with false by (symmetry; apply Z.eqb_neq; lia).
    unfold FPOD_click in H. bind_inv H.
    apply Some_triple_inv in H. destruct H as (<- & <- & <-).
    split; [revert Hs; unfold sized; simpl; rewrite !length_insert;
            exact (fun Hs => Hs)|].
    split; [intros _; unfold sized in Hs; lia|].
    simpl. split; [repeat apply conj; reflexivity|].
    intros _. split; reflexivity. }
  destruct (Z.eqb_spec (at_ buf 0) 249) as [E249|N249].
  { unfold FPOD_train in H. bind_inv H.
    apply Some_triple_inv in H. destruct H as (<- & <- & <-).
    split; [revert Hs; unfold sized; simpl; rewrite !length_insert;
            exact (fun Hs => Hs)|].
    split; [discriminate|].
    simpl. split; [|intros _; split; reflexivity].
    split; [unfold sized in Hs; lia|]. repeat (split; [reflexivity|]). reflexivity. }
  destruct (Z.eqb_spec (at_ buf 0) 250) as [E250|N250].
  { split; [|split; [discriminate|split; [|discriminate]]].
    - unfold FPOD_wav in H.
      destruct (read col.has_wav (cc + 1) dat) as [has|]; [|discriminate H].
      cbn [mbind option_bind] in H.
      destruct has; cbn [negb mbind option_bind] in H.
      + destruct (update_back _ (FPODData.wav_data dat)) as [wd|]; [|discriminate H].
        cbn [mbind option_bind] in H.
        apply Some_triple_inv in H. destruct H as (<- & <- & <-). exact Hs.
      + destruct (write col.has_wav (cc + 1) true dat) as [dat1|] eqn:Hw;
          [|discriminate H].
        apply write_inv in Hw as (_ & _ & ->). cbn [mbind option_bind] in H.
        destruct (update_back _ _) as [wd|]; [|discriminate H].
        cbn [mbind option_bind] in H.
        apply Some_triple_inv in H. destruct H as (<- & <- & <-).
        revert Hs. unfold sized. simpl. rewrite !length_insert. exact (fun Hs => Hs).
    - unfold FPOD_wav in H.
      destruct (read col.has_wav (cc + 1) dat) as [has|]; [|discriminate H].
      cbn [mbind option_bind] in H.
      destruct has; cbn [negb mbind option_bind] in H.
      + destruct (update_back _ (FPODData.wav_data dat)) as [wd|]; [|discriminate H].
        cbn [mbind option_bind] in H.
        apply Some_triple_inv in H. destruct H as (<- & <- & <-).
        repeat (split; [reflexivity|]). reflexivity.
      + destruct (write col.has_wav (cc + 1) true dat) as [dat1|] eqn:Hw;
          [|discriminate H].
        apply write_inv in Hw as (_ & _ & ->). cbn [mbind option_bind] in H.
        destruct (update_back _ _) as [wd|]; [|discriminate H].
        cbn [mbind option_bind] in H.
        apply Some_triple_inv in H. destruct H as (<- & <- & <-).
        repeat (split; [reflexivity|]). reflexivity. }
  split; [|split; [discriminate|split; [|intros _]]].
  - destruct (at_ buf 0 =? 254).
    + apply (FPOD_minute_frame _ _ _ _ _ _ _ _ n) in H.
      destruct H as (_ & _ & _ & _ & Hs'). auto.
    + apply Some_triple_inv in H. destruct H as (<- & <- & <-). exact Hs.
  - destruct (at_ buf 0 =? 254).
    + unfold FPOD_minute in H.
      destruct ((pic_ver <? 28) && (at_ buf 11 =? 0) && negb (at_ buf 13 =? 0));
        apply Some_triple_inv in H; destruct H as (<- & <- & <-);
        repeat (split; [reflexivity|]); reflexivity.
    + apply Some_triple_inv in H. destruct H as (<- & <- & <-).
      repeat (split; [reflexivity|]); reflexivity.
  - destruct (at_ buf 0 =? 254).
    + apply (FPOD_minute_frame _ _ _ _ _ _ _ _ n) in H.
      destruct H as (_ & _ & Hhw & Hwd & _). auto.
    + apply Some_triple_inv in H. destruct H as (<- & <- & <-). auto.
Qed.

Lemma FPOD_kinds (buf : list byte) :
  (FPOD_is_click buf = true -> FPOD_is_train buf = false /\ FPOD_is_wav buf = false) /\
  (FPOD_is_train buf = true -> FPOD_is_wav buf = false).
Proof.
  unfold FPOD_is_click, FPOD_is_train, FPOD_is_wav. split.
  - intros H. apply Z.ltb_lt in H. split; apply Z.eqb_neq; lia.
  - intros H. apply Z.eqb_eq in H. apply Z.eqb_neq. lia.
Qed.

Lemma FPOD_annotation_ext (ext : string) (group : list (list byte))
    (dat dat' : FPODData.t) (j : nat) :
  FPODData.train_id dat' !! j = FPODData.train_id dat !! j ->
  FPODData.species dat' !! j = FPODData.species dat !! j ->
  FPODData.quality_level dat' !! j = FPODData.quality_level dat !! j ->
  FPODData.echo dat' !! j = FPODData.echo dat !! j ->
  FPODData.has_wav dat' !! j = FPODData.has_wav dat !! j ->
  FPOD_annotation ext group dat j -> FPOD_annotation ext group dat' j.
Proof.
  unfold FPOD_annotation. intros -> -> -> -> ->. exact (fun H => H).
Qed.

Lemma FPOD_annotation_snoc (ext : string) (group : list (list byte))
    (buf : list byte) (dat : FPODData.t) (j : nat) :
  FPOD_is_train buf = false -> FPOD_is_wav buf = false ->
  FPOD_annotation ext group dat j -> FPOD_annotation ext (group ++ [buf]) dat j.
Proof.
  unfold FPOD_annotation. intros Ht Hw.
  rewrite List.filter_app, existsb_app. cbn [List.filter existsb].
  rewrite Ht, Hw, app_nil_r, !orb_false_r. exact (fun H => H).
Qed.

Lemma FPOD_series_of_snoc (click_no : Z) (group : list (list byte))
    (buf : list byte) :
  FPOD_is_wav buf = false ->
  FPOD_series_of click_no (group ++ [buf]) = FPOD_series_of click_no group.
Proof.
  unfold FPOD_series_of. intros Hw.
  rewrite List.filter_app, existsb_app. cbn [List.filter existsb].
  rewrite Hw, app_nil_r, !orb_false_r. reflexivity.
Qed.

Lemma filter_none {A : Type} (f : A -> bool) (l : list A) :
  existsb f l = false -> List.filter f l = [].
Proof.
  induction l as [|x l IH]; [reflexivity|]. cbn [existsb List.filter].
  destruct (f x); [discriminate|]. exact IH.
Qed.

Lemma FPOD_series_of_wav (click_no : Z) (group : list (list byte))
    (buf : list byte) :
  FPOD_is_wav buf = true ->
  FPOD_series_of click_no (group ++ [buf])
  = [Build_WavData click_no
       (map wav_chunk (List.filter FPOD_is_wav group) ++ [wav_chunk buf])].
Proof.
  unfold FPOD_series_of. intros Hw.
  rewrite List.filter_app, existsb_app. cbn [List.filter existsb].
  rewrite Hw, orb_true_r, map_app. reflexivity.
Qed.

(** One block keeps the invariant, with the block added to the pending
    ones, or with none pending after a click. *)
Lemma FPOD_block_pending (ext : string) (pic_ver : Z) (buf : list byte)
    (cc cm : Z) (dat : FPODData.t) (cc' cm' : Z) (dat' : FPODData.t) (n : nat)
    (pending : list (list byte)) (W : list WavData) :
  FPOD_block ext pic_ver buf cc cm dat = Some (cc', cm', dat') ->
  FPOD_pending_inv ext n cc pending dat ->
  FPODData.wav_data dat = W ++ FPOD_series_of (cc + 2) pending ->
  cc' = cc + (if FPOD_is_click buf then 1 else 0) /\
  FPOD_pending_inv ext n cc' (if FPOD_is_click buf then [] else pending ++ [buf]) dat' /\
  FPODData.wav_data dat'
  = (if FPOD_is_click buf then W ++ FPOD_series_of (cc + 2) pending else W)
    ++ FPOD_series_of (cc' + 2) (if FPOD_is_click buf then [] else pending ++ [buf]) /\
  (forall (j : nat) (group : list (list byte)),
     Z.of_nat j <= cc -> FPOD_annotation ext group dat j ->
     FPOD_annotation ext group dat' j) /\
  (FPOD_is_click buf = true ->
   0 <= cc + 1 /\ FPOD_annotation ext pending dat' (Z.to_nat (cc + 1))).
Proof.
  intros H (Hcc & Hs & Hrows) Hwd.
  pose proof (FPOD_block_counts _ _ _ _ _ _ _ _ _ H) as (Hcc' & _).
  pose proof (FPOD_block_annot_cols _ _ _ _ _ _ _ _ _ n H Hs)
    as (Hs' & Hroom & Htrain & Hwav).
  destruct (FPOD_kinds buf) as [Hkc Hkt].
  split; [exact Hcc'|].
  destruct (FPOD_is_click buf) eqn:Hc.
  { destruct (Hkc eq_refl) as [Ht Hw]. rewrite Ht in Htrain.
    destruct Htrain as (E1 & E2 & E3 & E4). destruct (Hwav Hw) as [E5 E6].
    destruct (Hroom eq_refl) as [Hlo Hhi]. subst cc'.
    assert (Hext : forall g j, FPOD_annotation ext g dat j ->
                               FPOD_annotation ext g dat' j).
    { intros g j. apply FPOD_annotation_ext; congruence. }
    split; [|split; [|split; [|intros _; split]]].
    - split; [lia|]. split; [exact Hs'|]. intros j Hj Hge.
      apply Hext. specialize (Hrows j Hj ltac:(lia)).
      destruct (Z.eqb_spec (Z.of_nat j) (cc + 1)); [lia|].
      destruct (Z.of_nat j =? cc + 1 + 1); exact Hrows.
    - rewrite E6, Hwd. unfold FPOD_series_of at 2. cbn [existsb].
      rewrite app_nil_r. reflexivity.
    - intros j g _. apply Hext.
    - exact Hlo.
    - apply Hext. specialize (Hrows (Z.to_nat (cc + 1)) ltac:(lia) ltac:(lia)).
      destruct (Z.eqb_spec (Z.of_nat (Z.to_nat (cc + 1))) (cc + 1)); [|lia].
      exact Hrows. }
  clear Hroom Hkc. replace cc' with cc in * by lia. clear Hcc'.
  destruct (FPOD_is_train buf) eqn:Ht.
  { pose proof (Hkt eq_refl) as Hw. destruct (Hwav Hw) as [E5 E6].
    destruct Htrain as ((Hlo & Hhi) & E1 & E2 & E3 & E4).
    pose proof Hs as Hs0. unfold sized in Hs0.
    destruct Hs0 as
      (? & ? & ? & ? & ? & ? & ? & ? & ? & ? & ? & ? & ? & ? & ? & ? & ?).
    assert (Hother : forall g (j : nat), Z.of_nat j <> cc + 1 ->
              FPOD_annotation ext g dat j -> FPOD_annotation ext g dat' j).
    { intros g j Hj. apply FPOD_annotation_ext;
        rewrite ?E1, ?E2, ?E3, ?E4, ?E5, ?list_lookup_insert_ne by lia; reflexivity. }
    split; [|split; [|split; [|discriminate]]].
    - split; [exact Hcc|]. split; [exact Hs'|]. intros j Hj Hge.
      specialize (Hrows j Hj Hge).
      destruct (Z.eqb_spec (Z.of_nat j) (cc + 1)) as [Ej|Nj].
      + replace j with (Z.to_nat (cc + 1)) in * by lia.
        unfold FPOD_annotation in Hrows |- *.
        rewrite List.filter_app, existsb_app. cbn [List.filter existsb].
        rewrite Ht, Hw, orb_false_r, last_snoc.
        rewrite E1, E2, E3, E4, E5, !list_lookup_insert_eq by lia.
        split; [repeat apply conj; reflexivity|apply Hrows].
      + apply Hother; assumption.
    - rewrite E6, Hwd, FPOD_series_of_snoc by exact Hw. reflexivity.
    - intros j g Hj. apply Hother. lia. }
  destruct Htrain as (E1 & E2 & E3 & E4).
  destruct (FPOD_is_wav buf) eqn:Hw.
  { assert (Hv : FPOD_wav buf cc cm dat = Some (cc, cm', dat')).
    { unfold FPOD_block in H. unfold FPOD_is_click in Hc. rewrite Hc in H.
      unfold FPOD_is_train in Ht. rewrite Ht in H.
      unfold FPOD_is_wav in Hw. rewrite Hw in H. exact H. }
    apply FPOD_wav_inv in Hv as (_ & _ & Hlo & has & Hhas & E5 & E6).
    assert (Hlt : (Z.to_nat (cc + 1) < length (FPODData.has_wav dat))%nat)
      by (eapply lookup_lt_Some; exact Hhas).
    assert (Hn : (Z.to_nat (cc + 1) < n)%nat) by (unfold sized in Hs; lia).
    assert (Hother : forall g (j : nat), Z.of_nat j <> cc + 1 ->
              FPOD_annotation ext g dat j -> FPOD_annotation ext g dat' j).
    { intros g j Hj. apply FPOD_annotation_ext;
        rewrite ?E1, ?E2, ?E3, ?E4, ?E5, ?list_lookup_insert_ne by lia; reflexivity. }
    pose proof (Hrows (Z.to_nat (cc + 1)) Hn ltac:(lia)) as Hrow.
    destruct (Z.eqb_spec (Z.of_nat (Z.to_nat (cc + 1))) (cc + 1)); [|lia].
    split; [|split; [|split; [|discriminate]]].
    - split; [exact Hcc|]. split; [exact Hs'|]. intros j Hj Hge.
      specialize (Hrows j Hj Hge).
      destruct (Z.eqb_spec (Z.of_nat j) (cc + 1)) as [Ej|Nj].
      + replace j with (Z.to_nat (cc + 1)) in * by lia.
        unfold FPOD_annotation in Hrows |- *.
        rewrite List.filter_app, existsb_app. cbn [List.filter existsb].
        rewrite Ht, Hw, app_nil_r, orb_true_r.
        rewrite E1, E2, E3, E4, E5, list_lookup_insert_eq by lia.
        split; [apply Hrows|reflexivity].
      + apply Hother; assumption.
    - rewrite FPOD_series_of_wav by exact Hw.
      destruct Hrow as [_ Hflag]. rewrite Hhas in Hflag. injection Hflag as ->.
      unfold FPOD_series_of in Hwd.
      destruct (existsb FPOD_is_wav pending) eqn:Hex.
      + destruct E6 as (ws & w & Hdat & ->). rewrite Hdat in Hwd.
        apply app_inj_tail in Hwd as [-> ->]. reflexivity.
      + rewrite E6, Hwd, app_nil_r, (filter_none _ _ Hex). reflexivity.
    - intros j g Hj. apply Hother. lia. }
  destruct (Hwav eq_refl) as [E5 E6].
  assert (Hext : forall g j, FPOD_annotation ext g dat j ->
                             FPOD_annotation ext g dat' j).
  { intros g j. apply FPOD_annotation_ext; congruence. }
  split; [|split; [|split; [|discriminate]]].
  - split; [exact Hcc|]. split; [exact Hs'|]. intros j Hj Hge.
    specialize (Hrows j Hj Hge). apply Hext.
    destruct (Z.of_nat j =? cc + 1); [|exact Hrows].
    apply FPOD_annotation_snoc; assumption.
  - rewrite E6, Hwd, FPOD_series_of_snoc by exact Hw. reflexivity.
  - intros j g _. apply Hext.
Qed.

Lemma getFPODData_loop_pending (ext : string) (pic_ver : Z)
    (data_buf_size n : nat) (fuel : nat) :
  forall (fid : list byte) (cc cm : Z) (dat : FPODData.t)
         (cc' cm' : Z) (dat' : FPODData.t) (fid' : list byte)
         (pending : list (list byte)) (W : list WavData),
  getFPODData_loop ext pic_ver fuel data_buf_size fid cc cm dat
    = Returns (cc', cm', dat', fid') ->
  FPOD_pending_inv ext n cc pending dat ->
  FPODData.wav_data dat = W ++ FPOD_series_of (cc + 2) pending ->
  (forall (j : nat) (group : list (list byte)),
     Z.of_nat j <= cc -> FPOD_annotation ext group dat j ->
     FPOD_annotation ext group dat' j) /\
  (forall (i : nat) (group : list (list byte)),
     FPOD_groups pending (whole_blocks fuel data_buf_size fid) !! i = Some group ->
     FPOD_annotation ext group dat' (Z.to_nat (cc + 1) + i)) /\
  FPODData.wav_data dat'
  = W ++ FPOD_series (cc + 2)
           (FPOD_groups pending (whole_blocks fuel data_buf_size fid)
            ++ [FPOD_rest pending (whole_blocks fuel data_buf_size fid)]).
Proof.
  induction fuel as [|fuel IH];
    intros fid cc cm dat cc' cm' dat' fid' pending W H Hinv Hwd; [discriminate H|].
  cbn [getFPODData_loop whole_blocks] in *.
  destruct (fid_read fid data_buf_size) as [[buf|] fid1] eqn:Hread.
  2:{ injection H as <- <- <- <-. split; [auto|]. split.
      - intros i g Hi. discriminate Hi.
      - cbn [FPOD_groups FPOD_rest FPOD_series app]. rewrite app_nil_r. exact Hwd. }
  apply fid_read_Some in Hread as [Hlen ->].
  replace (length buf <? data_buf_size)%nat with false in H
    by (symmetry; apply Nat.ltb_ge; lia).
  destruct (FPOD_block ext pic_ver buf cc cm dat) as [[[cc1 cm1] dat1]|] eqn:Hblock;
    [|discriminate H].
  destruct (FPOD_block_pending _ _ _ _ _ _ _ _ _ n pending W Hblock Hinv Hwd)
    as (Hcc1 & Hinv1 & Hwd1 & Hkeep & Hclick).
  destruct Hinv as (Hcc & _).
  cbn [FPOD_groups FPOD_rest].
  destruct (FPOD_is_click buf).
  - destruct (Hclick eq_refl) as (Hlo & Hrow).
    destruct (IH _ _ _ _ _ _ _ _ _ _ H Hinv1 Hwd1) as (Hkeep' & Hrows & Hwd').
    split; [|split].
    + intros j g Hj Hr. apply Hkeep'; [lia|]. apply Hkeep; assumption.
    + intros [|i] g Hi.
      * injection Hi as <-. rewrite Nat.add_0_r. apply Hkeep'; [lia|exact Hrow].
      * cbn in Hi. apply Hrows in Hi.
        replace (Z.to_nat (cc + 1) + S i)%nat with (Z.to_nat (cc1 + 1) + i)%nat by lia.
        exact Hi.
    + rewrite Hwd'. cbn [app FPOD_series]. rewrite <- app_assoc.
      replace (cc1 + 2) with (cc + 2 + 1) by lia. reflexivity.
  - replace cc1 with cc in * by lia.
    destruct (IH _ _ _ _ _ _ _ _ _ _ H Hinv1 Hwd1) as (Hkeep' & Hrows & Hwd').
    split; [|split].
    + intros j g Hj Hr. apply Hkeep'; [lia|]. apply Hkeep; assumption.
    + exact Hrows.
    + exact Hwd'.
Qed.

Lemma FPODData_new_pending (ext : string) (n : nat) (pic_ver : Z) :
  FPOD_pending_inv ext n (-1) [] (FPODData_new n pic_ver).
Proof.
  split; [lia|]. split; [apply FPODData_new_sized|].
  intros j Hj _.
  assert (Hrow : FPOD_annotation ext [] (FPODData_new n pic_ver) j).
  { unfold FPOD_annotation. cbn.
    rewrite !lookup_replicate_2 by exact Hj. repeat apply conj; reflexivity. }
  destruct (Z.of_nat j =? -1 + 1); exact Hrow.
Qed.

(** X14.  Train and waveform blocks are about the next click.  After
    [getFPODData] on a new dataset, the row of the [i]th click block of the
    file holds the train id, species, quality level and echo flag of the
    last train block (first byte 249) read since the click block before it,
    and zero, the empty string, zero and [FALSE] when there is none; its
    flag [has_wav] tells whether a waveform block (first byte 250) was read
    since the click block before it. *)
Theorem getFPODData_annotations (fid : list byte) (ext : string)
    (data_buf_size max_clicks : nat) (pic_ver : Z) (r : Z) (dat' : FPODData.t)
    (fid' : list byte) :
  getFPODData fid ext data_buf_size (FPODData_new max_clicks pic_ver)
    = Returns (r, dat', fid') ->
  forall (i : nat) (group : list (list byte)),
    FPOD_groups [] (blocks data_buf_size fid) !! i = Some group ->
    FPOD_annotation ext group dat' i.
Proof.
  unfold getFPODData. intros H i group Hi.
  destruct (getFPODData_loop ext _ (S (length fid)) data_buf_size fid (-1) (-1) _)
    as [[[[cc cm] dat1] fid1]| |] eqn:Hloop; try discriminate H.
  injection H as <- <- <-.
  apply (getFPODData_loop_pending _ _ _ max_clicks _ _ _ _ _ _ _ _ _ [] [])
    in Hloop; [|apply FPODData_new_pending|reflexivity].
  destruct Hloop as (_ & Hrows & _).
  apply Hrows in Hi. exact Hi.
Qed.

Lemma getFPODData_annotations_witness :
  exists (r : Z) (dat' : FPODData.t) (fid' : list byte),
    getFPODData (fpod_train_block ++ fpod_click_block) "FP3" 16 (FPODData_new 2 30)
    = Returns (r, dat', fid') /\
    FPOD_groups [] (blocks 16 (fpod_train_block ++ fpod_click_block)) !! 0%nat
    = Some [fpod_train_block] /\
    FPOD_annotation "FP3" [fpod_train_block] dat' 0.
Proof.
  eexists _, _, _.
  split; [vm_compute; reflexivity|].
  split; [vm_compute; reflexivity|].
  apply (getFPODData_annotations (fpod_train_block ++ fpod_click_block) "FP3" 16 2 30
           _ _ _ ltac:(vm_compute; reflexivity) 0 [fpod_train_block]).
  vm_compute; reflexivity.
Defined.

(** X15.  The waveform series that [getFPODData] builds on a new dataset, in
    full: one series for every click block that waveform blocks precede,
    in the order of the clicks, keyed by the number of the click (its index
    plus one), its chunks those of the waveform blocks read since the click
    block before it, in the order read; and a last series, keyed by the
    number after the last click, when waveform blocks follow the last
    click block. *)
Theorem getFPODData_wav_data (fid : list byte) (ext : string)
    (data_buf_size max_clicks : nat) (pic_ver : Z) (r : Z) (dat' : FPODData.t)
    (fid' : list byte) :
  getFPODData fid ext data_buf_size (FPODData_new max_clicks pic_ver)
    = Returns (r, dat', fid') ->
  FPODData.wav_data dat'
  = FPOD_series 1 (FPOD_groups [] (blocks data_buf_size fid)
                   ++ [FPOD_rest [] (blocks data_buf_size fid)]).
Proof.
  unfold getFPODData. intros H.
  destruct (getFPODData_loop ext _ (S (length fid)) data_buf_size fid (-1) (-1) _)
    as [[[[cc cm] dat1] fid1]| |] eqn:Hloop; try discriminate H.
  injection H as <- <- <-.
  apply (getFPODData_loop_pending _ _ _ max_clicks _ _ _ _ _ _ _ _ _ [] [])
    in Hloop; [|apply FPODData_new_pending|reflexivity].
  destruct Hloop as (_ & _ & Hwd). exact Hwd.
Qed.

Lemma getFPODData_wav_data_witness :
  exists (r : Z) (dat' : FPODData.t) (fid' : list byte),
    getFPODData (fpod_wav_block ++ fpod_click_block) "FP1" 16 (FPODData_new 2 30)
    = Returns (r, dat', fid') /\
    FPODData.wav_data dat'
    = FPOD_series 1 (FPOD_groups [] (blocks 16 (fpod_wav_block ++ fpod_click_block))
                     ++ [FPOD_rest [] (blocks 16 (fpod_wav_block ++ fpod_click_block))]).
Proof.
  eexists _, _, _.
  split; [vm_compute; reflexivity|].
  apply (getFPODData_wav_data (fpod_wav_block ++ fpod_click_block) "FP1" 16 2 30
           _ _ _ ltac:(vm_compute; reflexivity)).
Defined.

(** ** Vectors that a decoder never writes *)

Lemma FPOD_block_untouched (ext : string) (pic_ver : Z) (buf : list byte)
    (cc cm : Z) (dat : FPODData.t) (cc' cm' : Z) (dat' : FPODData.t) :
  FPOD_block ext pic_ver buf cc cm dat = Some (cc', cm', dat') ->
  FPODData.khz dat' = FPODData.khz dat /\
  FPODData.click_no dat' = FPODData.click_no dat.
Proof.
  unfold FPOD_block. intros H.
  destruct (at_ buf 0 <? 184).
  { unfold FPOD_click in H. bind_inv H.
    apply Some_triple_inv in H. destruct H as (<- & <- & <-). split; reflexivity. }
  destruct (at_ buf 0 =? 249).
  { unfold FPOD_train in H. bind_inv H.
    apply Some_triple_inv in H. destruct H as (<- & <- & <-). split; reflexivity. }
  destruct (at_ buf 0 =? 250).
  { unfold FPOD_wav in H.
    destruct (read col.has_wav (cc + 1) dat) as [has|]; [|discriminate H].
    cbn [mbind option_bind] in H.
    destruct has; cbn [negb mbind option_bind] in H.
    - destruct (update_back _ (FPODData.wav_data dat)) as [wd|]; [|discriminate H].
      cbn [mbind option_bind] in H.
      apply Some_triple_inv in H. destruct H as (<- & <- & <-). split; reflexivity.
    - destruct (write col.has_wav (cc + 1) true dat) as [dat1|] eqn:Hw;
        [|discriminate H].
      apply write_inv in Hw as (_ & _ & ->). cbn [mbind option_bind] in H.
      destruct (update_back _ _) as [wd|]; [|discriminate H].
      cbn [mbind option_bind] in H.
      apply Some_triple_inv in H. destruct H as (<- & <- & <-). split; reflexivity. }
  destruct (at_ buf 0 =? 254).
  { unfold FPOD_minute in H.
    destruct ((pic_ver <? 28) && (at_ buf 11 =? 0) && negb (at_ buf 13 =? 0));
      apply Some_triple_inv in H; destruct H as (<- & <- & <-); split; reflexivity. }
  apply Some_triple_inv in H. destruct H as (<- & <- & <-). split; reflexivity.
Qed.

Lemma getFPODData_loop_untouched (ext : string) (pic_ver : Z)
    (data_buf_size : nat) (fuel : nat) :
  forall (fid : list byte) (cc cm : Z) (dat : FPODData.t)
         (cc' cm' : Z) (dat' : FPODData.t) (fid' : list byte),
  getFPODData_loop ext pic_ver fuel data_buf_size fid cc cm dat
    = Returns (cc', cm', dat', fid') ->
  FPODData.khz dat' = FPODData.khz dat /\
  FPODData.click_no dat' = FPODData.click_no dat.
Proof.
  induction fuel as [|fuel IH]; intros fid cc cm dat cc' cm' dat' fid' H;
    [discriminate H|].
  cbn [getFPODData_loop] in H.
  destruct (fid_read fid data_buf_size) as [[buf|] fid1].
  2:{ injection H as <- <- <- <-. split; reflexivity. }
  destruct (length buf <? data_buf_size)%nat.
  { injection H as <- <- <- <-. split; reflexivity. }
  destruct (FPOD_block ext pic_ver buf cc cm dat) as [[[cc1 cm1] dat1]|] eqn:Hblock;
    [|discriminate H].
  apply FPOD_block_untouched in Hblock as [<- <-].
  eapply IH. exact H.
Qed.

(** X16.  [getFPODData] never writes the vector [khz], nor [click_no]: on
    the dataset built for [max_clicks] clicks, the frequency of every click
    of an FPOD file stays 0 and the click numbers stay 1, 2, ...,
    [max_clicks]. *)
Theorem getFPODData_khz_untouched (fid : list byte) (ext : string)
    (data_buf_size max_clicks : nat) (pic_ver : Z) (r : Z) (dat' : FPODData.t)
    (fid' : list byte) :
  getFPODData fid ext data_buf_size (FPODData_new max_clicks pic_ver)
    = Returns (r, dat', fid') ->
  FPODData.khz dat' = replicate max_clicks 0 /\
  FPODData.click_no dat' = map Z.of_nat (seq 1 max_clicks).
Proof.
  unfold getFPODData. intros H.
  destruct (getFPODData_loop ext _ (S (length fid)) data_buf_size fid (-1) (-1) _)
    as [[[[cc cm] dat1] fid1]| |] eqn:Hloop; try discriminate H.
  injection H as <- <- <-.
  apply getFPODData_loop_untouched in Hloop as [Hk Hc].
  cbn [FPODData.set_last_click FPODData.khz FPODData.click_no].
  rewrite Hk, Hc. split; reflexivity.
Qed.

Lemma getFPODData_khz_untouched_witness :
  exists (r : Z) (dat' : FPODData.t) (fid' : list byte),
    getFPODData (fpod_minute_block ++ fpod_click_block) "FP1" 16 (FPODData_new 2 30)
    = Returns (r, dat', fid') /\
    FPODData.khz dat' = replicate 2 0 /\
    FPODData.click_no dat' = map Z.of_nat (seq 1 2).
Proof.
  eexists _, _, _.
  split; [vm_compute; reflexivity|].
  apply (getFPODData_khz_untouched (fpod_minute_block ++ fpod_click_block) "FP1" 16
           2 30 _ _ _ ltac:(vm_compute; reflexivity)).
Defined.





(** ** Fields of the FPOD header that overlap *)

(** X18.  In the header of an FP3 file the field [clicks_in_fp1], 8 bytes
    from offset 231, overlaps the text [gmt_text], 11 bytes from offset
    232: its value is byte 231 followed by the first 7 characters of
    [gmt_text], read as a big-endian number of 64 bits in two's
    complement. *)
Theorem getFPODHeader_clicks_in_fp1 (buf : list byte)
    (header : list (string * header_value)) :
  getFPODHeader buf "FP3" = Some header ->
  exists gmt : string,
    List_get "gmt_text" header = Some (character gmt) /\
    list_byte_of_string gmt = take 11 (drop 232 buf) /\
    List_get "clicks_in_fp1" header
    = Some (integer
              (wrap int64_t
                 (big_endian (take 1 (drop 231 buf)
                              ++ take 7 (list_byte_of_string gmt))))).
Proof.
  intros H.
  assert (Hlen : (243 <= length buf)%nat).
  { unfold getFPODHeader in H. header_inv H. lia. }
  unfold getFPODHeader in H.
  rewrite !byte_at_Some, !parseString_Some in H by lia.
  cbn [mbind option_bind] in H.
  exists (string_of_list_byte (take 11 (drop 232 buf))).
  rewrite list_byte_of_string_of_list_byte.
  assert (Hfield : constructInt int64_t buf 231 8
                   = wrap int64_t
                       (big_endian (take 1 (drop 231 buf)
                                    ++ take 7 (take 11 (drop 232 buf))))).
  { rewrite take_take. change (7 `min` 11)%nat with 7%nat.
    replace (drop 232 buf) with (drop 1 (drop 231 buf))
      by (rewrite drop_drop; reflexivity).
    rewrite take_take_drop. change (1 + 7)%nat with 8%nat.
    unfold constructInt, big_endian.
    destruct (Z.ltb_spec (Z.of_nat 231 + Z.of_nat 8) (Z.of_nat (length buf)));
      [|lia].
    change 0 with (wrap int64_t 0) at 1.
    rewrite (constructInt_fold_wrap int64_t buf 231 8 0 0) by lia.
    rewrite Nat.add_0_r. reflexivity. }
  rewrite <- Hfield.
  destruct (Z.lor (Z.shiftl (at_ buf 39) 8) (at_ buf 40) >? 0);
    injection H as <-; repeat apply conj; reflexivity.
Qed.

Lemma getFPODHeader_clicks_in_fp1_witness :
  exists (header : list (string * header_value)) (gmt : string),
    getFPODHeader (repeat x00 231 ++ repeat x01 13) "FP3" = Some header /\
    List_get "gmt_text" header = Some (character gmt) /\
    list_byte_of_string gmt = take 11 (drop 232 (repeat x00 231 ++ repeat x01 13)) /\
    List_get "clicks_in_fp1" header
    = Some (integer
              (wrap int64_t
                 (big_endian (take 1 (drop 231 (repeat x00 231 ++ repeat x01 13))
                              ++ take 7 (list_byte_of_string gmt))))).
Proof.
  eexists.
  destruct (getFPODHeader_clicks_in_fp1 (repeat x00 231 ++ repeat x01 13) _
              ltac:(vm_compute; reflexivity)) as (gmt & H1 & H2 & H3).
  exists gmt. split; [vm_compute; reflexivity|]. auto.
Defined.

(** ** When reading an FPOD file is defined *)


Lemma wavToList_overflows (wav_data : list WavData) :
  (3 * length wav_data < total_chunks wav_data)%nat ->
  wavToList wav_data = None.
Proof.
  intros Hmany. unfold wavToList.
  destruct (for_each wav_rows wav_data _) as [t|] eqn:Hloop; [|reflexivity].
  exfalso. apply for_each_wavs in Hloop; [|simpl; lia].
  simpl in Hloop. rewrite length_replicate in Hloop. lia.
Qed.



(** ** Terminator blocks in the CPOD decoder *)

(** One block that does not leave the loop: the counter of terminators and
    the size of the vectors afterwards. *)
Lemma CPOD_block_continue (ext : string) (data_buf_size : nat) (buf : list byte)
    (cc cm fe : Z) (dat : FPODData.t) (cc' cm' fe' : Z) (dat' : FPODData.t)
    (n : nat) :
  CPOD_block ext data_buf_size buf cc cm fe dat = Some (Continue cc' cm' fe' dat') ->
  sized n dat ->
  fe' = (if eof buf then fe + 1 else 0) /\
  (eof buf = true -> fe + 1 <> 2) /\
  sized n dat' /\ cc <= cc'.
Proof.
  intros H Hs. unfold CPOD_block in H.
  assert (Hgo : forall fe1,
    (if negb (at_ buf (last_byte data_buf_size) =? 254) then
       '(cc1, cm1, dat1) ← CPOD_click ext buf cc cm dat;
       Some (Continue cc1 cm1 fe1 dat1)
     else if at_ buf (last_byte data_buf_size) =? 254 then
       Some (Continue cc (cm + 1) fe1 dat)
     else Some (Continue cc cm fe1 dat)) = Some (Continue cc' cm' fe' dat') ->
    fe' = fe1 /\ sized n dat' /\ cc <= cc').
  { intros fe1 Hrun.
    destruct (at_ buf (last_byte data_buf_size) =? 254); cbn [negb] in Hrun.
    - injection Hrun as <- <- <- <-. split; [reflexivity|]. split; [exact Hs|lia].
    - destruct (CPOD_click ext buf cc cm dat) as [[[cc1 cm1] dat1]|] eqn:Hclick;
        cbn [mbind option_bind] in Hrun; [|discriminate Hrun].
      injection Hrun as <- <- <- <-.
      apply (CPOD_click_frame _ _ _ _ _ _ _ _ n) in Hclick; [|exact Hs].
      destruct Hclick as (-> & _ & Hs' & _).
      split; [reflexivity|]. split; [exact Hs'|lia]. }
  destruct (eof buf).
  - destruct (Z.eqb_spec (fe + 1) 2) as [|Hne]; [discriminate H|].
    apply Hgo in H as (-> & Hs' & Hcc). auto.
  - apply Hgo in H as (-> & Hs' & Hcc).
    split; [reflexivity|]. split; [discriminate|]. auto.
Qed.

Lemma after_terminator_snoc (read : list (list byte)) (buf : list byte) :
  after_terminator (read ++ [buf]) = eof buf.
Proof. unfold after_terminator. rewrite last_snoc. reflexivity. Qed.

(** In every state that the loop reaches from a new dataset, [file_ends] is
    1 when the block read last was a terminator block, and 0 otherwise. *)
Lemma CPOD_reach_file_ends (ext : string) (data_buf_size n : nat) (pic_ver : Z)
    (read : list (list byte)) (cc cm fe : Z) (dat : FPODData.t) :
  CPOD_reach ext data_buf_size (FPODData_new n pic_ver) read cc cm fe dat ->
  fe = (if after_terminator read then 1 else 0) /\ sized n dat /\ -1 <= cc.
Proof.
  induction 1 as [|read buf cc cm fe dat cc' cm' fe' dat' _ IH Hlen Hblock].
  - split; [reflexivity|]. split; [apply FPODData_new_sized|lia].
  - destruct IH as (Hfe & Hs & Hcc).
    apply (CPOD_block_continue _ _ _ _ _ _ _ _ _ _ _ n) in Hblock; [|exact Hs].
    destruct Hblock as (-> & Hstop & Hs' & Hcc').
    rewrite after_terminator_snoc.
    split; [|split; [exact Hs'|lia]].
    destruct (eof buf); [|reflexivity].
    specialize (Hstop eq_refl).
    destruct (after_terminator read); lia.
Qed.

(** The states reached are those of the loop on a file that begins with the
    blocks read. *)
Lemma CPOD_reach_loop (ext : string) (data_buf_size : nat) (dat0 : FPODData.t)
    (read : list (list byte)) (cc cm fe : Z) (dat : FPODData.t) :
  CPOD_reach ext data_buf_size dat0 read cc cm fe dat ->
  forall (fid : list byte) (fuel : nat),
  getCPODData_loop ext data_buf_size (length read + fuel) (concat read ++ fid)
    (-1) (-1) 0 dat0
  = getCPODData_loop ext data_buf_size fuel fid cc cm fe dat.
Proof.
  induction 1 as [|read buf cc cm fe dat cc' cm' fe' dat' _ IH Hlen Hblock];
    intros fid fuel; [reflexivity|].
  rewrite concat_app, length_app. cbn [concat length]. rewrite app_nil_r.
  rewrite <- app_assoc.
  replace (length read + 1 + fuel)%nat with (length read + S fuel)%nat by lia.
  rewrite IH, getCPODData_loop_block by exact Hlen.
  rewrite Hblock. reflexivity.
Qed.

(** C10, as the code has it.  The decoder has read the blocks [read] from
    the start of the data and the next block [buf] is a terminator block
    (at least block size - 5 of its bytes are 0xFF).  When the block read
    before it was not a terminator block (or [buf] is the first block),
    [buf] is not skipped: with a last byte other than 254, as in a block of
    0xFF, it is decoded as a click, the click index advances and the row of
    the click receives the fields derived from the bytes of [buf]; with a
    last byte 254 it is a minute marker and no click is decoded; in both
    cases the loop goes on.  When the block read before it was a terminator
    block, [buf] is the second terminator in a row and the loop ends at
    once, whatever the bytes of [buf], with the dataset unchanged and the
    rest of the file unread. *)
Theorem CPOD_terminator_block (ext : string) (data_buf_size n : nat)
    (pic_ver : Z) (read : list (list byte)) (buf fid : list byte)
    (current_click current_min file_ends : Z) (dat : FPODData.t) (fuel : nat) :
  CPOD_format ext data_buf_size ->
  CPOD_reach ext data_buf_size (FPODData_new n pic_ver) read
    current_click current_min file_ends dat ->
  length buf = data_buf_size ->
  eof buf = true ->
  (after_terminator read = false ->
   (at_ buf (data_buf_size - 1) <> 254 ->
    current_click + 1 < Z.of_nat n ->
    exists dat',
      CPOD_block ext data_buf_size buf current_click current_min file_ends dat
        = Some (Continue (current_click + 1) current_min 1 dat') /\
      CPOD_click_row ext buf current_min dat' (Z.to_nat (current_click + 1)) /\
      getCPODData_loop ext data_buf_size (length read + S fuel)
        (concat read ++ buf ++ fid) (-1) (-1) 0 (FPODData_new n pic_ver)
      = getCPODData_loop ext data_buf_size fuel fid
          (current_click + 1) current_min 1 dat') /\
   (at_ buf (data_buf_size - 1) = 254 ->
    CPOD_block ext data_buf_size buf current_click current_min file_ends dat
      = Some (Continue current_click (current_min + 1) 1 dat) /\
    getCPODData_loop ext data_buf_size (length read + S fuel)
      (concat read ++ buf ++ fid) (-1) (-1) 0 (FPODData_new n pic_ver)
    = getCPODData_loop ext data_buf_size fuel fid
        current_click (current_min + 1) 1 dat)) /\
  (after_terminator read = true ->
   CPOD_block ext data_buf_size buf current_click current_min file_ends dat
     = Some Break /\
   getCPODData_loop ext data_buf_size (length read + S fuel)
     (concat read ++ buf ++ fid) (-1) (-1) 0 (FPODData_new n pic_ver)
   = Returns (current_click, current_min, dat, fid)).
Proof.
  intros Hfmt Hreach Hlen Heof.
  destruct (CPOD_reach_file_ends _ _ _ _ _ _ _ _ _ Hreach) as (Hfe & Hs & Hcc).
  rewrite (CPOD_reach_loop _ _ _ _ _ _ _ _ Hreach (buf ++ fid) (S fuel)).
  rewrite getCPODData_loop_block by exact Hlen.
  split.
  - intros Hprev. rewrite Hprev in Hfe. subst file_ends. split.
    + intros Hlast Hroom.
      destruct (CPOD_click_run ext data_buf_size buf current_click current_min
                  dat n Hfmt Hs ltac:(lia)) as (dat' & Hclick & _ & Hrow & _).
      assert (Hblock :
        CPOD_block ext data_buf_size buf current_click current_min 0 dat
        = Some (Continue (current_click + 1) current_min 1 dat')).
      { unfold CPOD_block, last_byte. rewrite Heof.
        destruct (Z.eqb_spec (at_ buf (data_buf_size - 1)) 254); [contradiction|].
        cbn. rewrite Hclick. reflexivity. }
      exists dat'. rewrite Hblock. auto.
    + intros Hlast.
      assert (Hblock :
        CPOD_block ext data_buf_size buf current_click current_min 0 dat
        = Some (Continue current_click (current_min + 1) 1 dat)).
      { unfold CPOD_block, last_byte. rewrite Heof, Hlast. reflexivity. }
      rewrite Hblock. auto.
  - intros Hprev. rewrite Hprev in Hfe. subst file_ends.
    assert (Hblock :
      CPOD_block ext data_buf_size buf current_click current_min 1 dat
      = Some Break).
    { unfold CPOD_block. rewrite Heof. reflexivity. }
    rewrite Hblock. auto.
Qed.

Lemma CPOD_terminator_block_witness :
  (exists dat',
     CPOD_block "CP3" 40 (terminator_block 40) (-1) (-1) 0 (FPODData_new 3 0)
       = Some (Continue 0 (-1) 1 dat') /\
     FPODData.ncyc dat' !! 0%nat = Some 255 /\
     FPODData.khz dat' !! 0%nat = Some 255 /\
     FPODData.train_id dat' !! 0%nat = Some 255 /\
     CPOD_reach "CP3" 40 (FPODData_new 3 0) [terminator_block 40] 0 (-1) 1 dat' /\
     CPOD_block "CP3" 40 (terminator_block 40) 0 (-1) 1 dat' = Some Break /\
     getCPODData_loop "CP3" 40 2
       (terminator_block 40 ++ terminator_block 40 ++ cp1_click_block)
       (-1) (-1) 0 (FPODData_new 3 0)
     = Returns (0, -1, dat', cp1_click_block)) /\
  CPOD_block "CP1" 10 cp1_terminator_254 (-1) (-1) 0 (FPODData_new 3 0)
  = Some (Continue (-1) 0 1 (FPODData_new 3 0)).
Proof.
  assert (Hcp3 : CPOD_format "CP3" 40) by (right; split; reflexivity).
  assert (Hcp1 : CPOD_format "CP1" 10) by (left; split; reflexivity).
  destruct (CPOD_terminator_block "CP3" 40 3 0 [] (terminator_block 40) []
              (-1) (-1) 0 (FPODData_new 3 0) 0 Hcp3
              (CPOD_reach_start _ _ _) eq_refl eq_refl) as [Hfirst _].
  destruct (proj1 (Hfirst eq_refl) ltac:(vm_compute; discriminate) ltac:(lia))
    as (dat' & Hblock & Hrow & _).
  assert (Hreach : CPOD_reach "CP3" 40 (FPODData_new 3 0)
                     ([] ++ [terminator_block 40]) (-1 + 1) (-1) 1 dat').
  { eapply CPOD_reach_block; [apply CPOD_reach_start|reflexivity|exact Hblock]. }
  destruct (CPOD_terminator_block "CP3" 40 3 0 ([] ++ [terminator_block 40])
              (terminator_block 40) cp1_click_block
              (-1 + 1) (-1) 1 dat' 0 Hcp3 Hreach eq_refl eq_refl) as [_ Hsecond].
  destruct (Hsecond eq_refl) as [Hbreak Hloop].
  destruct (CPOD_terminator_block "CP1" 10 3 0 [] cp1_terminator_254 []
              (-1) (-1) 0 (FPODData_new 3 0) 0 Hcp1
              (CPOD_reach_start _ _ _) eq_refl eq_refl) as [Hmarker _].
  destruct (proj2 (Hmarker eq_refl) eq_refl) as [Hminute _].
  destruct Hrow as (_ & _ & Hncyc & Hkhz & _ & _ & Htrain).
  destruct (Htrain eq_refl) as (Hid & _).
  split; [|exact Hminute].
  exists dat'. split; [exact Hblock|].
  split; [exact Hncyc|]. split; [exact Hkhz|]. split; [exact Hid|].
  split; [exact Hreach|]. split; [exact Hbreak|exact Hloop].
Defined.

(** C10 fails as worded.  The CP1 block of nine bytes 0xFF and a last byte
    254 is a terminator block, and as the first block of the data it is not
    the second terminator in a row; it is read as a minute marker: the
    click index stays -1 and the dataset is unchanged, so that no click
    record is decoded from it. *)
Lemma CPOD_terminator_block_254_counterexample :
  eof cp1_terminator_254 = true /\
  after_terminator [] = false /\
  CPOD_block "CP1" 10 cp1_terminator_254 (-1) (-1) 0 (FPODData_new 3 0)
  = Some (Continue (-1) 0 1 (FPODData_new 3 0)) /\
  ~ (exists cm fe dat',
       CPOD_block "CP1" 10 cp1_terminator_254 (-1) (-1) 0 (FPODData_new 3 0)
       = Some (Continue (-1 + 1) cm fe dat')).
Proof.
  split; [reflexivity|]. split; [reflexivity|].
  assert (H : CPOD_block "CP1" 10 cp1_terminator_254 (-1) (-1) 0 (FPODData_new 3 0)
              = Some (Continue (-1) 0 1 (FPODData_new 3 0)))
    by (vm_compute; reflexivity).
  split; [exact H|].
  intros (cm & fe & dat' & H'). rewrite H in H'. discriminate H'.
Qed.

(** ** Four chunks for one click *)

(** C4 against the code.  The claim is for every click with one or more
    chunks.  For a click with four chunks, whatever its number and the
    values of the chunks, [wavToList] does not flatten the chunks in
    reverse order of insertion: the table it allocates has 21 rows, the
    rows of the chunk inserted first fall outside the vectors, and the
    behaviour is undefined. *)
Theorem wavToList_four_chunks (click : Z) (c1 c2 c3 c4 : WavDataChunk) :
  wavToList [Build_WavData click [c1; c2; c3; c4]] = None.
Proof.
  apply wavToList_overflows. unfold total_chunks. cbn [flat_map length app chunks].
  lia.
Qed.
